(** * Statistical-arbitrage signal and risk engine: model and properties

    A shallow embedding of the decision logic of the pairs-trading engine,
    one module per source file, followed by the properties proved of it:
    - [Risk]      : [analytics/risk.py]        (Kelly sizing, portfolio health)
    - [Pnl]       : [analytics/pnl_tracker.py] (the position simulator)
    - [Alerts]    : [alerts/engine.py]         (rules, cooldown, history)
    - [Stats]     : [analytics/statistical.py] (rolling z-score, half-life)

    Numbers.  Python floats are modelled by exact rationals [Q]; the special
    values a computation can produce ([nan], [+inf], [-inf]) are the extra
    constructors of [fval].  Rounding is not modelled.  A [datetime] is the
    number of microseconds since an arbitrary origin, a [Z]; a [timedelta] is
    a difference of two of them.

    Exceptions.  A Python call either returns or raises: [result].  Stateful
    methods return the object after the call next to the result.

    Libraries.  What the source takes from numpy, statsmodels and the
    standard library and is not rational arithmetic ([sqrt], [log], the
    least-squares fit, [str.format], the wall clock) is a section variable of
    the definitions that use it.  The rolling windows of pandas are written
    out. *)

From Stdlib Require Import QArith Qminmax Qabs Lqa ZArith Lia List Bool String.
From stdpp Require Import gmap strings list.

Import ListNotations.

(** * The model *)

(** ** Python values and arithmetic *)

Inductive exn : Type :=
| ZeroDivisionError
| ValueError
| TypeError
| OtherException (msg : string).

Inductive result (A : Type) : Type :=
| Return (a : A)
| Raise (e : exn).
Arguments Return {A} a.
Arguments Raise {A} e.

Definition rbind {A B : Type} (r : result A) (k : A -> result B) : result B :=
  match r with
  | Return a => k a
  | Raise e => Raise e
  end.

Notation "x <-! r ;; k" := (rbind r (fun x => k))
  (at level 100, r at next level, right associativity).

(** [a < b], [a > b], [a == b] on floats, as booleans. *)
Definition Qltb (a b : Q) : bool := negb (Qle_bool b a).
Definition Qgtb (a b : Q) : bool := Qltb b a.
Definition Qleb (a b : Q) : bool := Qle_bool a b.
Definition Qgeb (a b : Q) : bool := Qle_bool b a.
Definition Qeqb (a b : Q) : bool := Qeq_bool a b.

(** Python's two-argument [max] and [min]: the first argument is kept unless
    the second is strictly larger (smaller). *)
Definition py_max (a b : Q) : Q := if Qgtb b a then b else a.
Definition py_min (a b : Q) : Q := if Qltb b a then b else a.

(** [a / b] on Python floats: a zero divisor raises. *)
Definition py_div (a b : Q) : result Q :=
  if Qeqb b 0 then Raise ZeroDivisionError else Return (a / b)%Q.

(** A float as numpy and pandas hold it: not-a-number, an infinity, or finite. *)
Inductive fval : Type :=
| NaN
| PInf
| NInf
| Fin (q : Q).

Definition is_infinite (v : fval) : bool :=
  match v with
  | PInf | NInf => true
  | _ => false
  end.

Definition is_nan (v : fval) : bool :=
  match v with
  | NaN => true
  | _ => false
  end.

Definition fneg (v : fval) : fval :=
  match v with
  | NaN => NaN
  | PInf => NInf
  | NInf => PInf
  | Fin q => Fin (- q)%Q
  end.

(** Elementwise numpy division: it never raises; a zero divisor gives an
    infinity (or [nan] for [0/0]).  The sign of a zero is not modelled. *)
Definition fdiv (a b : fval) : fval :=
  match a, b with
  | NaN, _ | _, NaN => NaN
  | Fin x, Fin y =>
      if Qeqb y 0 then
        if Qeqb x 0 then NaN else if Qltb 0 x then PInf else NInf
      else Fin (x / y)%Q
  | Fin _, (PInf | NInf) => Fin 0
  | (PInf | NInf), (PInf | NInf) => NaN
  | PInf, Fin y => if Qltb y 0 then NInf else PInf
  | NInf, Fin y => if Qltb y 0 then PInf else NInf
  end.

Definition fsub (a b : fval) : fval :=
  match a, b with
  | NaN, _ | _, NaN => NaN
  | Fin x, Fin y => Fin (x - y)%Q
  | PInf, PInf | NInf, NInf => NaN
  | PInf, _ | _, NInf => PInf
  | NInf, _ | _, PInf => NInf
  end.

(** ** Floats with their special values *)

(** Arithmetic and comparisons where an operand may be [nan] or an infinity,
    as IEEE 754 defines them: every comparison with [nan] is false. *)
Definition fadd (a b : fval) : fval :=
  match a, b with
  | NaN, _ | _, NaN => NaN
  | Fin x, Fin y => Fin (x + y)%Q
  | PInf, NInf | NInf, PInf => NaN
  | PInf, _ | _, PInf => PInf
  | NInf, _ | _, NInf => NInf
  end.

Definition fmul (a b : fval) : fval :=
  match a, b with
  | NaN, _ | _, NaN => NaN
  | Fin x, Fin y => Fin (x * y)%Q
  | Fin x, PInf | PInf, Fin x =>
      if Qeqb x 0 then NaN else if Qltb 0 x then PInf else NInf
  | Fin x, NInf | NInf, Fin x =>
      if Qeqb x 0 then NaN else if Qltb 0 x then NInf else PInf
  | PInf, PInf | NInf, NInf => PInf
  | PInf, NInf | NInf, PInf => NInf
  end.

Definition fabs (v : fval) : fval :=
  match v with
  | NaN => NaN
  | PInf | NInf => PInf
  | Fin x => Fin (Qabs x)
  end.

Definition flt (a b : fval) : bool :=
  match a with
  | NaN | PInf => false
  | NInf => match b with Fin _ | PInf => true | _ => false end
  | Fin x => match b with Fin y => Qltb x y | PInf => true | _ => false end
  end.

Definition fle (a b : fval) : bool :=
  match a with
  | NaN => false
  | PInf => match b with PInf => true | _ => false end
  | NInf => match b with NaN => false | _ => true end
  | Fin x => match b with Fin y => Qleb x y | PInf => true | _ => false end
  end.

Definition fgt (a b : fval) : bool := flt b a.
Definition fge (a b : fval) : bool := fle b a.

Definition feq (a b : fval) : bool :=
  match a, b with
  | Fin x, Fin y => Qeqb x y
  | PInf, PInf | NInf, NInf => true
  | _, _ => false
  end.

(** Python's [max(a, b)] and [min(a, b)] on floats: [a] unless [b] compares
    strictly beyond it, so a [nan] in second place is dropped. *)
Definition py_fmax (a b : fval) : fval := if fgt b a then b else a.
Definition py_fmin (a b : fval) : fval := if flt b a then b else a.

(** ** analytics/risk.py *)

Module Risk.

(** A value stored in a metrics dictionary: [None] or a number. *)
Inductive pyval : Type :=
| PyNone
| PyNum (q : Q).

(** [RiskAnalytics.calculate_kelly_criterion].  The division by
    [win_loss_ratio] raises when [avg_win] is zero. *)
Definition calculate_kelly_criterion (win_rate avg_win avg_loss : Q) : result Q :=
  if Qeqb avg_loss 0 || Qeqb win_rate 0 then Return 0%Q
  else
    let loss_rate := (1 - win_rate)%Q in
    win_loss_ratio <-! py_div avg_win (Qabs avg_loss) ;;
    kelly <-! py_div (win_rate * win_loss_ratio - loss_rate)%Q win_loss_ratio ;;
    Return (py_max 0 (py_min kelly 0.25)).

(** The three component scores of [calculate_portfolio_health_score], in the
    order the function computes them. *)
Definition drawdown_score (current_dd_pct : Q) : Q :=
  if Qltb current_dd_pct 5 then 100
  else if Qltb current_dd_pct 10 then 90 - (current_dd_pct - 5) * 2
  else if Qltb current_dd_pct 20 then 80 - (current_dd_pct - 10)
  else if Qltb current_dd_pct 40 then 70 - (current_dd_pct - 20) * 1.5
  else py_max 0 (40 - (current_dd_pct - 40)).

Definition sharpe_score (sharpe : pyval) : Q :=
  match sharpe with
  | PyNone => 50
  | PyNum sharpe =>
      if Qgeb sharpe 2.0 then 100
      else if Qgeb sharpe 1.0 then 70 + (sharpe - 1.0) * 30
      else if Qgeb sharpe 0 then 50 + sharpe * 20
      else py_max 0 (50 + sharpe * 50)
  end.

Definition utilization_score (risk_util : Q) : Q :=
  if Qleb 50 risk_util && Qleb risk_util 80 then 100
  else if Qltb risk_util 50 then 70 + risk_util * 0.6
  else py_max 0 (100 - (risk_util - 80)).

Record HealthScore : Type := {
  health_score : Q;
  health_level : string;
  component_scores : gmap string Q
}.

Definition health_level_of (health_score : Q) : string :=
  if Qgeb health_score 80 then "Excellent"
  else if Qgeb health_score 65 then "Good"
  else if Qgeb health_score 50 then "Fair"
  else if Qgeb health_score 35 then "Poor"
  else "Critical".

(** A dictionary entry that is compared with a number: [None] there raises
    [TypeError]. *)
Definition as_number (v : pyval) : result Q :=
  match v with
  | PyNum q => Return q
  | PyNone => Raise TypeError
  end.

(** [RiskAnalytics.calculate_portfolio_health_score].  [risk_metrics.get(k, 0)]
    is [default (PyNum 0) (risk_metrics !! k)].  The emoji of the returned
    dictionary is a function of [health_level] and is left out. *)
Definition calculate_portfolio_health_score
    (risk_metrics : gmap string pyval) : result HealthScore :=
  current_dd_pct <-! as_number (default (PyNum 0) (risk_metrics !! "current_drawdown_pct")) ;;
  let dd_score := drawdown_score current_dd_pct in
  let sharpe := default (PyNum 0) (risk_metrics !! "sharpe_ratio") in
  let sharpe_score := sharpe_score sharpe in
  risk_util <-! as_number (default (PyNum 0) (risk_metrics !! "risk_utilization")) ;;
  let util_score := utilization_score risk_util in
  let health_score := (dd_score * 0.40 + sharpe_score * 0.35 + util_score * 0.25)%Q in
  Return {| health_score := health_score;
            health_level := health_level_of health_score;
            component_scores :=
              <["utilization_score" := util_score]>
                (<["sharpe_score" := sharpe_score]>
                   (<["drawdown_score" := dd_score]> ∅)) |}.

(** The health score of a dictionary, when the call returns. *)
Definition score_of (r : result HealthScore) : option Q :=
  match r with
  | Return h => Some (health_score h)
  | Raise _ => None
  end.

(** The outcomes of two calls are ordered: both raise, or both return and the
    first score is at most the second. *)
Definition score_le (a b : option Q) : Prop :=
  match a, b with
  | Some x, Some y => (x <= y)%Q
  | None, None => True
  | _, _ => False
  end.

(** Truth value of an optional number, as [if x] tests it: [None] and zero
    are false. *)
Definition truthy (x : option Q) : bool :=
  match x with
  | Some q => negb (Qeqb q 0)
  | None => false
  end.

(** The entry [kelly_pct] of [calculate_risk_metrics]: a win rate above 1 is
    read as a percentage, one of at most 1 as a fraction. *)
Definition kelly_pct (win_rate avg_win avg_loss : option Q) : result pyval :=
  match win_rate, avg_win, avg_loss with
  | Some w, Some a, Some l =>
      if truthy win_rate && truthy avg_win && truthy avg_loss then
        k <-! calculate_kelly_criterion (if Qgtb w 1 then w / 100 else w)%Q a l ;;
        Return (PyNum (k * 100)%Q)
      else Return PyNone
  | _, _, _ => Return PyNone
  end.

(** *** Drawdown *)

(** [Series.expanding().max()]: the running maximum. *)
Fixpoint expanding_max_from (m : Q) (l : list Q) : list Q :=
  match l with
  | [] => []
  | x :: l => py_max m x :: expanding_max_from (py_max m x) l
  end.

Definition expanding_max (l : list Q) : list Q :=
  match l with
  | [] => []
  | x :: l => x :: expanding_max_from x l
  end.

(** [Series.min()] of finite values, and of floats, where it skips [nan]
    (and is [nan] when nothing else is there). *)
Definition series_min (l : list Q) : option Q :=
  match l with
  | [] => None
  | x :: l => Some (fold_left py_min l x)
  end.

Definition fmin_skipna (a b : fval) : fval :=
  match a, b with
  | NaN, _ => b
  | _, NaN => a
  | _, _ => if flt b a then b else a
  end.

Definition fseries_min (l : list fval) : fval := fold_left fmin_skipna l NaN.

Record Drawdown : Type := {
  dd_max_drawdown : Q;
  dd_max_drawdown_pct : fval;
  dd_current_drawdown : Q;
  dd_current_drawdown_pct : fval;
  dd_peak_equity : Q
}.

(** [RiskAnalytics.calculate_max_drawdown] on a curve of finite values.  The
    division of the percentages is elementwise (it never raises). *)
Definition calculate_max_drawdown (equity_curve : list Q) : Drawdown :=
  if (length equity_curve <? 2)%nat then
    {| dd_max_drawdown := 0;
       dd_max_drawdown_pct := Fin 0;
       dd_current_drawdown := 0;
       dd_current_drawdown_pct := Fin 0;
       dd_peak_equity := match equity_curve with x :: _ => x | [] => 0%Q end |}
  else
    let running_max := expanding_max equity_curve in
    let drawdown := zip_with Qminus equity_curve running_max in
    let drawdown_pct :=
      zip_with (fun d m => fmul (fdiv (Fin d) (Fin m)) (Fin 100)) drawdown running_max in
    let max_dd := default 0%Q (series_min drawdown) in
    let max_dd_pct := fseries_min drawdown_pct in
    let current_dd := default 0%Q (last drawdown) in
    let current_dd_pct := default NaN (last drawdown_pct) in
    {| dd_max_drawdown := Qabs max_dd;
       dd_max_drawdown_pct := fabs max_dd_pct;
       dd_current_drawdown := Qabs current_dd;
       dd_current_drawdown_pct := fabs current_dd_pct;
       dd_peak_equity := default 0%Q (last running_max) |}.

(** The equity curve [_compute_analytics] (main.py) builds from the PnL of
    the closed trades. *)
Definition equity_curve_of (initial_capital : Q) (pnls : list Q) : list Q :=
  fold_left (fun cumulative_pnl pnl =>
               cumulative_pnl ++ [(default 0%Q (last cumulative_pnl) + pnl)%Q])
    pnls [initial_capital].

End Risk.

(** ** analytics/pnl_tracker.py *)

Module Pnl.

(** [Position.direction] holds one of the two strings ['long'], ['short']. *)
Inductive Direction : Type :=
| long
| short.

Record Position : Type := {
  entry_time : Z;
  entry_zscore : Q;
  entry_spread : Q;
  entry_price_1 : Q;
  entry_price_2 : Q;
  direction : Direction;
  size : Q;
  hedge_ratio : Q
}.

(** The fields of [ClosedTrade] carry the prefix [trade_]: several of them
    share their name with a field of [Position]. *)
Record ClosedTrade : Type := {
  trade_entry_time : Z;
  trade_exit_time : Z;
  trade_entry_zscore : Q;
  trade_exit_zscore : Q;
  trade_direction : Direction;
  trade_size : Q;
  trade_pnl : Q;
  trade_pnl_percent : Q;
  trade_hold_duration : Q;
  trade_max_favorable : Q;
  trade_max_adverse : Q
}.

Record PositionSimulator : Type := {
  initial_capital : Q;
  current_capital : Q;
  entry_threshold : Q;
  exit_threshold : Q;
  position_size_pct : Q;
  stop_loss_pct : Q;
  take_profit_pct : Q;
  current_position : option Position;
  closed_trades : list ClosedTrade;
  max_unrealized_profit : Q;
  max_unrealized_loss : Q;
  total_pnl : Q;
  win_count : Z;
  loss_count : Z;
  max_drawdown : Q;
  peak_capital : Q
}.

(** Assignments [self.field = v]. *)
Definition set_current_capital (v : Q) (s : PositionSimulator) : PositionSimulator :=
  Build_PositionSimulator (initial_capital s) v (entry_threshold s) (exit_threshold s)
    (position_size_pct s) (stop_loss_pct s) (take_profit_pct s) (current_position s)
    (closed_trades s) (max_unrealized_profit s) (max_unrealized_loss s) (total_pnl s)
    (win_count s) (loss_count s) (max_drawdown s) (peak_capital s).

Definition set_current_position (v : option Position) (s : PositionSimulator) : PositionSimulator :=
  Build_PositionSimulator (initial_capital s) (current_capital s) (entry_threshold s)
    (exit_threshold s) (position_size_pct s) (stop_loss_pct s) (take_profit_pct s) v
    (closed_trades s) (max_unrealized_profit s) (max_unrealized_loss s) (total_pnl s)
    (win_count s) (loss_count s) (max_drawdown s) (peak_capital s).

Definition set_closed_trades (v : list ClosedTrade) (s : PositionSimulator) : PositionSimulator :=
  Build_PositionSimulator (initial_capital s) (current_capital s) (entry_threshold s)
    (exit_threshold s) (position_size_pct s) (stop_loss_pct s) (take_profit_pct s)
    (current_position s) v (max_unrealized_profit s) (max_unrealized_loss s) (total_pnl s)
    (win_count s) (loss_count s) (max_drawdown s) (peak_capital s).

Definition set_max_unrealized_profit (v : Q) (s : PositionSimulator) : PositionSimulator :=
  Build_PositionSimulator (initial_capital s) (current_capital s) (entry_threshold s)
    (exit_threshold s) (position_size_pct s) (stop_loss_pct s) (take_profit_pct s)
    (current_position s) (closed_trades s) v (max_unrealized_loss s) (total_pnl s)
    (win_count s) (loss_count s) (max_drawdown s) (peak_capital s).

Definition set_max_unrealized_loss (v : Q) (s : PositionSimulator) : PositionSimulator :=
  Build_PositionSimulator (initial_capital s) (current_capital s) (entry_threshold s)
    (exit_threshold s) (position_size_pct s) (stop_loss_pct s) (take_profit_pct s)
    (current_position s) (closed_trades s) (max_unrealized_profit s) v (total_pnl s)
    (win_count s) (loss_count s) (max_drawdown s) (peak_capital s).

Definition set_total_pnl (v : Q) (s : PositionSimulator) : PositionSimulator :=
  Build_PositionSimulator (initial_capital s) (current_capital s) (entry_threshold s)
    (exit_threshold s) (position_size_pct s) (stop_loss_pct s) (take_profit_pct s)
    (current_position s) (closed_trades s) (max_unrealized_profit s)
    (max_unrealized_loss s) v (win_count s) (loss_count s) (max_drawdown s)
    (peak_capital s).

Definition set_win_count (v : Z) (s : PositionSimulator) : PositionSimulator :=
  Build_PositionSimulator (initial_capital s) (current_capital s) (entry_threshold s)
    (exit_threshold s) (position_size_pct s) (stop_loss_pct s) (take_profit_pct s)
    (current_position s) (closed_trades s) (max_unrealized_profit s)
    (max_unrealized_loss s) (total_pnl s) v (loss_count s) (max_drawdown s)
    (peak_capital s).

Definition set_loss_count (v : Z) (s : PositionSimulator) : PositionSimulator :=
  Build_PositionSimulator (initial_capital s) (current_capital s) (entry_threshold s)
    (exit_threshold s) (position_size_pct s) (stop_loss_pct s) (take_profit_pct s)
    (current_position s) (closed_trades s) (max_unrealized_profit s)
    (max_unrealized_loss s) (total_pnl s) (win_count s) v (max_drawdown s)
    (peak_capital s).

Definition set_max_drawdown (v : Q) (s : PositionSimulator) : PositionSimulator :=
  Build_PositionSimulator (initial_capital s) (current_capital s) (entry_threshold s)
    (exit_threshold s) (position_size_pct s) (stop_loss_pct s) (take_profit_pct s)
    (current_position s) (closed_trades s) (max_unrealized_profit s)
    (max_unrealized_loss s) (total_pnl s) (win_count s) (loss_count s) v
    (peak_capital s).

Definition set_peak_capital (v : Q) (s : PositionSimulator) : PositionSimulator :=
  Build_PositionSimulator (initial_capital s) (current_capital s) (entry_threshold s)
    (exit_threshold s) (position_size_pct s) (stop_loss_pct s) (take_profit_pct s)
    (current_position s) (closed_trades s) (max_unrealized_profit s)
    (max_unrealized_loss s) (total_pnl s) (win_count s) (loss_count s)
    (max_drawdown s) v.

(** [PositionSimulator.__init__]. *)
Definition init (initial_capital entry_threshold exit_threshold position_size_pct
    stop_loss_pct take_profit_pct : Q) : PositionSimulator :=
  {| initial_capital := initial_capital;
     current_capital := initial_capital;
     entry_threshold := entry_threshold;
     exit_threshold := exit_threshold;
     position_size_pct := position_size_pct;
     stop_loss_pct := stop_loss_pct;
     take_profit_pct := take_profit_pct;
     current_position := None;
     closed_trades := [];
     max_unrealized_profit := 0;
     max_unrealized_loss := 0;
     total_pnl := 0;
     win_count := 0;
     loss_count := 0;
     max_drawdown := 0;
     peak_capital := initial_capital |}.

(** The constructor's default arguments. *)
Definition default_simulator : PositionSimulator :=
  init 10000 2.0 0.2 0.10 0.05 0.10.

(** What an entry or an exit reports.  The source formats these fields into
    the returned (and logged) text; the exit reason is recorded nowhere else. *)
Inductive Signal : Type :=
| ENTRY (d : Direction) (zscore : Q)
| EXIT (reason : string) (pnl pnl_pct : Q).

(** [timedelta.total_seconds()] of a difference of two datetimes. *)
Definition total_seconds (microseconds : Z) : Q :=
  (inject_Z microseconds / 1000000)%Q.

(** [PositionSimulator.check_entry_signal]. *)
Definition check_entry_signal (self : PositionSimulator)
    (zscore spread price_1 price_2 hedge_ratio : Q) (timestamp : Z)
    : option Signal * PositionSimulator :=
  match current_position self with
  | Some _ => (None, self)
  | None =>
      if Qgtb (Qabs zscore) (entry_threshold self) then
        let direction := if Qgtb zscore 0 then short else long in
        let size := (current_capital self * position_size_pct self)%Q in
        let self :=
          set_current_position
            (Some {| entry_time := timestamp;
                     entry_zscore := zscore;
                     entry_spread := spread;
                     entry_price_1 := price_1;
                     entry_price_2 := price_2;
                     direction := direction;
                     size := size;
                     hedge_ratio := hedge_ratio |}) self in
        let self := set_max_unrealized_profit 0 self in
        let self := set_max_unrealized_loss 0 self in
        (Some (ENTRY direction zscore), self)
      else (None, self)
  end.

(** [PositionSimulator._calculate_pnl]: both divisions raise on a zero
    divisor ([entry_spread], then [size]). *)
Definition _calculate_pnl (self : PositionSimulator)
    (current_spread current_price_1 current_price_2 : Q) : result (Q * Q) :=
  match current_position self with
  | None => Return (0%Q, 0%Q)
  | Some pos =>
      let spread_change := (current_spread - entry_spread pos)%Q in
      pnl <-! match direction pos with
              | long =>
                  r <-! py_div spread_change (entry_spread pos) ;;
                  Return (size pos * r)%Q
              | short =>
                  r <-! py_div (- spread_change)%Q (entry_spread pos) ;;
                  Return (size pos * r)%Q
              end ;;
      ratio <-! py_div pnl (size pos) ;;
      Return (pnl, (ratio * 100)%Q)
  end.

(** [PositionSimulator._close_position].  An exception leaves the object as
    it is at the raising statement. *)
Definition _close_position (self : PositionSimulator)
    (exit_zscore exit_spread exit_price_1 exit_price_2 : Q) (exit_time : Z)
    (reason : string) : result (option Signal) * PositionSimulator :=
  match current_position self with
  | None => (Return None, self)
  | Some pos =>
      match _calculate_pnl self exit_spread exit_price_1 exit_price_2 with
      | Raise e => (Raise e, self)
      | Return (pnl, pnl_pct) =>
          let self := set_current_capital (current_capital self + pnl)%Q self in
          let self := set_total_pnl (total_pnl self + pnl)%Q self in
          let self :=
            if Qgtb (current_capital self) (peak_capital self)
            then set_peak_capital (current_capital self) self
            else self in
          match py_div (peak_capital self - current_capital self)%Q (peak_capital self) with
          | Raise e => (Raise e, self)
          | Return drawdown =>
              let self := set_max_drawdown (py_max (max_drawdown self) drawdown) self in
              let self :=
                if Qgtb pnl 0
                then set_win_count (win_count self + 1)%Z self
                else set_loss_count (loss_count self + 1)%Z self in
              let hold_duration := total_seconds (exit_time - entry_time pos)%Z in
              let trade :=
                {| trade_entry_time := entry_time pos;
                   trade_exit_time := exit_time;
                   trade_entry_zscore := entry_zscore pos;
                   trade_exit_zscore := exit_zscore;
                   trade_direction := direction pos;
                   trade_size := size pos;
                   trade_pnl := pnl;
                   trade_pnl_percent := pnl_pct;
                   trade_hold_duration := hold_duration;
                   trade_max_favorable := max_unrealized_profit self;
                   trade_max_adverse := max_unrealized_loss self |} in
              let self := set_closed_trades (closed_trades self ++ [trade]) self in
              let self := set_current_position None self in
              (Return (Some (EXIT reason pnl pnl_pct)), self)
          end
      end
  end.

Definition is_long (d : Direction) : bool :=
  match d with long => true | short => false end.

Definition is_short (d : Direction) : bool :=
  match d with short => true | long => false end.

(** [PositionSimulator.check_exit_signal]. *)
Definition check_exit_signal (self : PositionSimulator)
    (zscore spread price_1 price_2 : Q) (timestamp : Z)
    : result (option Signal) * PositionSimulator :=
  match current_position self with
  | None => (Return None, self)
  | Some pos =>
      match _calculate_pnl self spread price_1 price_2 with
      | Raise e => (Raise e, self)
      | Return (current_pnl, pnl_pct) =>
          let self :=
            set_max_unrealized_profit (py_max (max_unrealized_profit self) current_pnl) self in
          let self :=
            set_max_unrealized_loss (py_min (max_unrealized_loss self) current_pnl) self in
          let exit_reason : option string :=
            if Qltb (Qabs zscore) (exit_threshold self) then
              Some "Mean reversion complete"
            else if (is_long (direction pos) && Qgtb zscore 0)
                    || (is_short (direction pos) && Qltb zscore 0) then
              Some "Z-score crossed zero"
            else if Qltb current_pnl (- (size pos * stop_loss_pct self))%Q then
              Some "Stop loss"
            else if Qgtb current_pnl (size pos * take_profit_pct self)%Q then
              Some "Take profit"
            else None in
          match exit_reason with
          | Some exit_reason =>
              _close_position self zscore spread price_1 price_2 timestamp exit_reason
          | None => (Return None, self)
          end
      end
  end.

(** *** Performance metrics *)

Section Performance.

(** [numpy.sqrt], the one function of [get_performance_metrics] that is not
    rational arithmetic. *)
Variable np_sqrt : Q -> Q.

Definition py_sum (l : list Q) : Q := fold_left Qplus l 0%Q.

(** [numpy.mean] and [numpy.std] (population standard deviation) of a
    non-empty list. *)
Definition np_mean (l : list Q) : Q :=
  (py_sum l / inject_Z (Z.of_nat (length l)))%Q.

Definition np_std (l : list Q) : Q :=
  let m := np_mean l in
  np_sqrt (np_mean (map (fun x => ((x - m) * (x - m))%Q) l)).

(** [PositionSimulator.get_performance_metrics].  The returned dictionary
    maps field names to numbers. *)
Definition get_performance_metrics (self : PositionSimulator) : result (gmap string Q) :=
  let total_trades := length (closed_trades self) in
  if (total_trades =? 0)%nat then
    Return (list_to_map
      [("total_trades", 0%Q);
       ("win_rate", 0%Q);
       ("avg_win", 0%Q);
       ("avg_loss", 0%Q);
       ("profit_factor", 0%Q);
       ("sharpe_ratio", 0%Q);
       ("max_drawdown", 0%Q);
       ("total_pnl", 0%Q);
       ("current_capital", current_capital self)])
  else
    let n := inject_Z (Z.of_nat total_trades) in
    let win_rate :=
      if (0 <? total_trades)%nat then (inject_Z (win_count self) / n * 100)%Q else 0%Q in
    let wins := filter (fun p => Qgtb p 0 = true) (map trade_pnl (closed_trades self)) in
    let losses := filter (fun p => Qltb p 0 = true) (map trade_pnl (closed_trades self)) in
    let avg_win := match wins with [] => 0%Q | _ => np_mean wins end in
    let avg_loss := match losses with [] => 0%Q | _ => Qabs (np_mean losses) end in
    let total_wins := match wins with [] => 0%Q | _ => py_sum wins end in
    let total_losses := match losses with [] => 0%Q | _ => Qabs (py_sum losses) end in
    let profit_factor :=
      if Qgtb total_losses 0 then (total_wins / total_losses)%Q else 0%Q in
    let returns := map trade_pnl_percent (closed_trades self) in
    let sharpe_ratio :=
      if (1 <? length returns)%nat then
        let mean_return := np_mean returns in
        let std_return := np_std returns in
        if Qgtb std_return 0 then (mean_return / std_return * np_sqrt 252)%Q else 0%Q
      else 0%Q in
    total_return <-!
      py_div (current_capital self - initial_capital self)%Q (initial_capital self) ;;
    Return (list_to_map
      [("total_trades", n);
       ("win_rate", win_rate);
       ("avg_win", avg_win);
       ("avg_loss", avg_loss);
       ("profit_factor", profit_factor);
       ("sharpe_ratio", sharpe_ratio);
       ("max_drawdown", (max_drawdown self * 100)%Q);
       ("total_pnl", total_pnl self);
       ("total_return", (total_return * 100)%Q);
       ("current_capital", current_capital self);
       ("peak_capital", peak_capital self)]).

(** The fields the performance metrics are documented to carry. *)
Definition performance_fields : list string :=
  ["total_trades"; "win_rate"; "avg_win"; "avg_loss"; "profit_factor";
   "sharpe_ratio"; "max_drawdown"; "total_pnl"; "total_return";
   "current_capital"; "peak_capital"].

(** The fields of [performance_fields] a dictionary lacks. *)
Definition missing_fields (d : gmap string Q) : list string :=
  filter (fun k => d !! k = None) performance_fields.

End Performance.

(** *** Predicates and inputs of the statements *)

(** [out] is the outcome of an exit for [reason] from the open state
    [before], at unrealized PnL [pnl]: the exit is reported with that reason,
    the simulator is flat, and one trade was appended, which carries the
    extremes tracked up to and including this evaluation. *)
Definition exits_with (reason : string) (pnl pnl_pct : Q) (before : PositionSimulator)
    (out : result (option Signal) * PositionSimulator) : Prop :=
  fst out = Return (Some (EXIT reason pnl pnl_pct))
  /\ current_position (snd out) = None
  /\ exists trade,
       closed_trades (snd out) = closed_trades before ++ [trade]
       /\ trade_pnl trade = pnl
       /\ trade_max_favorable trade = max_unrealized_profit (snd out)
       /\ trade_max_adverse trade = max_unrealized_loss (snd out).

(** The object after the two tracker assignments of [check_exit_signal]. *)
Definition tracked (self : PositionSimulator) (current_pnl : Q) : PositionSimulator :=
  set_max_unrealized_loss (py_min (max_unrealized_loss self) current_pnl)
    (set_max_unrealized_profit (py_max (max_unrealized_profit self) current_pnl) self).

(** Condition 2 of the exit, as the source tests it. *)
Definition crossed_zero (d : Direction) (zscore : Q) : bool :=
  (is_long d && Qgtb zscore 0) || (is_short d && Qltb zscore 0).

(** The simulator of the example at the end of the source file, after its
    entry at z-score 2.5 and spread 10. *)
Definition open_short : PositionSimulator :=
  snd (check_entry_signal default_simulator 2.5 10 100 50 2 0).

(** *** The analytics cycle *)

(** What one cycle of [_compute_analytics] (main.py) hands to the simulator:
    the current z-score, spread, prices and hedge ratio, and the two readings
    of the clock. *)
Record Observation : Type := {
  obs_zscore : Q;
  obs_spread : Q;
  obs_price_1 : Q;
  obs_price_2 : Q;
  obs_hedge_ratio : Q;
  obs_entry_time : Z;
  obs_exit_time : Z
}.

(** The simulator after one cycle: the entry check, then the exit check on
    the same observation.  An exception of the exit check ends the cycle and
    leaves the object as it is then. *)
Definition cycle (self : PositionSimulator) (o : Observation) : PositionSimulator :=
  let self :=
    snd (check_entry_signal self (obs_zscore o) (obs_spread o) (obs_price_1 o)
           (obs_price_2 o) (obs_hedge_ratio o) (obs_entry_time o)) in
  snd (check_exit_signal self (obs_zscore o) (obs_spread o) (obs_price_1 o)
         (obs_price_2 o) (obs_exit_time o)).

Definition run (self : PositionSimulator) (observations : list Observation)
    : PositionSimulator :=
  fold_left cycle observations self.

(** [PositionSimulator.get_unrealized_pnl]; of the dictionary, the entries
    every branch writes and the two extremes. *)
Record UnrealizedPnl : Type := {
  has_position : bool;
  unrealized_pnl : Q;
  unrealized_pnl_percent : Q;
  max_favorable : option Q;
  max_adverse : option Q
}.

Definition get_unrealized_pnl (self : PositionSimulator)
    (current_spread current_price_1 current_price_2 : Q) : result UnrealizedPnl :=
  match current_position self with
  | None =>
      Return {| has_position := false;
                unrealized_pnl := 0;
                unrealized_pnl_percent := 0;
                max_favorable := None;
                max_adverse := None |}
  | Some _ =>
      match _calculate_pnl self current_spread current_price_1 current_price_2 with
      | Raise e => Raise e
      | Return (pnl, pnl_pct) =>
          Return {| has_position := true;
                    unrealized_pnl := pnl;
                    unrealized_pnl_percent := pnl_pct;
                    max_favorable := Some (max_unrealized_profit self);
                    max_adverse := Some (max_unrealized_loss self) |}
      end
  end.

(** A trade counts as a win when its PnL is positive, as [_close_position]
    and [get_trade_history] both test it. *)
Definition is_win (t : ClosedTrade) : bool := Qgtb (trade_pnl t) 0.

(** The extremes recorded with a trade enclose its PnL and zero. *)
Definition within_extremes (t : ClosedTrade) : Prop :=
  (trade_max_adverse t <= trade_pnl t)%Q
  /\ (trade_pnl t <= trade_max_favorable t)%Q
  /\ (trade_max_adverse t <= 0)%Q
  /\ (0 <= trade_max_favorable t)%Q.

(** The books of a simulator are in order. *)
Record consistent (s : PositionSimulator) : Prop := {
  initial_positive : (0 < initial_capital s)%Q;
  capital_books : (current_capital s == initial_capital s + total_pnl s)%Q;
  pnl_books : (total_pnl s == py_sum (map trade_pnl (closed_trades s)))%Q;
  wins_books :
    win_count s
    = Z.of_nat (length (filter (fun t => is_win t = true) (closed_trades s)));
  losses_books :
    loss_count s
    = Z.of_nat (length (filter (fun t => is_win t = false) (closed_trades s)));
  peak_books : (current_capital s <= peak_capital s)%Q;
  peak_initial : (initial_capital s <= peak_capital s)%Q;
  drawdown_books : (0 <= max_drawdown s)%Q;
  loss_extreme : (max_unrealized_loss s <= 0)%Q;
  profit_extreme : (0 <= max_unrealized_profit s)%Q;
  trades_books : Forall within_extremes (closed_trades s);
  peak_curve :
    (peak_capital s
     == default 0%Q
          (last (Risk.expanding_max
                   (Risk.equity_curve_of (initial_capital s)
                      (map trade_pnl (closed_trades s))))))%Q
}.

(** Two observations of the example at the end of the source file. *)
Definition example_observations : list Observation :=
  [ {| obs_zscore := 2.5; obs_spread := 10; obs_price_1 := 100; obs_price_2 := 50;
       obs_hedge_ratio := 2; obs_entry_time := 0; obs_exit_time := 1 |};
    {| obs_zscore := 0.1; obs_spread := 8; obs_price_1 := 98; obs_price_2 := 49;
       obs_hedge_ratio := 2; obs_entry_time := 60000000; obs_exit_time := 60000001 |} ].


End Pnl.

(** ** alerts/engine.py *)

Module Alerts.

Inductive AlertType : Type :=
| ZSCORE_THRESHOLD
| SPREAD_BREAKOUT
| VOLATILITY_SPIKE
| CORRELATION_BREAK
| CUSTOM.

Inductive AlertSeverity : Type :=
| INFO
| WARNING
| CRITICAL.

(** [condition] is any callable: it returns a truth value or raises.  Its
    third argument is the optional [analytics_data] dictionary. *)
Record AlertRule : Type := {
  rule_id : string;
  alert_type : AlertType;
  symbol : string;
  condition : Q -> Q -> option (gmap string Q) -> result bool;
  threshold : Q;
  severity : AlertSeverity;
  cooldown_seconds : Z;
  message_template : string;
  enabled : bool
}.

(** The fields of [Alert] carry the prefix [a_]: most of them share their
    name with a field of [AlertRule]. *)
Record Alert : Type := {
  a_rule_id : string;
  a_alert_type : AlertType;
  a_symbol : string;
  a_severity : AlertSeverity;
  a_message : string;
  a_value : Q;
  a_threshold : Q;
  a_timestamp : Z
}.

(** A registered callback, called with the alert: it returns or raises.  What
    it does outside the engine is not modelled. *)
Definition Callback : Type := Alert -> result unit.

Record AlertEngine : Type := {
  check_interval : Q;
  rules : gmap string AlertRule;
  alert_history : list Alert;
  last_trigger_times : gmap string Z;
  callbacks : list Callback;
  running : bool
}.

(** What the engine does to its surroundings, in order: the log lines it
    writes and the callbacks it invokes (by position in [callbacks]). *)
Inductive Event : Type :=
| RuleAdded (rule_id symbol : string)
| RuleRemoved (rule_id : string)
| RuleError (rule_id : string) (e : exn)
| CallbackCalled (index : nat) (alert : Alert)
| CallbackError (e : exn)
| AlertLogged (message : string)
| HistoryCleared.

(** The surroundings: how many times the wall clock was read, and the events
    so far (oldest first). *)
Record Env : Type := {
  reads : nat;
  events : list Event
}.

Definition emit (ev : Event) (env : Env) : Env :=
  {| reads := reads env; events := events env ++ [ev] |}.

Definition set_rules (v : gmap string AlertRule) (s : AlertEngine) : AlertEngine :=
  Build_AlertEngine (check_interval s) v (alert_history s) (last_trigger_times s)
    (callbacks s) (running s).

Definition set_alert_history (v : list Alert) (s : AlertEngine) : AlertEngine :=
  Build_AlertEngine (check_interval s) (rules s) v (last_trigger_times s)
    (callbacks s) (running s).

Definition set_last_trigger_times (v : gmap string Z) (s : AlertEngine) : AlertEngine :=
  Build_AlertEngine (check_interval s) (rules s) (alert_history s) v
    (callbacks s) (running s).

Definition set_callbacks (v : list Callback) (s : AlertEngine) : AlertEngine :=
  Build_AlertEngine (check_interval s) (rules s) (alert_history s)
    (last_trigger_times s) v (running s).

Definition set_enabled (v : bool) (r : AlertRule) : AlertRule :=
  Build_AlertRule (rule_id r) (alert_type r) (symbol r) (condition r) (threshold r)
    (severity r) (cooldown_seconds r) (message_template r) v.

(** [AlertEngine.__init__]. *)
Definition init (check_interval : Q) : AlertEngine :=
  {| check_interval := check_interval;
     rules := ∅;
     alert_history := [];
     last_trigger_times := ∅;
     callbacks := [];
     running := false |}.

Definition add_rule (self : AlertEngine) (env : Env) (rule : AlertRule)
    : AlertEngine * Env :=
  (set_rules (<[rule_id rule := rule]> (rules self)) self,
   emit (RuleAdded (rule_id rule) (symbol rule)) env).

Definition remove_rule (self : AlertEngine) (env : Env) (rule_id : string)
    : AlertEngine * Env :=
  match rules self !! rule_id with
  | Some _ => (set_rules (delete rule_id (rules self)) self, emit (RuleRemoved rule_id) env)
  | None => (self, env)
  end.

Definition enable_rule (self : AlertEngine) (rule_id : string) : AlertEngine :=
  set_rules (alter (set_enabled true) rule_id (rules self)) self.

Definition disable_rule (self : AlertEngine) (rule_id : string) : AlertEngine :=
  set_rules (alter (set_enabled false) rule_id (rules self)) self.

Definition register_callback (self : AlertEngine) (callback : Callback) : AlertEngine :=
  set_callbacks (callbacks self ++ [callback]) self.

(** [timedelta.total_seconds()]. *)
Definition total_seconds (microseconds : Z) : Q :=
  (inject_Z microseconds / 1000000)%Q.

(** The callback loop of [check_rule]: an exception of one callback is logged
    and the loop goes on. *)
Fixpoint run_callbacks (cbs : list Callback) (index : nat) (alert : Alert) (env : Env)
    : Env :=
  match cbs with
  | [] => env
  | callback :: rest =>
      let env := emit (CallbackCalled index alert) env in
      let env :=
        match callback alert with
        | Return _ => env
        | Raise e => emit (CallbackError e) env
        end in
      run_callbacks rest (S index) alert env
  end.

Section Engine.

(** The wall clock: [wall n] is what the [n]-th call of [datetime.now()]
    returns, in microseconds. *)
Variable wall : nat -> Z.

(** [str.format] applied to a template with the keywords [symbol], [value]
    and [threshold]; it raises on a template it cannot fill. *)
Variable format_message : string -> string -> Q -> Q -> result string.

Definition now (env : Env) : Z * Env :=
  (wall (reads env), {| reads := S (reads env); events := events env |}).

(** The cooldown test of [check_rule]: the clock is read only when the rule
    has fired before. *)
Definition in_cooldown (self : AlertEngine) (env : Env) (rule : AlertRule) : bool * Env :=
  match last_trigger_times self !! rule_id rule with
  | Some last_trigger =>
      let (t, env) := now env in
      let elapsed := total_seconds (t - last_trigger) in
      (Qltb elapsed (inject_Z (cooldown_seconds rule)), env)
  | None => (false, env)
  end.

(** [AlertEngine.check_rule]. *)
Definition check_rule (self : AlertEngine) (env : Env) (rule : AlertRule)
    (current_value : Q) (analytics_data : option (gmap string Q))
    : result (option Alert) * AlertEngine * Env :=
  if negb (enabled rule) then (Return None, self, env)
  else
    let (cooling, env) := in_cooldown self env rule in
    if cooling then (Return None, self, env)
    else
      match condition rule current_value (threshold rule) analytics_data with
      | Raise e => (Return None, self, emit (RuleError (rule_id rule) e) env)
      | Return false => (Return None, self, env)
      | Return true =>
          match format_message (message_template rule) (symbol rule)
                  current_value (threshold rule) with
          | Raise e => (Raise e, self, env)
          | Return message =>
              let (t_alert, env) := now env in
              let alert :=
                {| a_rule_id := rule_id rule;
                   a_alert_type := alert_type rule;
                   a_symbol := symbol rule;
                   a_severity := severity rule;
                   a_message := message;
                   a_value := current_value;
                   a_threshold := threshold rule;
                   a_timestamp := t_alert |} in
              let (t_store, env) := now env in
              let self :=
                set_last_trigger_times
                  (<[rule_id rule := t_store]> (last_trigger_times self)) self in
              let self := set_alert_history (alert_history self ++ [alert]) self in
              let env := run_callbacks (callbacks self) 0 alert env in
              let env := emit (AlertLogged (a_message alert)) env in
              (Return (Some alert), self, env)
          end
      end.

(** [AlertEngine.get_recent_alerts]. *)
Definition get_recent_alerts (self : AlertEngine) (env : Env) (minutes : Z)
    : list Alert * Env :=
  let (t, env) := now env in
  let cutoff := (t - minutes * 60 * 1000000)%Z in
  (filter (fun a => (cutoff < a_timestamp a)%Z) (alert_history self), env).

(** [AlertEngine.get_alerts_by_symbol]. *)
Definition get_alerts_by_symbol (self : AlertEngine) (symbol : string) : list Alert :=
  filter (fun a => a_symbol a = symbol) (alert_history self).

(** [AlertEngine.clear_history]. *)
Definition clear_history (self : AlertEngine) (env : Env) : AlertEngine * Env :=
  (set_alert_history [] self, emit HistoryCleared env).

End Engine.

(** [AlertConditions.zscore_above]. *)
Definition zscore_above (value threshold : Q) (data : option (gmap string Q))
    : result bool :=
  Return (Qgtb (Qabs value) threshold).

(** [AlertConditions.zscore_exit]. *)
Definition zscore_exit (value threshold : Q) (data : option (gmap string Q))
    : result bool :=
  Return (Qltb (Qabs value) threshold).

(** [AlertConditions.correlation_break]. *)
Definition correlation_break (value threshold : Q) (data : option (gmap string Q))
    : result bool :=
  Return (Qltb value threshold).

(** [AlertConditions.volatility_spike]: without data, or without the key
    (as in the empty dictionary), the answer is [False]; the division raises
    on a zero historical volatility. *)
Definition volatility_spike (value threshold : Q) (data : option (gmap string Q))
    : result bool :=
  match data with
  | None => Return false
  | Some data =>
      match data !! "historical_vol" with
      | None => Return false
      | Some historical_vol =>
          ratio <-! py_div value historical_vol ;;
          Return (Qgtb ratio threshold)
      end
  end.

(** [AlertRuleBuilder.zscore_threshold_alert]; [rule_id] is the text the
    source builds from the symbol and the threshold. *)
Definition zscore_threshold_alert (rule_id symbol : string) (threshold : Q)
    (severity : AlertSeverity) : AlertRule :=
  {| rule_id := rule_id;
     alert_type := ZSCORE_THRESHOLD;
     symbol := symbol;
     condition := zscore_above;
     threshold := threshold;
     severity := severity;
     cooldown_seconds := 60;
     message_template := "Z-score for {symbol} = {value:.2f} (threshold: {threshold})";
     enabled := true |}.

(** *** Predicates and inputs of the statements *)

(** The callback invocations among a list of events, in order. *)
Definition calls_of (evs : list Event) : list (nat * Alert) :=
  omap (fun ev => match ev with
                  | CallbackCalled i a => Some (i, a)
                  | _ => None
                  end) evs.

(** The rule fired before and the clock, read now, is less than
    [cooldown_seconds] past that firing. *)
Definition cooling (wall : nat -> Z) (self : AlertEngine) (env : Env) (rule : AlertRule)
    : Prop :=
  exists last,
    last_trigger_times self !! rule_id rule = Some last
    /\ (wall (reads env) - last < cooldown_seconds rule * 1000000)%Z.

(** Clock readings of a run: two at the first firing, one 30 seconds and one
    61 seconds later, then the two of the second firing. *)
Definition example_wall (n : nat) : Z :=
  nth n [0; 0; 30000000; 61000000; 61000000; 61000001]%Z 61000001%Z.

(** A formatter that succeeds on every template (it returns the template
    with no placeholder filled in). *)
Definition example_format (template symbol : string) (value threshold : Q)
    : result string :=
  Return template.

Definition example_rule : AlertRule :=
  zscore_threshold_alert "zscore_btcusdt-ethusdt_2.0" "btcusdt-ethusdt" 2.0 WARNING.

Definition failing_callback : Callback :=
  fun _ => Raise (OtherException "listener failed").

Definition quiet_callback : Callback :=
  fun _ => Return tt.

(** An engine with the example rule and two callbacks, the first of which
    raises. *)
Definition example_engine : AlertEngine :=
  register_callback
    (register_callback
       (add_rule (init 0.1) {| reads := 0; events := [] |} example_rule).1
       failing_callback)
    quiet_callback.

End Alerts.

(** ** analytics/statistical.py *)

Module Stats.

(** A [pandas.Series] of prices or spreads, by position: a finite sample or a
    missing one ([NaN]). *)
Definition to_fval (x : option Q) : fval :=
  match x with
  | Some q => Fin q
  | None => NaN
  end.

(** [Series.dropna()], values only. *)
Definition observations (series : list (option Q)) : list Q := omap id series.

Definition q_sum (l : list Q) : Q := fold_right Qplus 0%Q l.

Definition q_of_nat (n : nat) : Q := inject_Z (Z.of_nat n).

Definition mean (l : list Q) : Q := (q_sum l / q_of_nat (length l))%Q.

(** Sample variance (one degree of freedom removed), as [Series.std] uses. *)
Definition sample_var (l : list Q) : Q :=
  let m := mean l in
  (q_sum (map (fun x => (x - m) * (x - m)) l) / q_of_nat (length l - 1))%Q.

(** The samples a rolling window of width [window] sees at position [i]. *)
Definition window_at (series : list (option Q)) (window i : nat) : list (option Q) :=
  drop (S i - window) (take (S i) series).

Section Numeric.

(** [numpy.sqrt] and [numpy.log] on the finite arguments they are defined
    on, and the coefficient of the no-intercept least-squares fit
    [OLS(y, x).fit().params[0]], which may raise. *)
Variable np_sqrt : Q -> Q.
Variable np_ln : Q -> Q.
Variable ols_fit : list Q -> list Q -> result Q.

(** [series.rolling(window, min_periods).mean()]: a value where the window
    holds at least [min_periods] (and at least one) samples. *)
Definition rolling_mean (series : list (option Q)) (window min_periods : nat) : list fval :=
  (fun i =>
     let obs := observations (window_at series window i) in
     if (min_periods <=? length obs)%nat && (0 <? length obs)%nat
     then Fin (mean obs) else NaN)
  <$> seq 0 (length series).

(** [series.rolling(window, min_periods).std()]: a value where the window
    holds at least [min_periods] (and at least two) samples. *)
Definition rolling_std (series : list (option Q)) (window min_periods : nat) : list fval :=
  (fun i =>
     let obs := observations (window_at series window i) in
     if (min_periods <=? length obs)%nat && (1 <? length obs)%nat
     then Fin (np_sqrt (sample_var obs)) else NaN)
  <$> seq 0 (length series).

(** [Series.replace(0, np.nan)]. *)
Definition replace_zero (l : list fval) : list fval :=
  (fun v => match v with
            | Fin s => if Qeqb s 0 then NaN else Fin s
            | _ => v
            end) <$> l.

(** [StatisticalAnalytics.calculate_zscore].  [rolling] refuses a
    [min_periods] larger than the window. *)
Definition calculate_zscore (series : list (option Q)) (window min_periods : nat)
    : result (list fval) :=
  if (length series <? min_periods)%nat then Return (replicate (length series) NaN)
  else if (window <? min_periods)%nat then Raise ValueError
  else
    let rolling_mean := rolling_mean series window min_periods in
    let rolling_std := rolling_std series window min_periods in
    let rolling_std := replace_zero rolling_std in
    let zscore :=
      zip_with fdiv (zip_with fsub (to_fval <$> series) rolling_mean) rolling_std in
    Return zscore.

(** [numpy.log]: [nan] below zero, [-inf] at zero. *)
Definition np_log (x : Q) : fval :=
  if Qltb x 0 then NaN else if Qeqb x 0 then NInf else Fin (np_ln x).

(** The rows of the data frame of [calculate_half_life]: at each position
    after the first, the change of the spread and its previous value. *)
Definition spread_ret (spread_clean : list Q) : list Q :=
  zip_with Qminus (drop 1 spread_clean) spread_clean.

Definition spread_lag (spread_clean : list Q) : list Q :=
  take (length spread_clean - 1) spread_clean.

Definition lag_pairs (spread : list (option Q)) : list (Q * Q) :=
  let spread_clean := observations spread in
  zip (spread_ret spread_clean) (spread_lag spread_clean).

(** [StatisticalAnalytics.calculate_half_life]. *)
Definition calculate_half_life (spread : list (option Q)) : fval :=
  let spread_clean := observations spread in
  if (length spread_clean <? 20)%nat then NaN
  else
    let df := lag_pairs spread in
    if (length df <? 10)%nat then NaN
    else
      match ols_fit (map fst df) (map snd df) with
      | Raise _ => NaN
      | Return lambda_coef =>
          if Qgeb lambda_coef 0 then PInf
          else fdiv (fneg (np_log 2)) (np_log (1 + lambda_coef))
      end.

End Numeric.

(** *** Predicates and inputs of the statements *)

(** The least-squares slope through the origin, [sum(x*y) / sum(x*x)], and 0
    for an all-zero regressor (the pseudo-inverse solution). *)
Definition ols_no_intercept (y x : list Q) : result Q :=
  let sxx := q_sum (zip_with Qmult x x) in
  if Qeqb sxx 0 then Return 0%Q
  else Return (q_sum (zip_with Qmult x y) / sxx)%Q.

(** Fifteen samples of a spread reverting towards zero. *)
Definition spread15 : list (option Q) :=
  map (fun n => Some (inject_Z (Z.of_nat n))) (rev (seq 1 15)).

(** A value that is [nan] or finite. *)
Definition not_infinite (v : fval) : Prop := is_infinite v = false.

(** A divisor that cannot produce an infinity: [nan], or finite and not 0. *)
Definition safe_divisor (v : fval) : Prop :=
  match v with
  | NaN => True
  | Fin s => ~ (s == 0)%Q
  | _ => False
  end.

(** A stand-in for the logarithm that is negative on (0, 1): its tangent at 1. *)
Definition ln_tangent (x : Q) : Q := (x - 1)%Q.

(** Twenty samples of a spread reverting towards zero. *)
Definition spread20 : list (option Q) :=
  map (fun n => Some (inject_Z (Z.of_nat n))) (rev (seq 1 20)).

(** Twenty samples of a spread drifting away from zero. *)
Definition trend20 : list (option Q) :=
  map (fun n => Some (inject_Z (Z.of_nat n))) (seq 1 20).

(** *** Execution analytics *)

(** [ExecutionAnalytics.calculate_trade_imbalance]. *)
Definition calculate_trade_imbalance (buy_volume sell_volume : Q) : result Q :=
  let total := (buy_volume + sell_volume)%Q in
  if Qeqb total 0 then Return 0%Q
  else py_div (buy_volume - sell_volume)%Q total.

(** [ExecutionAnalytics.calculate_vwap], on two series of finite samples
    that share their index (a row one of them lacks does not count in the
    sum of the products). *)
Definition calculate_vwap (prices volumes : list Q) : fval :=
  if (length prices =? 0)%nat || Qeqb (q_sum volumes) 0 then NaN
  else fdiv (Fin (q_sum (zip_with Qmult prices volumes))) (Fin (q_sum volumes)).

(** [StatisticalAnalytics.adf_test].  [adfuller] is the test of statsmodels,
    which gives the statistic and the p-value or raises; the critical
    values, the lag and the number of observations of the returned
    dictionary are left out. *)
Record AdfResult : Type := {
  statistic : fval;
  p_value : fval;
  is_stationary : bool
}.

Definition adf_undefined : AdfResult :=
  {| statistic := NaN; p_value := NaN; is_stationary := false |}.

Definition adf_test (adfuller : list Q -> option Z -> result (fval * fval))
    (series : list (option Q)) (max_lag : option Z) (significance : Q)
    : AdfResult :=
  if (length series <? 20)%nat then adf_undefined
  else
    let series_clean := observations series in
    if (length series_clean <? 20)%nat then adf_undefined
    else
      match adfuller series_clean max_lag with
      | Return (stat, pvalue) =>
          {| statistic := stat;
             p_value := pvalue;
             is_stationary := flt pvalue (Fin significance) |}
      | Raise _ => adf_undefined
      end.

(** A half-life a trader can read: undefined, never reverting, or a
    non-negative number of periods. *)
Definition half_life_readable (v : fval) : Prop :=
  match v with
  | NaN | PInf => True
  | Fin h => (0 <= h)%Q
  | NInf => False
  end.

End Stats.

(** ** storage/redis_cache.py: the in-memory tick buffer *)

Module Storage.

(** A tick as the application buffers it, after validation: the four
    required fields of the dictionary are present. *)
Record Tick : Type := {
  tick_symbol : string;
  tick_timestamp : Z;
  tick_price : Q;
  tick_size : Q
}.

Record TickBuffer : Type := {
  max_size : Z;
  buffers : gmap string (list Tick)
}.

(** The slice [l[-n:]]: the last [n] elements for a positive [n], the whole
    list for [n = 0] (as [-0] is [0]), and [l[k:]] for [n = -k < 0]. *)
Definition last_n {A : Type} (l : list A) (n : Z) : list A :=
  if (n =? 0)%Z then l
  else if (0 <? n)%Z then drop (length l - Z.to_nat n) l
  else drop (Z.to_nat (- n)) l.

(** [TickBuffer.__init__]. *)
Definition init (max_size : Z) : TickBuffer :=
  {| max_size := max_size; buffers := ∅ |}.

(** [TickBuffer.add_tick]. *)
Definition add_tick (self : TickBuffer) (tick : Tick) : TickBuffer :=
  let symbol := tick_symbol tick in
  let buffers :=
    match buffers self !! symbol with
    | Some _ => buffers self
    | None => <[symbol := []]> (buffers self)
    end in
  let appended := default [] (buffers !! symbol) ++ [tick] in
  let buffers := <[symbol := appended]> buffers in
  let buffers :=
    if (max_size self <? Z.of_nat (length appended))%Z
    then <[symbol := last_n appended (max_size self)]> buffers
    else buffers in
  {| max_size := max_size self; buffers := buffers |}.

(** [TickBuffer.get_ticks]. *)
Definition get_ticks (self : TickBuffer) (symbol : string) (count : option Z) : list Tick :=
  match buffers self !! symbol with
  | None => []
  | Some buffer =>
      match count with
      | None => buffer
      | Some count => last_n buffer count
      end
  end.

(** [TickBuffer.get_latest_price]. *)
Definition get_latest_price (self : TickBuffer) (symbol : string) : option Q :=
  match get_ticks self symbol (Some 1%Z) with
  | [] => None
  | tick :: _ => Some (tick_price tick)
  end.

(** [TickBuffer.clear]: the test [if symbol] fails for [None] and for the
    empty string alike. *)
Definition clear (self : TickBuffer) (symbol : option string) : TickBuffer :=
  match symbol with
  | Some symbol =>
      if String.eqb symbol "" then {| max_size := max_size self; buffers := ∅ |}
      else {| max_size := max_size self; buffers := <[symbol := []]> (buffers self) |}
  | None => {| max_size := max_size self; buffers := ∅ |}
  end.

(** The ticks of [symbol] among [ticks], in arrival order. *)
Definition ticks_of (symbol : string) (ticks : list Tick) : list Tick :=
  filter (fun t => tick_symbol t = symbol) ticks.

(** The buffer after the ticks [ticks] arrived, oldest first. *)
Definition feed (self : TickBuffer) (ticks : list Tick) : TickBuffer :=
  fold_left add_tick ticks self.

(** Four ticks of two symbols. *)
Definition example_ticks : list Tick :=
  [ {| tick_symbol := "btcusdt"; tick_timestamp := 0; tick_price := 100; tick_size := 1 |};
    {| tick_symbol := "ethusdt"; tick_timestamp := 1; tick_price := 50; tick_size := 2 |};
    {| tick_symbol := "btcusdt"; tick_timestamp := 2; tick_price := 101; tick_size := 1 |};
    {| tick_symbol := "btcusdt"; tick_timestamp := 3; tick_price := 102; tick_size := 3 |} ].

End Storage.

(** ** ingestion/websocket_client.py: validation, and main.py's buffering *)

Module Ingestion.

(** A tick as it arrives, a dictionary in which each of the four required
    fields may be absent. *)
Record RawTick : Type := {
  raw_symbol : option string;
  raw_timestamp : option Z;
  raw_price : option Q;
  raw_size : option Q
}.

(** [timedelta.total_seconds()]. *)
Definition total_seconds (microseconds : Z) : Q :=
  (inject_Z microseconds / 1000000)%Q.

(** [DataValidator.validate_tick]; [now] is the reading of the clock. *)
Definition validate_tick (now : Z) (tick : RawTick) : bool :=
  match raw_symbol tick, raw_timestamp tick, raw_price tick, raw_size tick with
  | Some _, Some timestamp, Some price, Some size =>
      if Qleb price 0 || Qleb size 0 then false
      else
        let age := total_seconds (now - timestamp) in
        if Qgtb age 300 then false else true
  | _, _, _, _ => false
  end.

(** The buffered form of a tick that has all four fields. *)
Definition to_tick (tick : RawTick) : option Storage.Tick :=
  match raw_symbol tick, raw_timestamp tick, raw_price tick, raw_size tick with
  | Some symbol, Some timestamp, Some price, Some size =>
      Some {| Storage.tick_symbol := symbol;
              Storage.tick_timestamp := timestamp;
              Storage.tick_price := price;
              Storage.tick_size := size |}
  | _, _, _, _ => None
  end.

(** The in-memory part of [on_tick_received] (main.py): a tick that fails the
    validation is dropped, a valid one is buffered.  An arrival is a tick
    with the reading of the clock at its validation. *)
Definition on_tick_received (tick_buffer : Storage.TickBuffer) (arrival : Z * RawTick)
    : Storage.TickBuffer :=
  let (now, tick) := arrival in
  if validate_tick now tick then
    match to_tick tick with
    | Some t => Storage.add_tick tick_buffer t
    | None => tick_buffer
    end
  else tick_buffer.

Definition receive (tick_buffer : Storage.TickBuffer) (arrivals : list (Z * RawTick))
    : Storage.TickBuffer :=
  fold_left on_tick_received arrivals tick_buffer.

(** Every buffer holds only ticks that satisfy [P] and carry its symbol. *)
Definition all_ticks (P : Storage.Tick -> Prop) (self : Storage.TickBuffer) : Prop :=
  forall symbol l,
    Storage.buffers self !! symbol = Some l ->
    Forall (fun t => P t /\ Storage.tick_symbol t = symbol) l.

End Ingestion.

(** ** analytics/signal_quality.py *)

Module Signal.

Definition EXCEPTIONAL_THRESHOLD : Q := 90.
Definition STRONG_THRESHOLD : Q := 75.
Definition MODERATE_THRESHOLD : Q := 60.
Definition WEAK_THRESHOLD : Q := 40.

(** [SignalQualityScorer.calculate_zscore_score], on a finite z-score. *)
Definition calculate_zscore_score (zscore threshold : Q) : result Q :=
  let abs_zscore := Qabs zscore in
  score <-!
    (if Qltb abs_zscore threshold then
       ratio <-! py_div abs_zscore threshold ;;
       Return (ratio * 50)%Q
     else
       let excess := (abs_zscore - threshold)%Q in
       Return (50 + py_min (excess / 1.0) 1.0 * 50)%Q) ;;
  Return (py_min score 100).

(** [SignalQualityScorer.calculate_correlation_score], on a finite
    correlation. *)
Definition calculate_correlation_score (correlation threshold : Q) : Q :=
  let abs_corr := Qabs correlation in
  let score :=
    if Qgeb abs_corr 0.85 then (90 + (abs_corr - 0.85) / 0.15 * 10)%Q
    else if Qgeb abs_corr threshold then (70 + (abs_corr - threshold) / 0.15 * 20)%Q
    else if Qgeb abs_corr 0.50 then (40 + (abs_corr - 0.50) / 0.20 * 30)%Q
    else (abs_corr / 0.50 * 40)%Q in
  py_min score 100.

(** [Series.mean()] and [Series.std()] of finite samples: undefined on no
    sample, respectively on fewer than two. *)
Definition series_mean (l : list Q) : fval :=
  match l with
  | [] => NaN
  | _ => Fin (Stats.mean l)
  end.

Definition series_std (np_sqrt : Q -> Q) (l : list Q) : fval :=
  if (length l <? 2)%nat then NaN else Fin (np_sqrt (Stats.sample_var l)).

(** [SignalQualityScorer.calculate_stability_score]; [spread.tail(lookback)]
    is the last [lookback] samples. *)
Definition calculate_stability_score (np_sqrt : Q -> Q) (spread : list Q)
    (lookback : nat) : fval :=
  if (length spread <? lookback)%nat then Fin 50
  else
    let recent_spread := drop (length spread - lookback) spread in
    let mean_spread := fabs (series_mean recent_spread) in
    let std_spread := series_std np_sqrt recent_spread in
    if feq mean_spread (Fin 0) then Fin 0
    else
      let cv := fdiv std_spread mean_spread in
      let score :=
        if flt cv (Fin 0.1) then
          fadd (Fin 90) (fmul (fdiv (fsub (Fin 0.1) cv) (Fin 0.1)) (Fin 10))
        else if flt cv (Fin 0.3) then
          fadd (Fin 60) (fmul (fdiv (fsub (Fin 0.3) cv) (Fin 0.2)) (Fin 30))
        else py_fmax (Fin 0) (fsub (Fin 60) (fmul (fsub cv (Fin 0.3)) (Fin 100))) in
      py_fmin score (Fin 100).

(** The two halves of [calculate_cointegration_score] (its locals
    [adf_score] and [hl_score]).  The caller passes the p-value of the ADF
    test and the half-life as they come, so either may be [None], [nan] or an
    infinity. *)
Definition adf_score (adf_pvalue : option fval) : fval :=
  match adf_pvalue with
  | Some adf_pvalue =>
      if flt adf_pvalue (Fin 0.01) then Fin 100
      else if flt adf_pvalue (Fin 0.05) then Fin 80
      else if flt adf_pvalue (Fin 0.10) then Fin 60
      else py_fmax (Fin 0)
             (fsub (Fin 60) (fmul (fsub adf_pvalue (Fin 0.10)) (Fin 200)))
  | None => Fin 50
  end.

Definition hl_score (half_life : option fval) : fval :=
  match half_life with
  | Some half_life =>
      if fgt half_life (Fin 0) then
        if fle (Fin 5) half_life && fle half_life (Fin 50) then
          let distance_from_optimal := fabs (fsub half_life (Fin 20)) in
          fsub (Fin 100) (fmul (fdiv distance_from_optimal (Fin 30)) (Fin 30))
        else if flt half_life (Fin 5) then
          fmul (fdiv half_life (Fin 5)) (Fin 70)
        else
          py_fmax (Fin 0) (fsub (Fin 70) (fmul (fsub half_life (Fin 50)) (Fin 2)))
      else Fin 50
  | None => Fin 50
  end.

(** [SignalQualityScorer.calculate_cointegration_score]. *)
Definition calculate_cointegration_score (adf_pvalue half_life : option fval) : fval :=
  let score :=
    fadd (fmul (adf_score adf_pvalue) (Fin 0.5)) (fmul (hl_score half_life) (Fin 0.5)) in
  py_fmin score (Fin 100).

(** [SignalQualityScorer.calculate_historical_score]. *)
Definition calculate_historical_score (win_rate profit_factor : option Q)
    (total_trades : Z) : Q :=
  match win_rate with
  | None => 50
  | Some win_rate =>
      if (total_trades =? 0)%Z then 50
      else
        let base_score :=
          if Qgeb win_rate 60 then (80 + (win_rate - 60) / 40 * 20)%Q
          else if Qgeb win_rate 50 then (60 + (win_rate - 50) / 10 * 20)%Q
          else (win_rate / 50 * 60)%Q in
        let base_score :=
          match profit_factor with
          | Some profit_factor =>
              let pf_multiplier :=
                if Qgeb profit_factor 2.0
                then (1.0 + py_min ((profit_factor - 2.0) / 3.0) 0.2)%Q
                else (0.8 + (profit_factor / 2.0) * 0.2)%Q in
              (base_score * pf_multiplier)%Q
          | None => base_score
          end in
        let base_score :=
          if (total_trades <? 5)%Z then
            let confidence_factor := (inject_Z total_trades / 5)%Q in
            (50 + (base_score - 50) * confidence_factor)%Q
          else base_score in
        py_min base_score 100
  end.

(** The default weights of [calculate_composite_score]. *)
Definition default_weights : gmap string Q :=
  list_to_map
    [("zscore", 0.25%Q); ("correlation", 0.25%Q); ("stability", 0.20%Q);
     ("cointegration", 0.15%Q); ("historical", 0.15%Q)].

(** [weights[k]]: a missing key raises [KeyError]. *)
Definition weight (weights : gmap string Q) (k : string) : result Q :=
  match weights !! k with
  | Some w => Return w
  | None => Raise (OtherException "KeyError")
  end.

Record CompositeScore : Type := {
  composite_score : fval;
  quality_level : string;
  confidence : string;
  recommendation : string;
  components : gmap string fval
}.

Section Composite.

Variable np_sqrt : Q -> Q.

(** [round(x, 1)] on a finite float. *)
Variable round1 : Q -> Q.

Definition fround (v : fval) : fval :=
  match v with
  | Fin q => Fin (round1 q)
  | _ => v
  end.

(** The weighted sum that [calculate_composite_score] classifies, before it
    is rounded for display. *)
Definition weighted_score (zscore correlation : Q) (spread : list Q)
    (adf_pvalue half_life : option fval) (win_rate profit_factor : option Q)
    (total_trades : Z) (weights : option (gmap string Q)) : result fval :=
  let weights := default default_weights weights in
  zscore_score <-! calculate_zscore_score zscore 2.0 ;;
  let correlation_score := calculate_correlation_score correlation 0.7 in
  let stability_score := calculate_stability_score np_sqrt spread 60 in
  let cointegration_score := calculate_cointegration_score adf_pvalue half_life in
  let historical_score := calculate_historical_score win_rate profit_factor total_trades in
  w_z <-! weight weights "zscore" ;;
  w_c <-! weight weights "correlation" ;;
  w_s <-! weight weights "stability" ;;
  w_i <-! weight weights "cointegration" ;;
  w_h <-! weight weights "historical" ;;
  Return
    (fadd (fadd (fadd (fadd (fmul (Fin zscore_score) (Fin w_z))
                            (fmul (Fin correlation_score) (Fin w_c)))
                      (fmul stability_score (Fin w_s)))
                (fmul cointegration_score (Fin w_i)))
          (fmul (Fin historical_score) (Fin w_h))).

(** The quality level of a weighted score. *)
Definition quality_of (composite_score : fval) : string * string * string :=
  if fge composite_score (Fin EXCEPTIONAL_THRESHOLD) then
    ("Exceptional", "Very High", "Strong Trade Signal")
  else if fge composite_score (Fin STRONG_THRESHOLD) then
    ("Strong", "High", "Trade with Confidence")
  else if fge composite_score (Fin MODERATE_THRESHOLD) then
    ("Moderate", "Medium", "Consider Trading")
  else if fge composite_score (Fin WEAK_THRESHOLD) then
    ("Weak", "Low", "Trade with Caution")
  else ("Poor", "Very Low", "Avoid Trading").

(** [SignalQualityScorer.calculate_composite_score].  The emoji and the
    echoed weights of the returned dictionary are left out. *)
Definition calculate_composite_score (zscore correlation : Q) (spread : list Q)
    (adf_pvalue half_life : option fval) (win_rate profit_factor : option Q)
    (total_trades : Z) (weights : option (gmap string Q)) : result CompositeScore :=
  composite <-! weighted_score zscore correlation spread adf_pvalue half_life
                  win_rate profit_factor total_trades weights ;;
  zscore_score <-! calculate_zscore_score zscore 2.0 ;;
  let '(quality_level, confidence, recommendation) := quality_of composite in
  Return
    {| composite_score := fround composite;
       quality_level := quality_level;
       confidence := confidence;
       recommendation := recommendation;
       components :=
         list_to_map
           [("zscore_score", fround (Fin zscore_score));
            ("correlation_score",
             fround (Fin (calculate_correlation_score correlation 0.7)));
            ("stability_score", fround (calculate_stability_score np_sqrt spread 60));
            ("cointegration_score",
             fround (calculate_cointegration_score adf_pvalue half_life));
            ("historical_score",
             fround (Fin (calculate_historical_score win_rate profit_factor
                            total_trades)))] |}.

End Composite.

End Signal.

(** * Properties *)

(** ** Comparisons and arithmetic *)

Lemma Qltb_true (a b : Q) : Qltb a b = true <-> (a < b)%Q.
Proof.
  unfold Qltb. rewrite negb_true_iff, <- not_true_iff_false, Qle_bool_iff.
  split; intro H; [apply Qnot_le_lt | apply Qlt_not_le]; exact H.
Qed.

Lemma Qltb_false (a b : Q) : Qltb a b = false <-> (b <= a)%Q.
Proof.
  unfold Qltb. rewrite negb_false_iff. apply Qle_bool_iff.
Qed.

Lemma Qeqb_true (a b : Q) : Qeqb a b = true <-> (a == b)%Q.
Proof. apply Qeq_bool_iff. Qed.

Lemma Qeqb_false (a b : Q) : Qeqb a b = false <-> ~ (a == b)%Q.
Proof.
  unfold Qeqb. rewrite <- not_true_iff_false, Qeq_bool_iff. reflexivity.
Qed.

Lemma Qleb_true (a b : Q) : Qleb a b = true <-> (a <= b)%Q.
Proof. apply Qle_bool_iff. Qed.

Lemma Qleb_false (a b : Q) : Qleb a b = false <-> (b < a)%Q.
Proof.
  unfold Qleb. rewrite <- not_true_iff_false, Qle_bool_iff.
  split; intro H; [apply Qnot_le_lt | apply Qlt_not_le]; exact H.
Qed.

(** Case analysis on every comparison in the goal, leaving the facts in the
    context for [lra]. *)
Ltac cmp_cases :=
  repeat match goal with
  | |- context [Qltb ?a ?b] =>
      let E := fresh "E" in
      destruct (Qltb a b) eqn:E;
      [apply Qltb_true in E | apply Qltb_false in E]
  | |- context [Qleb ?a ?b] =>
      let E := fresh "E" in
      destruct (Qleb a b) eqn:E;
      [apply Qleb_true in E | apply Qleb_false in E]
  | |- context [Qeqb ?a ?b] =>
      let E := fresh "E" in
      destruct (Qeqb a b) eqn:E;
      [apply Qeqb_true in E | apply Qeqb_false in E]
  end.

Lemma py_max_Qmax (a b : Q) : (py_max a b == Qmax a b)%Q.
Proof.
  unfold py_max, Qgtb. cmp_cases.
  - symmetry. apply Q.max_r. lra.
  - symmetry. apply Q.max_l. exact E.
Qed.

Lemma py_min_Qmin (a b : Q) : (py_min a b == Qmin a b)%Q.
Proof.
  unfold py_min. cmp_cases.
  - symmetry. apply Q.min_r. lra.
  - symmetry. apply Q.min_l. exact E.
Qed.

Lemma py_max_ge_l (a b : Q) : (a <= py_max a b)%Q.
Proof. unfold py_max, Qgtb. cmp_cases; lra. Qed.

Lemma py_max_ge_r (a b : Q) : (b <= py_max a b)%Q.
Proof. unfold py_max, Qgtb. cmp_cases; lra. Qed.

Lemma py_min_le_l (a b : Q) : (py_min a b <= a)%Q.
Proof. unfold py_min. cmp_cases; lra. Qed.

Lemma py_min_le_r (a b : Q) : (py_min a b <= b)%Q.
Proof. unfold py_min. cmp_cases; lra. Qed.

Lemma py_div_nonzero (a b : Q) : ~ (b == 0)%Q -> py_div a b = Return (a / b)%Q.
Proof.
  intro H. unfold py_div. apply Qeqb_false in H. rewrite H. reflexivity.
Qed.

Lemma Qabs_nonzero (x : Q) : ~ (x == 0)%Q -> (0 < Qabs x)%Q.
Proof.
  intro H. destruct (Qlt_le_dec 0 (Qabs x)) as [Hpos | Hle]; [exact Hpos |].
  exfalso. apply H.
  assert (Hz : (Qabs x == 0)%Q) by (pose proof (Qabs_nonneg x); lra).
  pose proof (Qabs_triangle_reverse x 0) as _.
  destruct (Qlt_le_dec x 0) as [Hneg | Hnn].
  - rewrite Qabs_neg in Hz by lra. lra.
  - rewrite Qabs_pos in Hz by lra. exact Hz.
Qed.

(** ** Properties of analytics/risk.py *)

Section RiskProperties.

Import Risk.

(** *** Kelly criterion *)

Lemma kelly_zero (win_rate avg_win avg_loss : Q) :
  (avg_loss == 0)%Q \/ (win_rate == 0)%Q ->
  calculate_kelly_criterion win_rate avg_win avg_loss = Return 0%Q.
Proof.
  intros [H | H]; unfold calculate_kelly_criterion; apply Qeqb_true in H;
    rewrite H; [reflexivity | rewrite orb_true_r; reflexivity].
Qed.

Lemma kelly_formula (win_rate avg_win avg_loss : Q) :
  ~ (avg_loss == 0)%Q -> ~ (win_rate == 0)%Q -> ~ (avg_win == 0)%Q ->
  calculate_kelly_criterion win_rate avg_win avg_loss =
    Return (py_max 0 (py_min ((win_rate * (avg_win / Qabs avg_loss) - (1 - win_rate))
                              / (avg_win / Qabs avg_loss)) 0.25)).
Proof.
  intros Hl Hw Ha. unfold calculate_kelly_criterion.
  apply Qeqb_false in Hw. pose proof (Qabs_nonzero _ Hl) as Habs.
  apply Qeqb_false in Hl. rewrite Hl, Hw. cbn [orb].
  rewrite py_div_nonzero by lra. cbn [rbind].
  rewrite py_div_nonzero; [reflexivity |].
  intro Hz. apply Ha.
  assert (E : (avg_win == avg_win / Qabs avg_loss * Qabs avg_loss)%Q)
    by (field; lra).
  rewrite E, Hz. lra.
Qed.

(** C8. [calculate_kelly_criterion] returns exactly 0 when [avg_loss] or
    [win_rate] is zero; otherwise (the divisor [avg_win/|avg_loss|] of the
    formula being non-zero) it returns the Kelly formula clamped to
    [[0, 0.25]]; hence for [win_rate] in [[0,1]] and positive [avg_win],
    [avg_loss] the call returns a value in [[0, 0.25]]. *)
Theorem kelly_criterion_spec (win_rate avg_win avg_loss : Q) :
  ((avg_loss == 0)%Q \/ (win_rate == 0)%Q ->
     calculate_kelly_criterion win_rate avg_win avg_loss = Return 0%Q)
  /\ (~ (avg_loss == 0)%Q -> ~ (win_rate == 0)%Q -> ~ (avg_win == 0)%Q ->
      exists k, calculate_kelly_criterion win_rate avg_win avg_loss = Return k
        /\ (k == Qmax 0 (Qmin ((win_rate * (avg_win / Qabs avg_loss) - (1 - win_rate))
                                / (avg_win / Qabs avg_loss)) 0.25))%Q)
  /\ ((0 <= win_rate)%Q -> (win_rate <= 1)%Q -> (0 < avg_win)%Q -> (0 < avg_loss)%Q ->
      exists k, calculate_kelly_criterion win_rate avg_win avg_loss = Return k
        /\ (0 <= k)%Q /\ (k <= 0.25)%Q).
Proof.
  split; [apply kelly_zero | split].
  - intros Hl Hw Ha. eexists. split; [apply kelly_formula; assumption |].
    rewrite py_max_Qmax. apply Q.max_compat; [reflexivity | apply py_min_Qmin].
  - intros Hw0 Hw1 Ha Hl.
    destruct (Qeq_dec win_rate 0) as [Hz | Hnz].
    + exists 0%Q. split; [apply kelly_zero; right; exact Hz | lra].
    + eexists. split; [apply kelly_formula; lra |]. split.
      * apply py_max_ge_l.
      * unfold py_max, Qgtb. cmp_cases; [apply py_min_le_r | lra].
Qed.

(** The bound of C8 at [win_rate = 1.0]. *)
Lemma kelly_criterion_spec_witness :
  exists k, calculate_kelly_criterion 1 75 50 = Return k /\ (0 <= k)%Q /\ (k <= 0.25)%Q.
Proof.
  apply (proj2 (proj2 (kelly_criterion_spec 1 75 50))); lra.
Defined.

(** *** Portfolio health score *)

Lemma drawdown_score_antitone (d1 d2 : Q) :
  (d1 <= d2)%Q -> (drawdown_score d2 <= drawdown_score d1)%Q.
Proof.
  intro H. unfold drawdown_score, py_max, Qgtb. cmp_cases; lra.
Qed.

Lemma sharpe_score_monotone (s1 s2 : Q) :
  (s1 <= s2)%Q -> (sharpe_score (PyNum s1) <= sharpe_score (PyNum s2))%Q.
Proof.
  intro H. unfold sharpe_score, py_max, Qgtb, Qgeb.
  repeat match goal with
  | |- context [Qle_bool ?a ?b] =>
      let E := fresh "E" in
      destruct (Qle_bool a b) eqn:E;
      [apply Qleb_true in E | apply Qleb_false in E]
  end; cmp_cases; lra.
Qed.

(** The call returns exactly when the two entries it compares with numbers
    are numbers (or absent). *)
Lemma health_score_value (m : gmap string pyval) (dd util : Q) :
  default (PyNum 0) (m !! "current_drawdown_pct") = PyNum dd ->
  default (PyNum 0) (m !! "risk_utilization") = PyNum util ->
  score_of (calculate_portfolio_health_score m) =
    Some (drawdown_score dd * 0.40
          + sharpe_score (default (PyNum 0) (m !! "sharpe_ratio")) * 0.35
          + utilization_score util * 0.25)%Q.
Proof.
  intros Hd Hu. unfold calculate_portfolio_health_score.
  rewrite Hd, Hu. reflexivity.
Qed.

Lemma health_score_raises (m : gmap string pyval) :
  default (PyNum 0) (m !! "risk_utilization") = PyNone ->
  score_of (calculate_portfolio_health_score m) = None.
Proof.
  intro Hu. unfold calculate_portfolio_health_score. rewrite Hu.
  destruct (default (PyNum 0) (m !! "current_drawdown_pct")); reflexivity.
Qed.

Lemma health_score_raises_dd (m : gmap string pyval) :
  default (PyNum 0) (m !! "current_drawdown_pct") = PyNone ->
  score_of (calculate_portfolio_health_score m) = None.
Proof.
  intro Hd. unfold calculate_portfolio_health_score. rewrite Hd. reflexivity.
Qed.

(** C9. Two inputs that differ only in [current_drawdown_pct]: the larger
    drawdown never has the larger health score.  Two inputs that differ only
    in a defined [sharpe_ratio]: the larger Sharpe ratio never has the smaller
    health score.  (Both calls raise when [risk_utilization] holds [None],
    and the second pair also when [current_drawdown_pct] does.) *)
Theorem health_score_monotone (m : gmap string pyval) :
  (forall d1 d2 : Q, (d1 <= d2)%Q ->
     score_le
       (score_of (calculate_portfolio_health_score
                    (<["current_drawdown_pct" := PyNum d2]> m)))
       (score_of (calculate_portfolio_health_score
                    (<["current_drawdown_pct" := PyNum d1]> m))))
  /\ (forall s1 s2 : Q, (s1 <= s2)%Q ->
        score_le
          (score_of (calculate_portfolio_health_score
                       (<["sharpe_ratio" := PyNum s1]> m)))
          (score_of (calculate_portfolio_health_score
                       (<["sharpe_ratio" := PyNum s2]> m)))).
Proof.
  split.
  - intros d1 d2 Hd.
    destruct (default (PyNum 0) (m !! "risk_utilization")) as [| u] eqn:Hu.
    + rewrite !health_score_raises
        by (rewrite lookup_insert_ne by discriminate; exact Hu).
      exact I.
    + rewrite (health_score_value _ d2 u), (health_score_value _ d1 u);
        try (rewrite lookup_insert_eq; reflexivity);
        try (rewrite lookup_insert_ne by discriminate; exact Hu).
      rewrite !lookup_insert_ne by discriminate. cbn [score_le].
      pose proof (drawdown_score_antitone d1 d2 Hd). lra.
  - intros s1 s2 Hs.
    destruct (default (PyNum 0) (m !! "risk_utilization")) as [| u] eqn:Hu.
    + rewrite !health_score_raises
        by (rewrite lookup_insert_ne by discriminate; exact Hu).
      exact I.
    + destruct (default (PyNum 0) (m !! "current_drawdown_pct")) as [| d] eqn:Hd.
      * rewrite !health_score_raises_dd
          by (rewrite lookup_insert_ne by discriminate; exact Hd).
        exact I.
      * rewrite (health_score_value _ d u), (health_score_value _ d u);
          try (rewrite lookup_insert_ne by discriminate; assumption).
        rewrite !lookup_insert_eq. cbn [score_le default from_option id].
        pose proof (sharpe_score_monotone s1 s2 Hs). lra.
Qed.

(** C9 on the dictionaries of two cycles: drawdown 3% against 12%, and Sharpe
    ratio 0.5 against 1.5, the other entries absent. *)
Lemma health_score_monotone_witness :
  score_le
    (score_of (calculate_portfolio_health_score
                 (<["current_drawdown_pct" := PyNum 12]> ∅)))
    (score_of (calculate_portfolio_health_score
                 (<["current_drawdown_pct" := PyNum 3]> ∅)))
  /\ score_le
       (score_of (calculate_portfolio_health_score
                    (<["sharpe_ratio" := PyNum 0.5]> ∅)))
       (score_of (calculate_portfolio_health_score
                    (<["sharpe_ratio" := PyNum 1.5]> ∅))).
Proof.
  split.
  - apply (proj1 (health_score_monotone ∅) 3 12)%Q. lra.
  - apply (proj2 (health_score_monotone ∅) 0.5 1.5)%Q. lra.
Defined.

(** *** The Kelly entry of the risk metrics *)

Lemma capped_range (x : Q) :
  (0 <= py_max 0 (py_min x 0.25))%Q /\ (py_max 0 (py_min x 0.25) <= 0.25)%Q.
Proof. unfold py_max, py_min, Qgtb. cmp_cases; split; lra. Qed.

(** X1. The Kelly entry of [calculate_risk_metrics] never raises: it is
    [None] when the win rate, the average win or the average loss is missing
    or zero, and otherwise a percentage in [[0, 25]].  A win rate of exactly 1
    is read as the fraction 1, not as one percent, and yields the full 25
    whenever the averages are positive. *)
Theorem kelly_pct_range (win_rate avg_win avg_loss : option Q) :
  (exists v,
     kelly_pct win_rate avg_win avg_loss = Return v
     /\ (v = PyNone <-> truthy win_rate && truthy avg_win && truthy avg_loss = false)
     /\ forall k, v = PyNum k -> (0 <= k)%Q /\ (k <= 25)%Q)
  /\ (forall a l, (0 < a)%Q -> (0 < l)%Q ->
      exists k, kelly_pct (Some 1%Q) (Some a) (Some l) = Return (PyNum k) /\ (k == 25)%Q).
Proof.
  split.
  - unfold kelly_pct.
    destruct win_rate as [w |]; [| exists PyNone; repeat split; discriminate].
    destruct avg_win as [a |];
      [| exists PyNone; cbn [truthy andb]; rewrite andb_false_r;
         repeat split; discriminate].
    destruct avg_loss as [l |];
      [| exists PyNone; cbn [truthy andb]; rewrite andb_false_r;
         repeat split; discriminate].
    cbn [truthy].
    destruct (Qeqb w 0) eqn:Ew; cbn [negb andb];
      [exists PyNone; repeat split; discriminate |].
    destruct (Qeqb a 0) eqn:Ea; cbn [negb andb];
      [exists PyNone; repeat split; discriminate |].
    destruct (Qeqb l 0) eqn:El; cbn [negb andb];
      [exists PyNone; repeat split; discriminate |].
    apply Qeqb_false in Ew, Ea, El.
    rewrite kelly_formula; [| exact El | | exact Ea].
    2: { destruct (Qgtb w 1); [| exact Ew]. intro H. apply Ew.
         assert (E : (w == w / 100 * 100)%Q) by field. rewrite E, H. lra. }
    cbn [rbind]. eexists. split; [reflexivity |]. split.
    + split; discriminate.
    + intros k [= <-].
      match goal with
      | |- context [py_max 0 (py_min ?x 0.25)] => destruct (capped_range x)
      end.
      split; lra.
  - intros a l Ha Hl.
    unfold kelly_pct. cbn [truthy].
    assert (E1 : Qeqb 1 0 = false) by reflexivity.
    assert (Ea : Qeqb a 0 = false) by (apply Qeqb_false; lra).
    assert (El : Qeqb l 0 = false) by (apply Qeqb_false; lra).
    rewrite E1, Ea, El. cbn [negb andb].
    assert (E2 : Qgtb 1 1 = false) by reflexivity.
    rewrite E2.
    rewrite kelly_formula by lra. cbn [rbind].
    eexists. split; [reflexivity |].
    assert (Habs : (Qabs l == l)%Q) by (apply Qabs_pos; lra).
    assert (Hr : (0 < a / Qabs l)%Q).
    { apply Qlt_shift_div_l; lra. }
    assert (Hk : ((1 * (a / Qabs l) - (1 - 1)) / (a / Qabs l) == 1)%Q)
      by (field; split; lra).
    revert Hk. generalize ((1 * (a / Qabs l) - (1 - 1)) / (a / Qabs l))%Q.
    intros x Hx. unfold py_min.
    destruct (Qltb 0.25 x) eqn:E0; [| apply Qltb_false in E0; lra].
    unfold py_max, Qgtb. cmp_cases; lra.
Qed.

End RiskProperties.

(** ** Properties of analytics/pnl_tracker.py *)

Section PnlProperties.

Import Pnl.

(** *** The outcome of closing a position *)

(** Reads of fields through the assignments. *)
Ltac sim_simpl :=
  cbn [initial_capital current_capital entry_threshold exit_threshold
       position_size_pct stop_loss_pct take_profit_pct current_position
       closed_trades max_unrealized_profit max_unrealized_loss total_pnl
       win_count loss_count max_drawdown peak_capital
       set_current_capital set_current_position set_closed_trades
       set_max_unrealized_profit set_max_unrealized_loss set_total_pnl
       set_win_count set_loss_count set_max_drawdown set_peak_capital] in *.

Lemma calculate_pnl_frame (self self' : PositionSimulator) (s p1 p2 : Q) :
  current_position self' = current_position self ->
  _calculate_pnl self' s p1 p2 = _calculate_pnl self s p1 p2.
Proof. intro H. unfold _calculate_pnl. rewrite H. reflexivity. Qed.

(** The PnL is computed exactly when neither divisor is zero, and then it is
    the spread's relative move, signed by the direction, times the size. *)
Lemma calculate_pnl_returns (self : PositionSimulator) (pos : Position) (s p1 p2 : Q) :
  current_position self = Some pos ->
  ~ (entry_spread pos == 0)%Q -> ~ (size pos == 0)%Q ->
  exists pnl pnl_pct,
    _calculate_pnl self s p1 p2 = Return (pnl, pnl_pct)
    /\ (pnl == size pos * ((if is_long (direction pos) then 1 else -1)
                           * (s - entry_spread pos) / entry_spread pos))%Q
    /\ (pnl_pct == pnl / size pos * 100)%Q.
Proof.
  intros Hpos Hs Hz. unfold _calculate_pnl. rewrite Hpos.
  destruct (direction pos); rewrite py_div_nonzero by exact Hs; cbn [rbind];
    rewrite py_div_nonzero by exact Hz; cbn [rbind is_long];
    eexists; eexists; (split; [reflexivity |]); split; try reflexivity;
    field; exact Hs.
Qed.

Lemma calculate_pnl_raises (self : PositionSimulator) (pos : Position) (s p1 p2 : Q) :
  current_position self = Some pos ->
  (entry_spread pos == 0)%Q ->
  _calculate_pnl self s p1 p2 = Raise ZeroDivisionError.
Proof.
  intros Hpos Hs. unfold _calculate_pnl, py_div. rewrite Hpos.
  apply Qeqb_true in Hs. destruct (direction pos); rewrite Hs; reflexivity.
Qed.

Lemma close_position_returns (self : PositionSimulator) (pos : Position)
    (z s p1 p2 : Q) (t : Z) (reason : string) (pnl pnl_pct : Q) :
  current_position self = Some pos ->
  _calculate_pnl self s p1 p2 = Return (pnl, pnl_pct) ->
  (0 < peak_capital self)%Q ->
  exits_with reason pnl pnl_pct self (_close_position self z s p1 p2 t reason)
  /\ max_unrealized_profit (snd (_close_position self z s p1 p2 t reason))
     = max_unrealized_profit self
  /\ max_unrealized_loss (snd (_close_position self z s p1 p2 t reason))
     = max_unrealized_loss self.
Proof.
  intros Hpos Hpnl Hpeak. unfold exits_with, _close_position.
  rewrite Hpos, Hpnl. sim_simpl.
  destruct (Qgtb (current_capital self + pnl) (peak_capital self)) eqn:Hgt;
    sim_simpl; [apply Qltb_true in Hgt |];
    (rewrite py_div_nonzero by lra);
    destruct (Qgtb pnl 0); sim_simpl; cbn [fst snd];
    (split; [split; [reflexivity | split; [reflexivity |]] | split; reflexivity]);
    eexists; repeat split.
Qed.

(** *** Exit: priority of the four conditions *)

Lemma crossed_zero_true (d : Direction) (zscore : Q) :
  crossed_zero d zscore = true <->
  (d = long /\ (0 < zscore)%Q) \/ (d = short /\ (zscore < 0)%Q).
Proof.
  unfold crossed_zero, Qgtb.
  destruct d; cbn [is_long is_short andb orb]; rewrite ?orb_false_r;
    rewrite Qltb_true; split.
  - intro H. left. split; [reflexivity | exact H].
  - intros [[_ H] | [H _]]; [exact H | discriminate H].
  - intro H. right. split; [reflexivity | exact H].
  - intros [[H _] | [_ H]]; [discriminate H | exact H].
Qed.

Lemma check_exit_signal_decision (self : PositionSimulator) (pos : Position)
    (zscore spread price_1 price_2 : Q) (timestamp : Z) (pnl pnl_pct : Q) :
  current_position self = Some pos ->
  _calculate_pnl self spread price_1 price_2 = Return (pnl, pnl_pct) ->
  check_exit_signal self zscore spread price_1 price_2 timestamp =
    let close := _close_position (tracked self pnl) zscore spread price_1 price_2 timestamp in
    if Qltb (Qabs zscore) (exit_threshold self) then close "Mean reversion complete"
    else if crossed_zero (direction pos) zscore then close "Z-score crossed zero"
    else if Qltb pnl (- (size pos * stop_loss_pct self))%Q then close "Stop loss"
    else if Qgtb pnl (size pos * take_profit_pct self)%Q then close "Take profit"
    else (Return None, tracked self pnl).
Proof.
  intros Hpos Hpnl. unfold check_exit_signal, crossed_zero, tracked.
  rewrite Hpos, Hpnl. sim_simpl. cbn zeta.
  destruct (Qltb (Qabs zscore) (exit_threshold self)); [reflexivity |].
  destruct ((is_long (direction pos) && Qgtb zscore 0)
            || (is_short (direction pos) && Qltb zscore 0)); [reflexivity |].
  destruct (Qltb pnl (- (size pos * stop_loss_pct self))); [reflexivity |].
  destruct (Qgtb pnl (size pos * take_profit_pct self)); reflexivity.
Qed.

Lemma tracked_close (self : PositionSimulator) (pos : Position)
    (z s p1 p2 : Q) (t : Z) (reason : string) (pnl pnl_pct : Q) :
  current_position self = Some pos ->
  _calculate_pnl self s p1 p2 = Return (pnl, pnl_pct) ->
  (0 < peak_capital self)%Q ->
  let out := _close_position (tracked self pnl) z s p1 p2 t reason in
  exits_with reason pnl pnl_pct self out
  /\ max_unrealized_profit (snd out) = py_max (max_unrealized_profit self) pnl
  /\ max_unrealized_loss (snd out) = py_min (max_unrealized_loss self) pnl.
Proof.
  intros Hpos Hpnl Hpeak out.
  destruct (close_position_returns (tracked self pnl) pos z s p1 p2 t reason pnl pnl_pct)
    as [Hex [Hp Hl]].
  - exact Hpos.
  - rewrite <- Hpnl. apply calculate_pnl_frame. reflexivity.
  - exact Hpeak.
  - repeat split; try apply Hex; [exact Hp | exact Hl].
Qed.

(** Splits the conjuncts of the exit theorem and settles each from the
    fact [H] of the branch at hand, or from the contradiction between the
    branch and the conjunct's hypotheses. *)
Ltac exit_cases H :=
  repeat match goal with |- _ /\ _ => split end;
  intros;
  repeat match goal with |- _ /\ _ => split end;
  first [ exact H | reflexivity | apply py_max_Qmax | apply py_min_Qmin
        | apply H | contradiction | lra | exfalso; lra ].

(** C1. While a position is open (and its PnL can be computed, the peak
    capital being positive), [check_exit_signal] tests the four exit
    conditions in order: the first one that holds closes the position and
    gives the reported reason, so mean reversion wins over a stop loss that
    holds at the same evaluation; when none holds the position stays open.
    Closing or not, the favorable tracker becomes the maximum of its old
    value and the unrealized PnL, and the adverse tracker the minimum. *)
Theorem check_exit_signal_priority (self : PositionSimulator) (pos : Position)
    (zscore spread price_1 price_2 : Q) (timestamp : Z) (pnl pnl_pct : Q) :
  current_position self = Some pos ->
  _calculate_pnl self spread price_1 price_2 = Return (pnl, pnl_pct) ->
  (0 < peak_capital self)%Q ->
  let c1 := (Qabs zscore < exit_threshold self)%Q in
  let c2 := (direction pos = long /\ (0 < zscore)%Q)
            \/ (direction pos = short /\ (zscore < 0)%Q) in
  let c3 := (pnl < - (size pos * stop_loss_pct self))%Q in
  let c4 := (size pos * take_profit_pct self < pnl)%Q in
  let out := check_exit_signal self zscore spread price_1 price_2 timestamp in
  (max_unrealized_profit (snd out) == Qmax (max_unrealized_profit self) pnl)%Q
  /\ (max_unrealized_loss (snd out) == Qmin (max_unrealized_loss self) pnl)%Q
  /\ (c1 -> exits_with "Mean reversion complete" pnl pnl_pct self out)
  /\ (~ c1 -> c2 -> exits_with "Z-score crossed zero" pnl pnl_pct self out)
  /\ (~ c1 -> ~ c2 -> c3 -> exits_with "Stop loss" pnl pnl_pct self out)
  /\ (~ c1 -> ~ c2 -> ~ c3 -> c4 -> exits_with "Take profit" pnl pnl_pct self out)
  /\ (~ c1 -> ~ c2 -> ~ c3 -> ~ c4 ->
      fst out = Return None
      /\ current_position (snd out) = Some pos
      /\ closed_trades (snd out) = closed_trades self)
  /\ (c1 -> c3 -> fst out = Return (Some (EXIT "Mean reversion complete" pnl pnl_pct))).
Proof.
  intros Hpos Hpnl Hpeak c1 c2 c3 c4 out. subst c1 c2 c3 c4 out.
  rewrite (check_exit_signal_decision self pos _ _ _ _ _ pnl pnl_pct Hpos Hpnl).
  cbn zeta.
  pose proof (fun r => tracked_close self pos zscore spread price_1 price_2
                         timestamp r pnl pnl_pct Hpos Hpnl Hpeak) as Hclose.
  cbn zeta in Hclose.
  pose proof (crossed_zero_true (direction pos) zscore) as Hc2.
  destruct (Qltb (Qabs zscore) (exit_threshold self)) eqn:E1;
    [apply Qltb_true in E1 | apply Qltb_false in E1].
  { destruct (Hclose "Mean reversion complete") as [Hex [Hp Hl]].
    rewrite Hp, Hl. exit_cases Hex. }
  destruct (crossed_zero (direction pos) zscore) eqn:E2.
  { destruct (Hclose "Z-score crossed zero") as [Hex [Hp Hl]].
    rewrite Hp, Hl.
    apply proj1 in Hc2. specialize (Hc2 eq_refl). exit_cases Hex. }
  assert (Hn2 : ~ ((direction pos = long /\ (0 < zscore)%Q)
                   \/ (direction pos = short /\ (zscore < 0)%Q)))
    by (rewrite <- Hc2; discriminate).
  clear Hc2.
  destruct (Qltb pnl (- (size pos * stop_loss_pct self))) eqn:E3;
    [apply Qltb_true in E3 | apply Qltb_false in E3].
  { destruct (Hclose "Stop loss") as [Hex [Hp Hl]].
    rewrite Hp, Hl. exit_cases Hex. }
  destruct (Qgtb pnl (size pos * take_profit_pct self)) eqn:E4;
    [apply Qltb_true in E4 | apply Qltb_false in E4].
  { destruct (Hclose "Take profit") as [Hex [Hp Hl]].
    rewrite Hp, Hl. exit_cases Hex. }
  cbn [fst snd]. unfold tracked. sim_simpl.
  exit_cases Hpos.
Qed.

(** C1 where the spread moved against the short position (10 to 11, a loss
    of 100 on a size of 1000, beyond the 5% stop) while the z-score is back at
    0.1: conditions 1 and 3 both hold and the reason is mean reversion. *)
Lemma check_exit_signal_priority_witness :
  fst (check_exit_signal open_short 0.1 11 101 50 60000000)
  = Return (Some (EXIT "Mean reversion complete" (-100.000) (-10.00000000))).
Proof.
  pose proof (check_exit_signal_priority open_short
    {| entry_time := 0; entry_zscore := 2.5; entry_spread := 10;
       entry_price_1 := 100; entry_price_2 := 50; direction := short;
       size := 10000 * 0.10; hedge_ratio := 2 |}
    0.1 11 101 50 60000000 (-100.000) (-10.00000000)
    eq_refl eq_refl eq_refl) as H.
  cbn zeta in H.
  destruct H as (_ & _ & _ & _ & _ & _ & _ & H).
  apply H; vm_compute; reflexivity.
Defined.

(** The peak capital never decreases, so it stays positive once it is. *)
Lemma check_exit_signal_peak (self : PositionSimulator)
    (zscore spread price_1 price_2 : Q) (timestamp : Z) :
  (peak_capital self
   <= peak_capital (snd (check_exit_signal self zscore spread price_1 price_2 timestamp)))%Q.
Proof.
  assert (Hclose : forall s r,
    (peak_capital s
     <= peak_capital (snd (_close_position s zscore spread price_1 price_2 timestamp r)))%Q).
  { intros s r. unfold _close_position.
    destruct (current_position s); [| cbn [snd]; lra].
    destruct (_calculate_pnl s spread price_1 price_2) as [[pnl pct] | e];
      [| cbn [snd]; lra].
    sim_simpl.
    destruct (Qgtb (current_capital s + pnl) (peak_capital s)) eqn:Hgt;
      sim_simpl; [apply Qltb_true in Hgt |];
      (destruct (py_div _ _); [destruct (Qgtb pnl 0) |]);
      sim_simpl; cbn [snd]; sim_simpl; lra. }
  unfold check_exit_signal.
  destruct (current_position self) as [pos |]; [| cbn [snd]; lra].
  destruct (_calculate_pnl self spread price_1 price_2) as [[pnl pct] | e];
    [| cbn [snd]; lra].
  match goal with
  | |- context [match ?r with Some _ => _ | None => _ end] => destruct r
  end; [| cbn [snd]; sim_simpl; lra].
  eapply Qle_trans; [| apply Hclose]. sim_simpl. lra.
Qed.

(** *** Entry *)

Lemma check_entry_signal_opens (self : PositionSimulator)
    (zscore spread price_1 price_2 hedge_ratio : Q) (timestamp : Z) :
  current_position self = None ->
  (entry_threshold self < Qabs zscore)%Q ->
  check_entry_signal self zscore spread price_1 price_2 hedge_ratio timestamp =
    let d := if Qgtb zscore 0 then short else long in
    (Some (ENTRY d zscore),
     set_max_unrealized_loss 0
       (set_max_unrealized_profit 0
          (set_current_position
             (Some {| entry_time := timestamp; entry_zscore := zscore;
                      entry_spread := spread; entry_price_1 := price_1;
                      entry_price_2 := price_2; direction := d;
                      size := current_capital self * position_size_pct self;
                      hedge_ratio := hedge_ratio |}) self))).
Proof.
  intros Hflat Hz. unfold check_entry_signal. rewrite Hflat.
  apply Qltb_true in Hz. unfold Qgtb at 1. rewrite Hz. reflexivity.
Qed.

Lemma check_entry_signal_idle (self : PositionSimulator)
    (zscore spread price_1 price_2 hedge_ratio : Q) (timestamp : Z) :
  ~ (current_position self = None /\ (entry_threshold self < Qabs zscore)%Q) ->
  check_entry_signal self zscore spread price_1 price_2 hedge_ratio timestamp
  = (None, self).
Proof.
  intro H. unfold check_entry_signal.
  destruct (current_position self) as [pos |]; [reflexivity |].
  unfold Qgtb. destruct (Qltb (entry_threshold self) (Qabs zscore)) eqn:E;
    [| reflexivity].
  apply Qltb_true in E. exfalso. apply H. split; [reflexivity | exact E].
Qed.

(** C2. [check_entry_signal] reports an entry exactly when the simulator is
    flat and [|zscore| > entry_threshold]; the position is short for a
    positive z-score and long otherwise, its size is
    [current_capital * position_size_pct], and both trackers are 0; in every
    other case the simulator is unchanged.  From a flat simulator with capital
    10000, entry threshold 2.0, exit threshold 0.2 and 10% sizing, z-score 2.5
    opens a short position of size 1000, and the next [check_exit_signal] at
    z-score 0.1 closes it for mean reversion, leaving the simulator flat with
    one closed trade (the entry spread being non-zero). *)
Theorem check_entry_signal_spec (self : PositionSimulator)
    (zscore spread price_1 price_2 hedge_ratio : Q) (timestamp : Z) :
  let out := check_entry_signal self zscore spread price_1 price_2 hedge_ratio timestamp in
  (is_Some (fst out) <->
     current_position self = None /\ (entry_threshold self < Qabs zscore)%Q)
  /\ (current_position self = None -> (entry_threshold self < Qabs zscore)%Q ->
      exists pos,
        current_position (snd out) = Some pos
        /\ fst out = Some (ENTRY (direction pos) zscore)
        /\ ((0 < zscore)%Q -> direction pos = short)
        /\ ((zscore <= 0)%Q -> direction pos = long)
        /\ size pos = (current_capital self * position_size_pct self)%Q
        /\ max_unrealized_profit (snd out) = 0%Q
        /\ max_unrealized_loss (snd out) = 0%Q)
  /\ (~ (current_position self = None /\ (entry_threshold self < Qabs zscore)%Q) ->
      snd out = self)
  /\ (forall (stop_loss take_profit spread' price_1' price_2' : Q) (timestamp' : Z),
      ~ (spread == 0)%Q ->
      let flat := init 10000 2.0 0.2 0.10 stop_loss take_profit in
      let opened :=
        snd (check_entry_signal flat 2.5 spread price_1 price_2 hedge_ratio timestamp) in
      let closed := check_exit_signal opened 0.1 spread' price_1' price_2' timestamp' in
      (exists pos, current_position opened = Some pos
                   /\ direction pos = short /\ (size pos == 1000.0)%Q)
      /\ (exists pnl pnl_pct,
            fst closed = Return (Some (EXIT "Mean reversion complete" pnl pnl_pct)))
      /\ current_position (snd closed) = None
      /\ length (closed_trades (snd closed)) = 1%nat).
Proof.
  intro out. subst out. split; [| split; [| split]].
  - split.
    + intros [sig Hsig]. 
      destruct (current_position self) as [pos |] eqn:Hpos.
      * unfold check_entry_signal in Hsig. rewrite Hpos in Hsig. discriminate Hsig.
      * split; [reflexivity |].
        destruct (Qlt_le_dec (entry_threshold self) (Qabs zscore)) as [Hlt | Hle];
          [exact Hlt |].
        rewrite check_entry_signal_idle in Hsig; [discriminate Hsig |].
        intros [_ Hlt]. lra.
    + intros [Hflat Hz]. rewrite check_entry_signal_opens by assumption.
      eexists. reflexivity.
  - intros Hflat Hz. rewrite check_entry_signal_opens by assumption.
    cbn zeta. cbn [fst snd]. sim_simpl. eexists. split; [reflexivity |].
    cbn [direction size]. unfold Qgtb.
    destruct (Qltb 0 zscore) eqn:E;
      [apply Qltb_true in E | apply Qltb_false in E];
      repeat split; intros; try reflexivity; exfalso; lra.
  - intro H. rewrite check_entry_signal_idle by exact H. reflexivity.
  - intros stop_loss take_profit spread' price_1' price_2' timestamp' Hs
      flat opened closed.
    assert (Hopen : opened =
      set_max_unrealized_loss 0
        (set_max_unrealized_profit 0
           (set_current_position
              (Some {| entry_time := timestamp; entry_zscore := 2.5;
                       entry_spread := spread; entry_price_1 := price_1;
                       entry_price_2 := price_2; direction := short;
                       size := 10000 * 0.10; hedge_ratio := hedge_ratio |}) flat)))
      by reflexivity.
    destruct (calculate_pnl_returns opened _ spread' price_1' price_2'
                ltac:(rewrite Hopen; reflexivity))
      as (pnl & pnl_pct & Hpnl & _); [exact Hs | cbn; discriminate |].
    subst closed.
    rewrite (check_exit_signal_decision opened _ _ _ _ _ _ pnl pnl_pct
               ltac:(rewrite Hopen; reflexivity) Hpnl).
    cbn zeta.
    replace (Qltb (Qabs 0.1) (exit_threshold opened)) with true by reflexivity.
    destruct (tracked_close opened _ 0.1 spread' price_1' price_2' timestamp'
                "Mean reversion complete" pnl pnl_pct
                ltac:(rewrite Hopen; reflexivity) Hpnl
                ltac:(rewrite Hopen; reflexivity))
      as [(Hsig & Hflat & trade & Htrades & _) _].
    split; [| split; [| split]].
    + rewrite Hopen. eexists. split; [reflexivity |].
      split; [reflexivity | reflexivity].
    + exists pnl, pnl_pct. exact Hsig.
    + exact Hflat.
    + rewrite Htrades, Hopen. reflexivity.
Qed.

(** C2 on the example of the source file: entry at z-score 2.5 and spread 10,
    exit at z-score 0.1 and spread 8. *)
Lemma check_entry_signal_spec_witness :
  (exists pos, current_position open_short = Some pos
               /\ direction pos = short /\ (size pos == 1000.0)%Q)
  /\ (exists pnl pnl_pct,
        fst (check_exit_signal open_short 0.1 8 98 49 60000000)
        = Return (Some (EXIT "Mean reversion complete" pnl pnl_pct)))
  /\ current_position (snd (check_exit_signal open_short 0.1 8 98 49 60000000)) = None
  /\ length (closed_trades (snd (check_exit_signal open_short 0.1 8 98 49 60000000)))
     = 1%nat.
Proof.
  pose proof (check_entry_signal_spec default_simulator 2.5 10 100 50 2 0) as H.
  cbn zeta in H. destruct H as (_ & _ & _ & H).
  apply (H 0.05%Q 0.10%Q 8%Q 98%Q 49%Q 60000000%Z). discriminate.
Defined.

(** *** Performance metrics of an empty history *)

(** C5. With no closed trade [get_performance_metrics] returns (it never
    raises) a dictionary with [total_trades = 0] and zero statistics, but
    that dictionary lacks two of the documented fields, [total_return] and
    [peak_capital], which the branch for a non-empty history does return. *)
Theorem performance_metrics_empty_history (np_sqrt : Q -> Q) (self : PositionSimulator) :
  closed_trades self = [] ->
  exists d,
    get_performance_metrics np_sqrt self = Return d
    /\ d !! "total_trades" = Some 0%Q
    /\ Forall (fun k => d !! k = Some 0%Q)
         ["win_rate"; "avg_win"; "avg_loss"; "profit_factor"; "sharpe_ratio";
          "max_drawdown"; "total_pnl"]
    /\ d !! "current_capital" = Some (current_capital self)
    /\ missing_fields d = ["total_return"; "peak_capital"].
Proof.
  intro Hempty. unfold get_performance_metrics. rewrite Hempty.
  eexists. split; [reflexivity |]. split; [reflexivity |].
  split; [| split; reflexivity].
  repeat constructor.
Qed.

(** C5 on a freshly constructed simulator. *)
Lemma performance_metrics_empty_history_witness :
  exists d,
    get_performance_metrics (fun x => x) default_simulator = Return d
    /\ d !! "total_trades" = Some 0%Q
    /\ Forall (fun k => d !! k = Some 0%Q)
         ["win_rate"; "avg_win"; "avg_loss"; "profit_factor"; "sharpe_ratio";
          "max_drawdown"; "total_pnl"]
    /\ d !! "current_capital" = Some (current_capital default_simulator)
    /\ missing_fields d = ["total_return"; "peak_capital"].
Proof.
  apply (performance_metrics_empty_history (fun x => x) default_simulator).
  reflexivity.
Defined.

(** With at least one closed trade and a non-zero initial capital every
    documented field is present. *)
Lemma performance_metrics_nonempty_fields (np_sqrt : Q -> Q) (self : PositionSimulator) :
  closed_trades self <> [] ->
  ~ (initial_capital self == 0)%Q ->
  exists d,
    get_performance_metrics np_sqrt self = Return d /\ missing_fields d = [].
Proof.
  intros Hne Hcap. unfold get_performance_metrics.
  destruct (closed_trades self) as [| t ts]; [contradiction |].
  cbn [length Nat.eqb]. rewrite py_div_nonzero by exact Hcap. cbn [rbind].
  eexists. split; reflexivity.
Qed.

(** *** The books of the simulator *)

Lemma py_sum_snoc (l : list Q) (x : Q) : py_sum (l ++ [x]) = (py_sum l + x)%Q.
Proof. unfold py_sum. rewrite fold_left_app. reflexivity. Qed.

(** *** The equity curve of the closed trades *)

Lemma equity_curve_snoc (c : Q) (pnls : list Q) (p : Q) :
  Risk.equity_curve_of c (pnls ++ [p])
  = Risk.equity_curve_of c pnls
    ++ [(default 0%Q (last (Risk.equity_curve_of c pnls)) + p)%Q].
Proof. unfold Risk.equity_curve_of. rewrite fold_left_app. reflexivity. Qed.

Lemma equity_curve_length (c : Q) (pnls : list Q) :
  length (Risk.equity_curve_of c pnls) = S (length pnls).
Proof.
  induction pnls as [| p pnls IH] using rev_ind; [reflexivity |].
  rewrite equity_curve_snoc, !length_app, IH. cbn [length]. lia.
Qed.

Lemma equity_curve_last (c : Q) (pnls : list Q) :
  (default 0%Q (last (Risk.equity_curve_of c pnls)) == c + py_sum pnls)%Q.
Proof.
  induction pnls as [| p pnls IH] using rev_ind.
  { cbn. unfold py_sum. cbn. lra. }
  rewrite equity_curve_snoc, last_snoc, py_sum_snoc. cbn [default from_option id].
  rewrite IH. lra.
Qed.

Lemma expanding_max_from_snoc (m : Q) (l : list Q) (x : Q) :
  Risk.expanding_max_from m (l ++ [x])
  = Risk.expanding_max_from m l
    ++ [py_max (default m (last (Risk.expanding_max_from m l))) x].
Proof.
  revert m. induction l as [| y l IH]; intro m; [reflexivity |].
  cbn [app Risk.expanding_max_from]. rewrite IH. cbn [app].
  rewrite last_cons.
  destruct (last (Risk.expanding_max_from (py_max m y) l)); reflexivity.
Qed.

Lemma expanding_max_snoc (y : Q) (l : list Q) (x : Q) :
  Risk.expanding_max ((y :: l) ++ [x])
  = Risk.expanding_max (y :: l)
    ++ [py_max (default 0%Q (last (Risk.expanding_max (y :: l)))) x].
Proof.
  cbn [app Risk.expanding_max]. rewrite expanding_max_from_snoc. cbn [app].
  rewrite last_cons. destruct (last (Risk.expanding_max_from y l)); reflexivity.
Qed.

Lemma py_max_compat (a a' b b' : Q) :
  (a == a')%Q -> (b == b')%Q -> (py_max a b == py_max a' b')%Q.
Proof.
  intros Ha Hb. unfold py_max, Qgtb. cmp_cases; lra.
Qed.

(** One more trade moves the peak of the curve as [_close_position] moves
    [peak_capital]. *)
Lemma peak_curve_step (c : Q) (pnls : list Q) (p peak capital : Q) :
  (peak == default 0%Q (last (Risk.expanding_max (Risk.equity_curve_of c pnls))))%Q ->
  (capital == default 0%Q (last (Risk.equity_curve_of c pnls)))%Q ->
  (py_max peak (capital + p)
   == default 0%Q
        (last (Risk.expanding_max (Risk.equity_curve_of c (pnls ++ [p])))))%Q.
Proof.
  intros Hpeak Hcap. rewrite equity_curve_snoc.
  pose proof (equity_curve_length c pnls) as Hlen.
  destruct (Risk.equity_curve_of c pnls) as [| y l] eqn:Hcurve; [discriminate Hlen |].
  rewrite expanding_max_snoc, last_snoc. cbn [default from_option id] in *.
  apply py_max_compat; [exact Hpeak |]. rewrite Hcap. reflexivity.
Qed.

Lemma init_consistent (capital entry exit size_pct stop take : Q) :
  (0 < capital)%Q -> consistent (init capital entry exit size_pct stop take).
Proof.
  intro H. constructor; cbn; try lra; try reflexivity.
  constructor.
Qed.

Lemma tracked_consistent (self : PositionSimulator) (pnl : Q) :
  consistent self -> consistent (tracked self pnl).
Proof.
  intros []. constructor; unfold tracked; sim_simpl; try assumption.
  - pose proof (py_min_le_l (max_unrealized_loss self) pnl). lra.
  - pose proof (py_max_ge_l (max_unrealized_profit self) pnl). lra.
Qed.

Lemma check_entry_signal_consistent (self : PositionSimulator)
    (zscore spread price_1 price_2 hedge_ratio : Q) (timestamp : Z) :
  consistent self ->
  consistent
    (snd (check_entry_signal self zscore spread price_1 price_2 hedge_ratio timestamp)).
Proof.
  intros H. unfold check_entry_signal.
  destruct (current_position self); [exact H |].
  destruct (Qgtb (Qabs zscore) (entry_threshold self)); [| exact H].
  destruct H. constructor; sim_simpl; cbn [snd]; sim_simpl; try assumption; lra.
Qed.

(** The last steps of [close_position_consistent], once the branches of
    [_close_position] are fixed: name the appended trade and check the books
    field by field. *)
Ltac close_books self pnl Hpnl :=
  let trade := fresh "trade" in
  let Hp := fresh "Hp" in
  let Hf := fresh "Hf" in
  let Ha := fresh "Ha" in
  let Hw := fresh "Hw" in
  match goal with
  | |- context [closed_trades self ++ [?tr]] =>
      set (trade := tr) in *;
      assert (Hp : trade_pnl trade = pnl) by reflexivity;
      assert (Hf : trade_max_favorable trade = max_unrealized_profit self)
        by reflexivity;
      assert (Ha : trade_max_adverse trade = max_unrealized_loss self)
        by reflexivity;
      assert (Hw : is_win trade = Qgtb pnl 0) by reflexivity;
      rewrite Hpnl in Hw;
      clearbody trade
  end;
  constructor; sim_simpl;
  rewrite ?map_app, ?filter_app, ?length_app; cbn [map];
  rewrite ?py_sum_snoc, ?Hp;
  try (rewrite (filter_cons_True _ trade []) by (rewrite Hw; reflexivity));
  try (rewrite (filter_cons_False _ trade []) by (rewrite Hw; discriminate));
  try (rewrite (filter_cons_True _ trade []) by (rewrite Hw; reflexivity));
  rewrite ?filter_nil; cbn [length];
  try assumption; try lra; try lia;
  try (match goal with
       | |- (0 <= py_max ?a ?b)%Q =>
           pose proof (py_max_ge_l a b); lra
       end);
  try (apply Forall_app; split; [assumption |];
       apply Forall_singleton; unfold within_extremes; rewrite Hp, Hf, Ha;
       repeat split; assumption);
  try (transitivity (py_max (peak_capital self) (current_capital self + pnl));
       [unfold py_max, Qgtb; cmp_cases; lra
       | apply peak_curve_step; [assumption | rewrite equity_curve_last; lra]]).

(** Closing keeps the books, provided the extremes already enclose the PnL
    of the close (as they do after the tracking of [check_exit_signal]). *)
Lemma close_position_consistent (self : PositionSimulator)
    (z s p1 p2 : Q) (t : Z) (reason : string) :
  consistent self ->
  (forall pnl pnl_pct,
     _calculate_pnl self s p1 p2 = Return (pnl, pnl_pct) ->
     (max_unrealized_loss self <= pnl)%Q /\ (pnl <= max_unrealized_profit self)%Q) ->
  consistent (snd (_close_position self z s p1 p2 t reason)).
Proof.
  intros H Hext. unfold _close_position.
  destruct (current_position self) as [pos |]; [| exact H].
  destruct (_calculate_pnl self s p1 p2) as [[pnl pnl_pct] | e]; [| exact H].
  destruct (Hext pnl pnl_pct eq_refl) as [Hlo Hhi]. clear Hext.
  destruct H. sim_simpl.
  destruct (Qgtb (current_capital self + pnl) (peak_capital self)) eqn:Hgt;
    sim_simpl;
    [apply Qltb_true in Hgt | apply Qltb_false in Hgt];
    (rewrite py_div_nonzero by lra); sim_simpl;
    destruct (Qgtb pnl 0) eqn:Hpnl; sim_simpl; cbn [snd];
    close_books self pnl Hpnl.
Qed.

Lemma check_exit_signal_consistent (self : PositionSimulator)
    (zscore spread price_1 price_2 : Q) (timestamp : Z) :
  consistent self ->
  consistent (snd (check_exit_signal self zscore spread price_1 price_2 timestamp)).
Proof.
  intros H. destruct (current_position self) as [pos |] eqn:Hpos.
  2: { unfold check_exit_signal. rewrite Hpos. exact H. }
  destruct (_calculate_pnl self spread price_1 price_2) as [[pnl pnl_pct] | e] eqn:Hpnl.
  2: { unfold check_exit_signal. rewrite Hpos, Hpnl. exact H. }
  rewrite (check_exit_signal_decision self pos zscore spread price_1 price_2
             timestamp pnl pnl_pct Hpos Hpnl).
  cbn zeta.
  assert (Hc : forall reason,
             consistent (snd (_close_position (tracked self pnl) zscore spread
                                price_1 price_2 timestamp reason))).
  { intros reason. apply close_position_consistent.
    - apply tracked_consistent. exact H.
    - intros pnl' pnl_pct' Hp'.
      rewrite (calculate_pnl_frame self (tracked self pnl)) in Hp' by reflexivity.
      rewrite Hpnl in Hp'. injection Hp' as <- <-.
      unfold tracked. sim_simpl. split; [apply py_min_le_r | apply py_max_ge_r]. }
  repeat match goal with
  | |- context [if ?c then _ else _] => destruct c; [apply Hc |]
  end.
  apply tracked_consistent. exact H.
Qed.

Lemma cycle_consistent (self : PositionSimulator) (o : Observation) :
  consistent self -> consistent (cycle self o).
Proof.
  intro H. unfold cycle.
  apply check_exit_signal_consistent, check_entry_signal_consistent, H.
Qed.

Lemma run_consistent (self : PositionSimulator) (observations : list Observation) :
  consistent self -> consistent (run self observations).
Proof.
  unfold run. revert self.
  induction observations as [| o os IH]; intros self H; [exact H |].
  cbn [fold_left]. apply IH, cycle_consistent, H.
Qed.

(** The only exception of [_calculate_pnl] is the division by a zero entry
    spread or a zero size. *)
Lemma calculate_pnl_raise_cause (self : PositionSimulator) (s p1 p2 : Q) (e : exn) :
  _calculate_pnl self s p1 p2 = Raise e ->
  e = ZeroDivisionError
  /\ exists pos,
       current_position self = Some pos
       /\ ((entry_spread pos == 0)%Q \/ (size pos == 0)%Q).
Proof.
  unfold _calculate_pnl, py_div.
  destruct (current_position self) as [pos |]; [| discriminate].
  destruct (Qeqb (entry_spread pos) 0) eqn:Es.
  - apply Qeqb_true in Es. destruct (direction pos); cbn [rbind]; intros [= <-];
      (split; [reflexivity | exists pos; split; [reflexivity | left; exact Es]]).
  - destruct (Qeqb (size pos) 0) eqn:Ez.
    + apply Qeqb_true in Ez. destruct (direction pos); cbn [rbind]; intros [= <-];
        (split; [reflexivity | exists pos; split; [reflexivity | right; exact Ez]]).
    + destruct (direction pos); cbn [rbind]; discriminate.
Qed.

Lemma calculate_pnl_zero_size (self : PositionSimulator) (pos : Position) (s p1 p2 : Q) :
  current_position self = Some pos ->
  (entry_spread pos == 0)%Q \/ (size pos == 0)%Q ->
  _calculate_pnl self s p1 p2 = Raise ZeroDivisionError.
Proof.
  intros Hpos [Hs | Hz]; [exact (calculate_pnl_raises self pos s p1 p2 Hpos Hs) |].
  unfold _calculate_pnl, py_div. rewrite Hpos.
  apply Qeqb_true in Hz.
  destruct (Qeqb (entry_spread pos) 0); destruct (direction pos); cbn [rbind];
    rewrite ?Hz; reflexivity.
Qed.

Lemma filter_partition_length {A : Type} (f : A -> bool) (l : list A) :
  (length (filter (fun x => f x = true) l)
   + length (filter (fun x => f x = false) l))%nat = length l.
Proof.
  induction l as [| x l IH]; [reflexivity |].
  rewrite !filter_cons.
  destruct (decide (f x = true)) as [E | E], (decide (f x = false)) as [E' | E'];
    cbn [length]; try lia; destruct (f x); congruence.
Qed.

(** X2. After any sequence of analytics cycles on a simulator created with
    a positive capital, the books balance: the capital is the initial capital
    plus the total PnL, the total PnL is the sum over the closed trades, and
    the win and loss counters count the trades with positive and with
    non-positive PnL, so that together they count every trade. *)
Theorem simulator_books_balance (capital entry exit size_pct stop take : Q)
    (observations : list Observation) (s : PositionSimulator) :
  (0 < capital)%Q ->
  s = run (init capital entry exit size_pct stop take) observations ->
  (current_capital s == initial_capital s + total_pnl s)%Q
  /\ (total_pnl s == py_sum (map trade_pnl (closed_trades s)))%Q
  /\ win_count s
     = Z.of_nat (length (filter (fun t => is_win t = true) (closed_trades s)))
  /\ loss_count s
     = Z.of_nat (length (filter (fun t => is_win t = false) (closed_trades s)))
  /\ (win_count s + loss_count s)%Z = Z.of_nat (length (closed_trades s)).
Proof.
  intros Hcap ->.
  destruct (run_consistent _ observations
              (init_consistent capital entry exit size_pct stop take Hcap)).
  repeat split; try assumption.
  rewrite wins_books0, losses_books0, <- Nat2Z.inj_add.
  rewrite (filter_partition_length is_win). reflexivity.
Qed.

(** X2 on the example of the source file: an entry, then an exit. *)
Lemma simulator_books_balance_witness :
  (current_capital (run default_simulator example_observations)
   == initial_capital (run default_simulator example_observations)
      + total_pnl (run default_simulator example_observations))%Q
  /\ (win_count (run default_simulator example_observations)
      + loss_count (run default_simulator example_observations))%Z
     = Z.of_nat (length (closed_trades (run default_simulator example_observations))).
Proof.
  destruct (simulator_books_balance 10000 2.0 0.2 0.10 0.05 0.10
              example_observations (run default_simulator example_observations))
    as (H1 & _ & _ & _ & H5).
  - lra.
  - reflexivity.
  - split; [exact H1 | exact H5].
Defined.

Lemma check_exit_signal_raise (self : PositionSimulator)
    (zscore spread price_1 price_2 : Q) (timestamp : Z)
    (e : exn) (self' : PositionSimulator) :
  (0 < peak_capital self)%Q ->
  check_exit_signal self zscore spread price_1 price_2 timestamp = (Raise e, self') ->
  e = ZeroDivisionError /\ self' = self
  /\ exists pos,
       current_position self = Some pos
       /\ ((entry_spread pos == 0)%Q \/ (size pos == 0)%Q).
Proof.
  intros Hpeak. destruct (current_position self) as [pos |] eqn:Hpos.
  2: { unfold check_exit_signal. rewrite Hpos. discriminate. }
  destruct (_calculate_pnl self spread price_1 price_2) as [[pnl pnl_pct] | e0] eqn:Hpnl.
  - rewrite (check_exit_signal_decision self pos zscore spread price_1 price_2
               timestamp pnl pnl_pct Hpos Hpnl).
    cbn zeta. intros Hout. exfalso.
    assert (Hc : forall reason,
               _close_position (tracked self pnl) zscore spread price_1 price_2
                 timestamp reason <> (Raise e, self')).
    { intros reason Heq.
      destruct (tracked_close self pos zscore spread price_1 price_2 timestamp
                  reason pnl pnl_pct Hpos Hpnl Hpeak) as [[Hfst _] _].
      rewrite Heq in Hfst. discriminate Hfst. }
    revert Hout.
    repeat match goal with
    | |- context [if ?c then _ else _] => destruct c; [apply Hc |]
    end.
    discriminate.
  - unfold check_exit_signal. rewrite Hpos, Hpnl. intros [= <- <-].
    destruct (calculate_pnl_raise_cause self spread price_1 price_2 e0 Hpnl)
      as [He (pos' & Hpos' & Hz)].
    rewrite Hpos in Hpos'. injection Hpos' as <-.
    split; [exact He |]. split; [reflexivity |]. exists pos. split; [reflexivity | exact Hz].
Qed.

(** X3. After any sequence of cycles from a positive capital, the peak is
    at least the capital and the initial capital, the maximal drawdown is not
    negative, and the exit check can fail in one way only: with
    [ZeroDivisionError] for a position of zero entry spread or zero size, in
    which case it has changed nothing.  The drawdown is never divided by a
    zero peak. *)
Theorem simulator_peak_and_failure (capital entry exit size_pct stop take : Q)
    (observations : list Observation) (s : PositionSimulator) :
  (0 < capital)%Q ->
  s = run (init capital entry exit size_pct stop take) observations ->
  (current_capital s <= peak_capital s)%Q
  /\ (0 < initial_capital s)%Q
  /\ (initial_capital s <= peak_capital s)%Q
  /\ (0 <= max_drawdown s)%Q
  /\ forall zscore spread price_1 price_2 timestamp e s',
       check_exit_signal s zscore spread price_1 price_2 timestamp = (Raise e, s') ->
       e = ZeroDivisionError /\ s' = s
       /\ exists pos,
            current_position s = Some pos
            /\ ((entry_spread pos == 0)%Q \/ (size pos == 0)%Q).
Proof.
  intros Hcap ->.
  destruct (run_consistent _ observations
              (init_consistent capital entry exit size_pct stop take Hcap)).
  repeat (split; [assumption |]).
  intros zscore spread price_1 price_2 timestamp e s'.
  apply check_exit_signal_raise. lra.
Qed.

(** X3 on the example of the source file. *)
Lemma simulator_peak_and_failure_witness :
  (current_capital (run default_simulator example_observations)
   <= peak_capital (run default_simulator example_observations))%Q
  /\ (0 <= max_drawdown (run default_simulator example_observations))%Q.
Proof.
  destruct (simulator_peak_and_failure 10000 2.0 0.2 0.10 0.05 0.10
              example_observations (run default_simulator example_observations))
    as (H1 & _ & _ & H4 & _).
  - lra.
  - reflexivity.
  - split; [exact H1 | exact H4].
Defined.

(** X4. Every trade the cycles record carries extremes that enclose its
    PnL and zero: the largest unrealized profit seen is at least the realized
    PnL and at least 0, the largest loss at most the realized PnL and at
    most 0. *)
Theorem recorded_extremes_enclose_pnl (capital entry exit size_pct stop take : Q)
    (observations : list Observation) (t : ClosedTrade) :
  (0 < capital)%Q ->
  t ∈ closed_trades (run (init capital entry exit size_pct stop take) observations) ->
  (trade_max_adverse t <= trade_pnl t)%Q
  /\ (trade_pnl t <= trade_max_favorable t)%Q
  /\ (trade_max_adverse t <= 0)%Q
  /\ (0 <= trade_max_favorable t)%Q.
Proof.
  intros Hcap Hin.
  destruct (run_consistent _ observations
              (init_consistent capital entry exit size_pct stop take Hcap)).
  exact (proj1 (Forall_forall _ _) trades_books0 t Hin).
Qed.

(** X4 on the example of the source file, which records one trade. *)
Lemma recorded_extremes_enclose_pnl_witness :
  length (closed_trades (run default_simulator example_observations)) = 1%nat
  /\ Forall within_extremes (closed_trades (run default_simulator example_observations)).
Proof.
  split; [vm_compute; reflexivity |].
  apply Forall_forall. intros t Hin. unfold within_extremes.
  apply (recorded_extremes_enclose_pnl 10000 2.0 0.2 0.10 0.05 0.10
           example_observations t); [lra | exact Hin].
Defined.

(** X5. When the exit check leaves the position open, the unrealized PnL
    reported for the same spread lies between the two extremes reported with
    it. *)
Theorem unrealized_pnl_within_extremes (self self' : PositionSimulator)
    (zscore spread price_1 price_2 : Q) (timestamp : Z) (pos : Position) :
  check_exit_signal self zscore spread price_1 price_2 timestamp = (Return None, self') ->
  current_position self' = Some pos ->
  exists u lo hi,
    get_unrealized_pnl self' spread price_1 price_2 = Return u
    /\ has_position u = true
    /\ max_adverse u = Some lo /\ max_favorable u = Some hi
    /\ (lo <= unrealized_pnl u)%Q /\ (unrealized_pnl u <= hi)%Q.
Proof.
  intros Hout Hopen.
  destruct (current_position self) as [pos0 |] eqn:Hpos.
  2: { unfold check_exit_signal in Hout. rewrite Hpos in Hout.
       injection Hout as <-. congruence. }
  destruct (_calculate_pnl self spread price_1 price_2) as [[pnl pnl_pct] | e] eqn:Hpnl.
  2: { unfold check_exit_signal in Hout. rewrite Hpos, Hpnl in Hout. discriminate. }
  rewrite (check_exit_signal_decision self pos0 zscore spread price_1 price_2
             timestamp pnl pnl_pct Hpos Hpnl) in Hout.
  cbn zeta in Hout.
  assert (Hc : forall reason,
             _close_position (tracked self pnl) zscore spread price_1 price_2
               timestamp reason = (Return None, self') -> False).
  { intros reason Heq. unfold _close_position in Heq.
    change (current_position (tracked self pnl)) with (current_position self) in Heq.
    rewrite Hpos in Heq.
    rewrite (calculate_pnl_frame self (tracked self pnl)) in Heq by reflexivity.
    rewrite Hpnl in Heq.
    match type of Heq with
    | context [py_div ?a ?b] => destruct (py_div a b); discriminate Heq
    end. }
  assert (Hself : self' = tracked self pnl).
  { revert Hout.
    repeat match goal with
    | |- context [if ?c then _ else _] =>
        destruct c; [intro Hout; destruct (Hc _ Hout) |]
    end.
    intros [= <-]. reflexivity. }
  subst self'. unfold get_unrealized_pnl.
  rewrite Hopen.
  rewrite (calculate_pnl_frame self (tracked self pnl)) by reflexivity.
  rewrite Hpnl. do 3 eexists. split; [reflexivity |].
  cbn [has_position max_adverse max_favorable unrealized_pnl].
  repeat (split; [reflexivity |]).
  unfold tracked. sim_simpl. split; [apply py_min_le_r | apply py_max_ge_r].
Qed.

(** X5 on the open position of the source's example, at spread 9.5. *)
Lemma unrealized_pnl_within_extremes_witness :
  exists u lo hi,
    get_unrealized_pnl
      (snd (check_exit_signal open_short 1.5 9.5 99 50 1)) 9.5 99 50 = Return u
    /\ has_position u = true
    /\ max_adverse u = Some lo /\ max_favorable u = Some hi
    /\ (lo <= unrealized_pnl u)%Q /\ (unrealized_pnl u <= hi)%Q.
Proof.
  eapply (unrealized_pnl_within_extremes open_short _ 1.5 9.5 99 50 1).
  - vm_compute. reflexivity.
  - vm_compute. reflexivity.
Defined.

(** X6. A position with a zero entry spread or a zero size is never closed:
    every exit check raises [ZeroDivisionError], every entry check declines,
    and no sequence of cycles changes the simulator. *)
Theorem zero_spread_position_stuck (self : PositionSimulator) (pos : Position)
    (observations : list Observation) :
  current_position self = Some pos ->
  (entry_spread pos == 0)%Q \/ (size pos == 0)%Q ->
  (forall zscore spread price_1 price_2 timestamp,
     check_exit_signal self zscore spread price_1 price_2 timestamp
     = (Raise ZeroDivisionError, self))
  /\ (forall current_spread price_1 price_2,
        get_unrealized_pnl self current_spread price_1 price_2
        = Raise ZeroDivisionError)
  /\ run self observations = self.
Proof.
  intros Hpos Hz.
  assert (Hexit : forall zscore spread price_1 price_2 timestamp,
             check_exit_signal self zscore spread price_1 price_2 timestamp
             = (Raise ZeroDivisionError, self)).
  { intros. unfold check_exit_signal.
    rewrite Hpos, (calculate_pnl_zero_size self pos _ _ _ Hpos Hz). reflexivity. }
  split; [exact Hexit |]. split.
  - intros. unfold get_unrealized_pnl.
    rewrite Hpos, (calculate_pnl_zero_size self pos _ _ _ Hpos Hz). reflexivity.
  - unfold run. induction observations as [| o os IH]; [reflexivity |].
    cbn [fold_left].
    assert (Hcycle : cycle self o = self).
    { unfold cycle, check_entry_signal. rewrite Hpos. cbn [snd].
      rewrite Hexit. reflexivity. }
    rewrite Hcycle. exact IH.
Qed.

(** X6 on an entry at spread 0. *)
Lemma zero_spread_position_stuck_witness :
  check_exit_signal (snd (check_entry_signal default_simulator 2.5 0 100 50 2 0))
    0.1 8 98 49 1
  = (Raise ZeroDivisionError,
     snd (check_entry_signal default_simulator 2.5 0 100 50 2 0))
  /\ run (snd (check_entry_signal default_simulator 2.5 0 100 50 2 0))
       example_observations
     = snd (check_entry_signal default_simulator 2.5 0 100 50 2 0).
Proof.
  destruct (zero_spread_position_stuck
              (snd (check_entry_signal default_simulator 2.5 0 100 50 2 0))
              {| entry_time := 0; entry_zscore := 2.5; entry_spread := 0;
                 entry_price_1 := 100; entry_price_2 := 50; direction := short;
                 size := 10000 * 0.10; hedge_ratio := 2 |}
              example_observations) as (H1 & _ & H3).
  - vm_compute. reflexivity.
  - left. vm_compute. reflexivity.
  - split; [apply H1 | exact H3].
Defined.

(** The PnL of a position at its own entry spread is zero. *)
Lemma calculate_pnl_at_entry (self : PositionSimulator) (pos : Position) (p1 p2 : Q) :
  current_position self = Some pos ->
  ~ (entry_spread pos == 0)%Q -> ~ (size pos == 0)%Q ->
  exists pnl pnl_pct,
    _calculate_pnl self (entry_spread pos) p1 p2 = Return (pnl, pnl_pct)
    /\ (pnl == 0)%Q.
Proof.
  intros Hpos Hs Hz.
  destruct (calculate_pnl_returns self pos (entry_spread pos) p1 p2 Hpos Hs Hz)
    as (pnl & pnl_pct & Heq & Hpnl & _).
  exists pnl, pnl_pct. split; [exact Heq |].
  rewrite Hpnl. destruct (direction pos); cbn [is_long]; field; exact Hs.
Qed.

(** X7. With an exit threshold not above the entry threshold and
    non-negative stop-loss and take-profit fractions, the exit check that
    follows an entry in the same cycle leaves the fresh position alone: the
    cycle ends with the position open as entered and no trade recorded. *)
Theorem entry_survives_its_cycle (self : PositionSimulator) (o : Observation) :
  current_position self = None ->
  (entry_threshold self < Qabs (obs_zscore o))%Q ->
  (exit_threshold self <= entry_threshold self)%Q ->
  ~ (obs_spread o == 0)%Q ->
  (0 < current_capital self * position_size_pct self)%Q ->
  (0 <= stop_loss_pct self)%Q ->
  (0 <= take_profit_pct self)%Q ->
  cycle self o
  = snd (check_entry_signal self (obs_zscore o) (obs_spread o) (obs_price_1 o)
           (obs_price_2 o) (obs_hedge_ratio o) (obs_entry_time o))
  /\ closed_trades (cycle self o) = closed_trades self
  /\ exists pos,
       current_position (cycle self o) = Some pos
       /\ entry_spread pos = obs_spread o
       /\ entry_zscore pos = obs_zscore o
       /\ entry_time pos = obs_entry_time o.
Proof.
  intros Hflat Hz Hthr Hs Hsize Hsl Htp.
  assert (Hentry : exists pos,
             snd (check_entry_signal self (obs_zscore o) (obs_spread o)
                    (obs_price_1 o) (obs_price_2 o) (obs_hedge_ratio o)
                    (obs_entry_time o))
             = set_max_unrealized_loss 0
                 (set_max_unrealized_profit 0 (set_current_position (Some pos) self))
             /\ entry_spread pos = obs_spread o
             /\ entry_zscore pos = obs_zscore o
             /\ entry_time pos = obs_entry_time o
             /\ size pos = (current_capital self * position_size_pct self)%Q
             /\ direction pos = (if Qgtb (obs_zscore o) 0 then short else long)).
  { unfold check_entry_signal. rewrite Hflat.
    assert (E : Qgtb (Qabs (obs_zscore o)) (entry_threshold self) = true)
      by (apply Qltb_true; exact Hz).
    rewrite E. cbn zeta. cbn [snd]. eexists. split; [reflexivity |].
    repeat split. }
  destruct Hentry as (pos & Hopen & Hes & Hez & Het & Hsz & Hdir).
  unfold cycle. rewrite Hopen.
  set (opened := set_max_unrealized_loss 0
                   (set_max_unrealized_profit 0 (set_current_position (Some pos) self))).
  assert (Hpos : current_position opened = Some pos) by reflexivity.
  destruct (calculate_pnl_at_entry opened pos (obs_price_1 o) (obs_price_2 o) Hpos)
    as (pnl & pnl_pct & Hpnl & Hzero).
  { rewrite Hes. exact Hs. }
  { rewrite Hsz. lra. }
  rewrite Hes in Hpnl.
  rewrite (check_exit_signal_decision opened pos _ _ _ _ _ pnl pnl_pct Hpos Hpnl).
  cbn zeta.
  assert (E1 : Qltb (Qabs (obs_zscore o)) (exit_threshold opened) = false)
    by (apply Qltb_false; unfold opened; sim_simpl; lra).
  assert (E2 : crossed_zero (direction pos) (obs_zscore o) = false).
  { rewrite Hdir. unfold crossed_zero, Qgtb.
    destruct (Qltb 0 (obs_zscore o)) eqn:E; cbn [is_long is_short andb orb].
    - apply Qltb_true in E. apply Qltb_false. lra.
    - reflexivity. }
  pose proof (Qmult_le_0_compat _ _ (Qlt_le_weak _ _ Hsize) Hsl) as Hsl'.
  pose proof (Qmult_le_0_compat _ _ (Qlt_le_weak _ _ Hsize) Htp) as Htp'.
  assert (E3 : Qltb pnl (- (size pos * stop_loss_pct opened)) = false)
    by (apply Qltb_false; rewrite Hsz; unfold opened; sim_simpl; lra).
  assert (E4 : Qgtb pnl (size pos * take_profit_pct opened) = false)
    by (apply Qltb_false; rewrite Hsz; unfold opened; sim_simpl; lra).
  rewrite E1, E2, E3, E4. cbn [snd].
  assert (Htracked : tracked opened pnl = opened).
  { unfold tracked, opened, py_max, py_min. sim_simpl.
    assert (G1 : Qgtb pnl 0 = false) by (apply Qltb_false; lra).
    assert (G2 : Qltb pnl 0 = false) by (apply Qltb_false; lra).
    rewrite G1, G2. reflexivity. }
  rewrite Htracked. split; [reflexivity |]. split; [reflexivity |].
  exists pos. repeat split; assumption.
Qed.

(** X7 on the first cycle of the source's example. *)
Lemma entry_survives_its_cycle_witness :
  cycle default_simulator
    {| obs_zscore := 2.5; obs_spread := 10; obs_price_1 := 100; obs_price_2 := 50;
       obs_hedge_ratio := 2; obs_entry_time := 0; obs_exit_time := 1 |}
  = open_short.
Proof.
  apply (entry_survives_its_cycle default_simulator
           {| obs_zscore := 2.5; obs_spread := 10; obs_price_1 := 100;
              obs_price_2 := 50; obs_hedge_ratio := 2; obs_entry_time := 0;
              obs_exit_time := 1 |}).
  - reflexivity.
  - vm_compute. reflexivity.
  - vm_compute. discriminate.
  - vm_compute. discriminate.
  - vm_compute. reflexivity.
  - vm_compute. discriminate.
  - vm_compute. discriminate.
Defined.

(** *** Performance metrics of a simulator with balanced books *)

Lemma fold_left_Qplus_nonneg (l : list Q) (acc : Q) :
  (0 <= acc)%Q -> Forall (fun x => (0 <= x)%Q) l -> (0 <= fold_left Qplus l acc)%Q.
Proof.
  revert acc. induction l as [| x l IH]; intros acc Hacc Hall; [exact Hacc |].
  cbn [fold_left]. inversion Hall as [| ? ? Hx Hl]; subst.
  apply IH; [lra | exact Hl].
Qed.

Lemma py_sum_wins_nonneg (l : list Q) :
  (0 <= py_sum (filter (fun p => Qgtb p 0 = true) l))%Q.
Proof.
  apply fold_left_Qplus_nonneg; [lra |].
  apply Forall_forall. intros x Hx.
  apply list_elem_of_filter in Hx as [Hx _].
  apply Qltb_true in Hx. lra.
Qed.

Lemma win_rate_range (wins n : nat) :
  (wins <= n)%nat -> (0 < n)%nat ->
  (0 <= inject_Z (Z.of_nat wins) / inject_Z (Z.of_nat n) * 100)%Q
  /\ (inject_Z (Z.of_nat wins) / inject_Z (Z.of_nat n) * 100 <= 100)%Q.
Proof.
  intros Hle Hn.
  assert (H0 : (0 <= inject_Z (Z.of_nat wins))%Q).
  { change 0%Q with (inject_Z 0). rewrite <- Zle_Qle. lia. }
  assert (H1 : (inject_Z (Z.of_nat wins) <= inject_Z (Z.of_nat n))%Q).
  { rewrite <- Zle_Qle. lia. }
  assert (H2 : (0 < inject_Z (Z.of_nat n))%Q).
  { change 0%Q with (inject_Z 0). rewrite <- Zlt_Qlt. lia. }
  assert (Hlo : (0 <= inject_Z (Z.of_nat wins) / inject_Z (Z.of_nat n))%Q)
    by (apply Qle_shift_div_l; lra).
  assert (Hhi : (inject_Z (Z.of_nat wins) / inject_Z (Z.of_nat n) <= 1)%Q)
    by (apply Qle_shift_div_r; lra).
  split; lra.
Qed.

Lemma performance_metrics_consistent (np_sqrt : Q -> Q) (self : PositionSimulator) :
  consistent self ->
  exists d w pf dd,
    get_performance_metrics np_sqrt self = Return d
    /\ d !! "total_trades" = Some (inject_Z (Z.of_nat (length (closed_trades self))))
    /\ d !! "win_rate" = Some w /\ (0 <= w)%Q /\ (w <= 100)%Q
    /\ d !! "profit_factor" = Some pf /\ (0 <= pf)%Q
    /\ d !! "max_drawdown" = Some dd /\ (0 <= dd)%Q.
Proof.
  intros []. unfold get_performance_metrics.
  destruct (closed_trades self) as [| t ts] eqn:Htrades.
  { cbn [length Nat.eqb]. eexists _, 0%Q, 0%Q, 0%Q. split; [reflexivity |].
    repeat (split; [reflexivity || lra |]). lra. }
  cbn [length Nat.eqb Nat.ltb Nat.leb].
  rewrite py_div_nonzero by lra. cbn [rbind].
  do 4 eexists. split; [reflexivity |]. split; [reflexivity |].
  split; [reflexivity |]. cbn [snd].
  assert (Hw : (length (filter (fun t => is_win t = true) (t :: ts))
                <= S (length ts))%nat).
  { pose proof (filter_partition_length is_win (t :: ts)) as Hp.
    cbn [length] in Hp. lia. }
  rewrite wins_books0.
  destruct (win_rate_range _ (S (length ts)) Hw ltac:(lia)) as [Hlo Hhi].
  split; [exact Hlo |]. split; [exact Hhi |].
  split; [reflexivity |]. cbn [snd]. split.
  - match goal with
    | |- (0 <= (if Qgtb ?tl 0 then ?tw / ?tl else 0))%Q =>
        assert (Htw : (0 <= tw)%Q);
        [| destruct (Qgtb tl 0) eqn:E;
           [apply Qltb_true in E; apply Qle_shift_div_l; lra | lra]]
    end.
    pose proof (py_sum_wins_nonneg (map trade_pnl (t :: ts))) as Hs.
    destruct (filter _ (map trade_pnl (t :: ts))); [lra | exact Hs].
  - split; [reflexivity |]. cbn [snd]. lra.
Qed.

(** X8. After any sequence of cycles from a positive capital,
    [get_performance_metrics] does not raise, and it reports the number of
    closed trades, a win rate in [[0, 100]], and a profit factor and a
    maximal drawdown that are not negative. *)
Theorem performance_metrics_of_run (np_sqrt : Q -> Q)
    (capital entry exit size_pct stop take : Q)
    (observations : list Observation) (s : PositionSimulator) :
  (0 < capital)%Q ->
  s = run (init capital entry exit size_pct stop take) observations ->
  exists d w pf dd,
    get_performance_metrics np_sqrt s = Return d
    /\ d !! "total_trades" = Some (inject_Z (Z.of_nat (length (closed_trades s))))
    /\ d !! "win_rate" = Some w /\ (0 <= w)%Q /\ (w <= 100)%Q
    /\ d !! "profit_factor" = Some pf /\ (0 <= pf)%Q
    /\ d !! "max_drawdown" = Some dd /\ (0 <= dd)%Q.
Proof.
  intros Hcap ->. apply performance_metrics_consistent, run_consistent.
  apply init_consistent, Hcap.
Qed.

(** X8 on the example of the source file. *)
Lemma performance_metrics_of_run_witness :
  exists d w pf dd,
    get_performance_metrics (fun x => x) (run default_simulator example_observations)
    = Return d
    /\ d !! "total_trades"
       = Some (inject_Z (Z.of_nat (length (closed_trades
                                             (run default_simulator
                                                example_observations)))))
    /\ d !! "win_rate" = Some w /\ (0 <= w)%Q /\ (w <= 100)%Q
    /\ d !! "profit_factor" = Some pf /\ (0 <= pf)%Q
    /\ d !! "max_drawdown" = Some dd /\ (0 <= dd)%Q.
Proof.
  apply (performance_metrics_of_run (fun x => x) 10000 2.0 0.2 0.10 0.05 0.10
           example_observations).
  - lra.
  - reflexivity.
Defined.

(** X9. A history without a losing trade has profit factor 0, not a large
    one: the ratio of wins to losses is replaced by 0 when there is no loss
    to divide by. *)
Theorem profit_factor_without_losses (np_sqrt : Q -> Q) (self : PositionSimulator) :
  closed_trades self <> [] ->
  Forall (fun t => (0 <= trade_pnl t)%Q) (closed_trades self) ->
  ~ (initial_capital self == 0)%Q ->
  exists d,
    get_performance_metrics np_sqrt self = Return d
    /\ d !! "profit_factor" = Some 0%Q
    /\ d !! "avg_loss" = Some 0%Q.
Proof.
  intros Hne Hall Hcap. unfold get_performance_metrics.
  destruct (closed_trades self) as [| t ts] eqn:Htrades; [contradiction |].
  cbn [length Nat.eqb]. rewrite py_div_nonzero by exact Hcap. cbn [rbind].
  assert (Hlosses : filter (fun p => Qltb p 0 = true) (map trade_pnl (t :: ts)) = []).
  { clear Htrades Hne. induction Hall as [| x l Hx Hl IH]; [reflexivity |].
    cbn [map]. rewrite filter_cons_False; [exact IH |].
    intro E. apply Qltb_true in E. lra. }
  rewrite Hlosses. eexists. split; [reflexivity |]. split; reflexivity.
Qed.

(** X9 on a history of one winning trade. *)
Lemma profit_factor_without_losses_witness :
  exists d,
    get_performance_metrics (fun x => x) (run default_simulator example_observations)
    = Return d
    /\ d !! "profit_factor" = Some 0%Q
    /\ d !! "avg_loss" = Some 0%Q.
Proof.
  apply (profit_factor_without_losses (fun x => x)
           (run default_simulator example_observations)).
  - vm_compute. discriminate.
  - vm_compute. repeat constructor. discriminate.
  - vm_compute. discriminate.
Defined.

End PnlProperties.

(** ** Properties of alerts/engine.py *)

Section AlertsProperties.

Import Alerts.

(** *** Cooldown arithmetic *)

Lemma elapsed_lt_cooldown (microseconds cooldown : Z) :
  Qltb (total_seconds microseconds) (inject_Z cooldown) = true
  <-> (microseconds < cooldown * 1000000)%Z.
Proof.
  rewrite Qltb_true. unfold total_seconds, Qlt, Qdiv, Qmult, Qinv, inject_Z.
  cbn. lia.
Qed.

Lemma elapsed_ge_cooldown (microseconds cooldown : Z) :
  Qltb (total_seconds microseconds) (inject_Z cooldown) = false
  <-> (cooldown * 1000000 <= microseconds)%Z.
Proof.
  rewrite <- not_true_iff_false, elapsed_lt_cooldown. lia.
Qed.

Lemma in_cooldown_true (wall : nat -> Z) (self : AlertEngine) (env : Env)
    (rule : AlertRule) :
  fst (in_cooldown wall self env rule) = true <-> cooling wall self env rule.
Proof.
  unfold in_cooldown, cooling, now.
  destruct (last_trigger_times self !! rule_id rule) as [last |]; cbn [fst].
  - rewrite elapsed_lt_cooldown. split.
    + intro H. exists last. split; [reflexivity | exact H].
    + intros (last' & Heq & H). injection Heq as <-. exact H.
  - split; [discriminate |]. intros (last' & Heq & _). discriminate Heq.
Qed.

Lemma in_cooldown_events (wall : nat -> Z) (self : AlertEngine) (env : Env)
    (rule : AlertRule) :
  events (snd (in_cooldown wall self env rule)) = events env.
Proof.
  unfold in_cooldown, now.
  destruct (last_trigger_times self !! rule_id rule); reflexivity.
Qed.

Lemma in_cooldown_reads (wall : nat -> Z) (self : AlertEngine) (env : Env)
    (rule : AlertRule) :
  reads (snd (in_cooldown wall self env rule)) =
    match last_trigger_times self !! rule_id rule with
    | Some _ => S (reads env)
    | None => reads env
    end.
Proof.
  unfold in_cooldown, now.
  destruct (last_trigger_times self !! rule_id rule); reflexivity.
Qed.

(** *** The callback loop *)

Lemma calls_of_app (evs evs' : list Event) :
  calls_of (evs ++ evs') = calls_of evs ++ calls_of evs'.
Proof. unfold calls_of. apply omap_app. Qed.

Lemma run_callbacks_reads (cbs : list Callback) (i : nat) (alert : Alert) (env : Env) :
  reads (run_callbacks cbs i alert env) = reads env.
Proof.
  revert i env. induction cbs as [| cb cbs IH]; intros i env; cbn [run_callbacks].
  - reflexivity.
  - rewrite IH. destruct (cb alert); reflexivity.
Qed.

(** Every callback is invoked once, in registration order, whatever the
    earlier ones did; the loop adds nothing but invocations and the log lines
    of the exceptions it caught. *)
Lemma run_callbacks_events (cbs : list Callback) (i : nat) (alert : Alert) (env : Env) :
  exists evs,
    events (run_callbacks cbs i alert env) = events env ++ evs
    /\ calls_of evs = map (fun k => (k, alert)) (seq i (length cbs))
    /\ Forall (fun ev => match ev with
                         | CallbackCalled _ _ | CallbackError _ => True
                         | _ => False
                         end) evs.
Proof.
  revert i env. induction cbs as [| cb cbs IH]; intros i env; cbn [run_callbacks].
  - exists []. rewrite app_nil_r. repeat split. constructor.
  - destruct (cb alert) as [u | e].
    + destruct (IH (S i) (emit (CallbackCalled i alert) env)) as (evs & Hev & Hcalls & Hall).
      exists (CallbackCalled i alert :: evs). split; [| split].
      * rewrite Hev. cbn [emit events]. rewrite <- app_assoc. reflexivity.
      * cbn [length seq map]. rewrite <- Hcalls. reflexivity.
      * constructor; [exact I | exact Hall].
    + destruct (IH (S i) (emit (CallbackError e) (emit (CallbackCalled i alert) env)))
        as (evs & Hev & Hcalls & Hall).
      exists (CallbackCalled i alert :: CallbackError e :: evs). split; [| split].
      * rewrite Hev. cbn [emit events]. rewrite <- !app_assoc. reflexivity.
      * cbn [length seq map]. rewrite <- Hcalls. reflexivity.
      * constructor; [exact I |]. constructor; [exact I | exact Hall].
Qed.

(** *** The cases of [check_rule] *)

Section CheckRule.

Variable wall : nat -> Z.
Variable format_message : string -> string -> Q -> Q -> result string.

Lemma check_rule_disabled (self : AlertEngine) (env : Env) (rule : AlertRule)
    (value : Q) (data : option (gmap string Q)) :
  enabled rule = false ->
  check_rule wall format_message self env rule value data = (Return None, self, env).
Proof. intro H. unfold check_rule. rewrite H. reflexivity. Qed.

Lemma check_rule_cooling (self : AlertEngine) (env : Env) (rule : AlertRule)
    (value : Q) (data : option (gmap string Q)) :
  cooling wall self env rule ->
  fst (check_rule wall format_message self env rule value data) = (Return None, self)
  /\ events (snd (check_rule wall format_message self env rule value data)) = events env.
Proof.
  intro H. unfold check_rule.
  destruct (enabled rule); cbn [negb]; [| split; reflexivity].
  pose proof (in_cooldown_events wall self env rule) as Hev.
  apply in_cooldown_true in H.
  destruct (in_cooldown wall self env rule) as [c env']. cbn [fst snd] in *.
  subst c. split; [reflexivity | exact Hev].
Qed.

(** Past the two guards the call evaluates the condition, in the surroundings
    [env'] left by the cooldown test. *)
Lemma check_rule_evaluates (self : AlertEngine) (env : Env) (rule : AlertRule)
    (value : Q) (data : option (gmap string Q)) :
  enabled rule = true ->
  ~ cooling wall self env rule ->
  let env' := snd (in_cooldown wall self env rule) in
  check_rule wall format_message self env rule value data =
    match condition rule value (threshold rule) data with
    | Raise e => (Return None, self, emit (RuleError (rule_id rule) e) env')
    | Return false => (Return None, self, env')
    | Return true =>
        match format_message (message_template rule) (symbol rule) value (threshold rule) with
        | Raise e => (Raise e, self, env')
        | Return message =>
            let alert :=
              {| a_rule_id := rule_id rule;
                 a_alert_type := alert_type rule;
                 a_symbol := symbol rule;
                 a_severity := severity rule;
                 a_message := message;
                 a_value := value;
                 a_threshold := threshold rule;
                 a_timestamp := wall (reads env') |} in
            (Return (Some alert),
             set_alert_history (alert_history self ++ [alert])
               (set_last_trigger_times
                  (<[rule_id rule := wall (S (reads env'))]> (last_trigger_times self))
                  self),
             emit (AlertLogged message)
               (run_callbacks (callbacks self) 0 alert
                  {| reads := S (S (reads env')); events := events env' |}))
        end
    end.
Proof.
  intros Hen Hcool env'. subst env'. unfold check_rule. rewrite Hen. cbn [negb].
  rewrite <- in_cooldown_true in Hcool.
  destruct (in_cooldown wall self env rule) as [c env']. cbn [fst snd] in *.
  destruct c; [exfalso; apply Hcool; reflexivity |].
  destruct (condition rule value (threshold rule) data) as [[|] | e]; reflexivity.
Qed.

(** C3. [check_rule] returns no alert and leaves the engine as it is when
    the rule is disabled, when it is within its cooldown, when the condition
    is false, and when the condition raises (the exception is logged, not
    propagated).  When it triggers, the alert carries the message formatted
    from the template with symbol, value and threshold; the trigger time of
    the rule is set to the clock read after the alert was stamped; the alert
    is appended to the history; every registered callback is invoked once, in
    registration order, an exception of one being logged without stopping
    the others; and the alert is returned. *)
Theorem check_rule_spec (self : AlertEngine) (env : Env) (rule : AlertRule)
    (value : Q) (data : option (gmap string Q)) :
  let out := check_rule wall format_message self env rule value data in
  let quiet := fst out = (Return None, self) in
  (enabled rule = false -> quiet /\ snd out = env)
  /\ (cooling wall self env rule -> quiet /\ events (snd out) = events env)
  /\ (condition rule value (threshold rule) data = Return false ->
      quiet /\ events (snd out) = events env)
  /\ (forall e, condition rule value (threshold rule) data = Raise e ->
      quiet
      /\ (enabled rule = true -> ~ cooling wall self env rule ->
          events (snd out) = events env ++ [RuleError (rule_id rule) e]))
  /\ (forall message,
      enabled rule = true -> ~ cooling wall self env rule ->
      condition rule value (threshold rule) data = Return true ->
      format_message (message_template rule) (symbol rule) value (threshold rule)
        = Return message ->
      exists alert n evs,
        out.1.1 = Return (Some alert)
        /\ alert = {| a_rule_id := rule_id rule;
                      a_alert_type := alert_type rule;
                      a_symbol := symbol rule;
                      a_severity := severity rule;
                      a_message := message;
                      a_value := value;
                      a_threshold := threshold rule;
                      a_timestamp := wall n |}
        /\ (reads env <= n <= S (reads env))%nat
        /\ last_trigger_times out.1.2
           = <[rule_id rule := wall (S n)]> (last_trigger_times self)
        /\ alert_history out.1.2 = alert_history self ++ [alert]
        /\ rules out.1.2 = rules self
        /\ callbacks out.1.2 = callbacks self
        /\ events out.2 = events env ++ evs ++ [AlertLogged message]
        /\ calls_of evs = map (fun k => (k, alert)) (seq 0 (length (callbacks self)))
        /\ Forall (fun ev => match ev with
                             | CallbackCalled _ _ | CallbackError _ => True
                             | _ => False
                             end) evs).
Proof.
  intros out quiet. subst out quiet.
  split; [| split; [| split; [| split]]].
  - intro H. rewrite check_rule_disabled by exact H. split; reflexivity.
  - apply check_rule_cooling.
  - intro Hc.
    destruct (enabled rule) eqn:Hen;
      [| rewrite check_rule_disabled by exact Hen; split; reflexivity].
    destruct (in_cooldown wall self env rule) as [c env'] eqn:Hin.
    destruct c.
    + apply check_rule_cooling. apply in_cooldown_true. rewrite Hin. reflexivity.
    + rewrite check_rule_evaluates;
        [| exact Hen | rewrite <- in_cooldown_true, Hin; discriminate].
      cbn zeta. rewrite Hc. cbn [fst snd].
      split; [reflexivity | apply in_cooldown_events].
  - intros e Hc. split.
    + destruct (enabled rule) eqn:Hen;
        [| rewrite check_rule_disabled by exact Hen; reflexivity].
      destruct (in_cooldown wall self env rule) as [c env'] eqn:Hin.
      destruct c.
      * apply check_rule_cooling. apply in_cooldown_true. rewrite Hin. reflexivity.
      * rewrite check_rule_evaluates;
          [| exact Hen | rewrite <- in_cooldown_true, Hin; discriminate].
        cbn zeta. rewrite Hc. reflexivity.
    + intros Hen Hcool. rewrite check_rule_evaluates by assumption.
      cbn zeta. rewrite Hc. cbn [fst snd emit events].
      rewrite in_cooldown_events. reflexivity.
  - intros message Hen Hcool Hc Hfmt.
    rewrite check_rule_evaluates by assumption. cbn zeta. rewrite Hc, Hfmt.
    cbn [fst snd].
    set (env' := snd (in_cooldown wall self env rule)).
    set (alert := {| a_rule_id := rule_id rule; a_alert_type := alert_type rule;
                     a_symbol := symbol rule; a_severity := severity rule;
                     a_message := message; a_value := value;
                     a_threshold := threshold rule;
                     a_timestamp := wall (reads env') |}).
    destruct (run_callbacks_events (callbacks self) 0 alert
                {| reads := S (S (reads env')); events := events env' |})
      as (evs & Hev & Hcalls & Hall).
    exists alert, (reads env'), evs.
    split; [reflexivity |]. split; [reflexivity |]. split.
    { subst env'. rewrite in_cooldown_reads.
      destruct (last_trigger_times self !! rule_id rule); lia. }
    split; [reflexivity |]. split; [reflexivity |]. split; [reflexivity |].
    split; [reflexivity |]. split; [| split; assumption].
    cbn [emit events]. rewrite Hev. cbn [events]. subst env'.
    rewrite in_cooldown_events, <- app_assoc. reflexivity.
Qed.

Lemma check_rule_cooling_reads (self : AlertEngine) (env : Env) (rule : AlertRule)
    (value : Q) (data : option (gmap string Q)) :
  enabled rule = true ->
  cooling wall self env rule ->
  reads (snd (check_rule wall format_message self env rule value data)) = S (reads env).
Proof.
  intros Hen H. unfold check_rule. rewrite Hen. cbn [negb].
  pose proof (in_cooldown_reads wall self env rule) as Hr.
  destruct H as (last & Hlast & Hlt).
  pose proof (proj2 (in_cooldown_true wall self env rule)
                (ex_intro _ last (conj Hlast Hlt))) as Hc.
  rewrite Hlast in Hr.
  destruct (in_cooldown wall self env rule) as [c env']. cbn [fst snd] in *.
  subst c. exact Hr.
Qed.

(** The firing case in one equation. *)
Lemma check_rule_fires (self : AlertEngine) (env : Env) (rule : AlertRule)
    (value : Q) (data : option (gmap string Q)) (message : string) :
  enabled rule = true ->
  ~ cooling wall self env rule ->
  condition rule value (threshold rule) data = Return true ->
  format_message (message_template rule) (symbol rule) value (threshold rule)
    = Return message ->
  let env' := snd (in_cooldown wall self env rule) in
  let alert :=
    {| a_rule_id := rule_id rule;
       a_alert_type := alert_type rule;
       a_symbol := symbol rule;
       a_severity := severity rule;
       a_message := message;
       a_value := value;
       a_threshold := threshold rule;
       a_timestamp := wall (reads env') |} in
  check_rule wall format_message self env rule value data =
    (Return (Some alert),
     set_alert_history (alert_history self ++ [alert])
       (set_last_trigger_times
          (<[rule_id rule := wall (S (reads env'))]> (last_trigger_times self)) self),
     emit (AlertLogged message)
       (run_callbacks (callbacks self) 0 alert
          {| reads := S (S (reads env')); events := events env' |})).
Proof.
  intros Hen Hcool Hc Hfmt. cbn zeta.
  rewrite check_rule_evaluates by assumption. cbn zeta. rewrite Hc, Hfmt.
  reflexivity.
Qed.

Lemma not_cooling_fresh (self : AlertEngine) (env : Env) (rule : AlertRule) :
  last_trigger_times self !! rule_id rule = None -> ~ cooling wall self env rule.
Proof. intros Hnone (last & Hlast & _). rewrite Hnone in Hlast. discriminate Hlast. Qed.

Lemma not_cooling_elapsed (self : AlertEngine) (env : Env) (rule : AlertRule) (last : Z) :
  last_trigger_times self !! rule_id rule = Some last ->
  (cooldown_seconds rule * 1000000 <= wall (reads env) - last)%Z ->
  ~ cooling wall self env rule.
Proof.
  intros Hlast Hge (last' & Hlast' & Hlt). rewrite Hlast in Hlast'.
  injection Hlast' as <-. lia.
Qed.

(** C4. A rule that has fired does not fire again while less than
    [cooldown_seconds] have elapsed since the recorded trigger time, and
    fires again (condition true, message formatted) once at least
    [cooldown_seconds] have elapsed.  For a rule with a cooldown of 60
    seconds on a fresh engine: it fires on 2.5; a check reading the clock 30
    seconds after the recorded trigger does not fire on 3.0; the next check,
    61 seconds after the trigger, fires; and [get_recent_alerts 5] right
    after the first firing returns exactly one alert. *)
Theorem cooldown_spec :
  (forall self env rule value data last,
      last_trigger_times self !! rule_id rule = Some last ->
      (wall (reads env) - last < cooldown_seconds rule * 1000000)%Z ->
      fst (check_rule wall format_message self env rule value data)
      = (Return None, self))
  /\ (forall self env rule value data last message,
      last_trigger_times self !! rule_id rule = Some last ->
      (cooldown_seconds rule * 1000000 <= wall (reads env) - last)%Z ->
      enabled rule = true ->
      condition rule value (threshold rule) data = Return true ->
      format_message (message_template rule) (symbol rule) value (threshold rule)
        = Return message ->
      exists alert,
        (check_rule wall format_message self env rule value data).1.1
        = Return (Some alert)
        /\ a_value alert = value)
  /\ (forall (interval : Q) (env0 : Env) (id sym : string) (sev : AlertSeverity),
      let rule := zscore_threshold_alert id sym 2.0 sev in
      let r := reads env0 in
      (forall v, exists m,
          format_message (message_template rule) sym v 2.0 = Return m) ->
      wall (S (S r)) = (wall (S r) + 30 * 1000000)%Z ->
      wall (S (S (S r))) = (wall (S r) + 61 * 1000000)%Z ->
      (wall (S (S r)) - wall r < 5 * 60 * 1000000)%Z ->
      let started := add_rule (init interval) env0 rule in
      let first := check_rule wall format_message started.1 started.2 rule 2.5 None in
      let second := check_rule wall format_message first.1.2 first.2 rule 3.0 None in
      let third := check_rule wall format_message second.1.2 second.2 rule 3.0 None in
      let recent := get_recent_alerts wall first.1.2 first.2 5 in
      cooldown_seconds rule = 60%Z
      /\ (exists alert, first.1.1 = Return (Some alert) /\ a_value alert = 2.5%Q)
      /\ second.1.1 = Return None
      /\ (exists alert, third.1.1 = Return (Some alert) /\ a_value alert = 3.0%Q)
      /\ length recent.1 = 1%nat).
Proof.
  split; [| split].
  - intros self env rule value data last Hlast Hlt.
    apply check_rule_cooling. exists last. split; assumption.
  - intros self env rule value data last message Hlast Hge Hen Hc Hfmt.
    rewrite (check_rule_fires self env rule value data message); try assumption;
      [| eapply not_cooling_elapsed; eassumption].
    eexists. split; reflexivity.
  - intros interval env0 id sym sev rule r Hfmt H30 H61 Hq started first second third recent.
    destruct (Hfmt 2.5%Q) as [m1 Hm1]. destruct (Hfmt 3.0%Q) as [m3 Hm3].
    assert (Hfirst : first =
      (Return (Some {| a_rule_id := id; a_alert_type := ZSCORE_THRESHOLD;
                       a_symbol := sym; a_severity := sev; a_message := m1;
                       a_value := 2.5; a_threshold := 2.0; a_timestamp := wall r |}),
       set_alert_history
         ([] ++ [{| a_rule_id := id; a_alert_type := ZSCORE_THRESHOLD;
                    a_symbol := sym; a_severity := sev; a_message := m1;
                    a_value := 2.5; a_threshold := 2.0; a_timestamp := wall r |}])
         (set_last_trigger_times (<[id := wall (S r)]> ∅) started.1),
       emit (AlertLogged m1)
         {| reads := S (S r); events := events started.2 |})).
    { subst first.
      rewrite (check_rule_fires started.1 started.2 rule 2.5 None m1);
        [reflexivity | reflexivity | | reflexivity | exact Hm1].
      apply not_cooling_fresh. apply lookup_empty. }
    assert (Hlast : last_trigger_times first.1.2 !! rule_id rule = Some (wall (S r))).
    { rewrite Hfirst. cbn. apply lookup_insert_eq. }
    assert (Hreads : reads first.2 = S (S r)) by (rewrite Hfirst; reflexivity).
    assert (Hcool2 : cooling wall first.1.2 first.2 rule).
    { exists (wall (S r)). split; [exact Hlast |].
      rewrite Hreads, H30. cbn [cooldown_seconds rule zscore_threshold_alert]. lia. }
    assert (Hsecond : second.1 = (Return None, first.1.2)).
    { subst second. apply check_rule_cooling. exact Hcool2. }
    assert (Hreads2 : reads second.2 = S (S (S r))).
    { subst second. rewrite check_rule_cooling_reads; [| reflexivity | exact Hcool2].
      rewrite Hreads. reflexivity. }
    split; [reflexivity |]. split; [| split; [| split]].
    + rewrite Hfirst. eexists. split; reflexivity.
    + rewrite Hsecond. reflexivity.
    + subst third.
      rewrite (check_rule_fires second.1.2 second.2 rule 3.0 None m3);
        [eexists; split; reflexivity | reflexivity | | reflexivity | exact Hm3].
      rewrite Hsecond. cbn [snd].
      apply (not_cooling_elapsed _ _ _ (wall (S r))); [exact Hlast |].
      rewrite Hreads2, H61. cbn [cooldown_seconds rule zscore_threshold_alert]. lia.
    + subst recent. unfold get_recent_alerts, now. rewrite Hreads.
      rewrite Hfirst. cbn [fst snd alert_history set_alert_history app].
      rewrite filter_cons_True; [reflexivity |].
      cbn [a_timestamp]. lia.
Qed.

(** C10. [clear_history] empties the alert history and changes no other
    field of the engine: rules, callbacks and trigger times are as before,
    so a rule that is within its cooldown before the clearing still returns
    no alert from [check_rule] after it. *)
Theorem clear_history_frame (self : AlertEngine) (env : Env) :
  let cleared := (clear_history self env).1 in
  alert_history cleared = []
  /\ rules cleared = rules self
  /\ callbacks cleared = callbacks self
  /\ last_trigger_times cleared = last_trigger_times self
  /\ check_interval cleared = check_interval self
  /\ running cleared = running self
  /\ (forall env' rule value data,
        cooling wall self env' rule ->
        (check_rule wall format_message cleared env' rule value data).1
        = (Return None, cleared)).
Proof.
  cbn zeta. repeat split.
  intros env' rule value data (last & Hlast & Hlt).
  apply check_rule_cooling. exists last. split; [exact Hlast | exact Hlt].
Qed.

(** *** The volatility condition *)

(** X10. A volatility rule without a usable historical volatility never
    fires and never raises: with no data, without the key, or with a
    historical volatility of zero (where the condition raises
    [ZeroDivisionError], which [check_rule] catches), [check_rule] returns no
    alert and leaves the engine as it is. *)
Theorem volatility_rule_without_history (self : AlertEngine) (env : Env)
    (rule : AlertRule) (value : Q) (data : option (gmap string Q)) :
  condition rule = volatility_spike ->
  data = None
  \/ (exists d, data = Some d
      /\ (d !! "historical_vol" = None
          \/ exists hv, d !! "historical_vol" = Some hv /\ (hv == 0)%Q)) ->
  fst (check_rule wall format_message self env rule value data) = (Return None, self).
Proof.
  intros Hcond Hdata. unfold check_rule.
  destruct (enabled rule); cbn [negb]; [| reflexivity].
  destruct (in_cooldown wall self env rule) as [[|] env']; [reflexivity |].
  rewrite Hcond.
  destruct Hdata as [-> | (d & -> & [Hnone | (hv & Hsome & Hz)])].
  - reflexivity.
  - unfold volatility_spike. rewrite Hnone. reflexivity.
  - unfold volatility_spike, py_div. rewrite Hsome.
    apply Qeqb_true in Hz. rewrite Hz. reflexivity.
Qed.

End CheckRule.

(** C3 on the example engine: the first callback raises, the alert is
    returned all the same. *)
Lemma check_rule_spec_witness :
  exists alert,
    (check_rule example_wall example_format example_engine
       {| reads := 0; events := [] |} example_rule 2.5 None).1.1
    = Return (Some alert)
    /\ a_message alert = message_template example_rule.
Proof.
  destruct (check_rule_spec example_wall example_format example_engine
              {| reads := 0; events := [] |} example_rule 2.5 None)
    as (_ & _ & _ & _ & H).
  destruct (H (message_template example_rule) eq_refl
              (not_cooling_fresh example_wall example_engine _ example_rule eq_refl)
              eq_refl eq_refl)
    as (alert & n & evs & Hret & Halert & _).
  exists alert. split; [exact Hret | rewrite Halert; reflexivity].
Defined.

(** C4 on the example rule and clock. *)
Lemma cooldown_spec_witness :
  let env0 := {| reads := 0; events := [] |} in
  let started := add_rule (init 0.1) env0 example_rule in
  let first := check_rule example_wall example_format started.1 started.2 example_rule 2.5 None in
  let second := check_rule example_wall example_format first.1.2 first.2 example_rule 3.0 None in
  let third := check_rule example_wall example_format second.1.2 second.2 example_rule 3.0 None in
  let recent := get_recent_alerts example_wall first.1.2 first.2 5 in
  cooldown_seconds example_rule = 60%Z
  /\ (exists alert, first.1.1 = Return (Some alert) /\ a_value alert = 2.5%Q)
  /\ second.1.1 = Return None
  /\ (exists alert, third.1.1 = Return (Some alert) /\ a_value alert = 3.0%Q)
  /\ length recent.1 = 1%nat.
Proof.
  apply (proj2 (proj2 (cooldown_spec example_wall example_format))
           0.1%Q {| reads := 0; events := [] |}
           "zscore_btcusdt-ethusdt_2.0" "btcusdt-ethusdt" WARNING).
  - intro v. eexists. reflexivity.
  - reflexivity.
  - reflexivity.
  - vm_compute. reflexivity.
Defined.

(** C10 on the example engine after a firing at time 0, checked again 30
    seconds later with the history cleared in between. *)
Lemma clear_history_frame_witness :
  let fired :=
    set_last_trigger_times (<[rule_id example_rule := 0%Z]> ∅) example_engine in
  let env := {| reads := 2; events := [] |} in
  (check_rule example_wall example_format (clear_history fired env).1
     (clear_history fired env).2 example_rule 3.0 None).1.1
  = Return None.
Proof.
  cbn zeta.
  pose proof (clear_history_frame example_wall example_format
    (set_last_trigger_times (<[rule_id example_rule := 0%Z]> ∅) example_engine)
    {| reads := 2; events := [] |}) as H.
  cbn zeta in H. destruct H as (_ & _ & _ & _ & _ & _ & H).
  rewrite H; [reflexivity |].
  exists 0%Z. split; [reflexivity | vm_compute; reflexivity].
Defined.

(** X10 on a rule of the example engine with a zero historical volatility. *)
Lemma volatility_rule_without_history_witness :
  fst (check_rule example_wall example_format example_engine
         {| reads := 0; events := [] |}
         {| rule_id := "vol_btcusdt";
            alert_type := VOLATILITY_SPIKE;
            symbol := "btcusdt";
            condition := volatility_spike;
            threshold := 1.5;
            severity := WARNING;
            cooldown_seconds := 60;
            message_template := "Volatility spike for {symbol}";
            enabled := true |}
         0.02 (Some {["historical_vol" := 0%Q]}))
  = (Return None, example_engine).
Proof.
  apply (volatility_rule_without_history example_wall example_format).
  - reflexivity.
  - right. exists {["historical_vol" := 0%Q]}. split; [reflexivity |].
    right. exists 0%Q. split; [reflexivity | reflexivity].
Defined.

End AlertsProperties.

(** ** Properties of analytics/statistical.py *)

Section StatsProperties.

Import Stats.

(** *** Rolling z-score *)

Lemma fsub_not_infinite (a b : fval) :
  not_infinite a -> not_infinite b -> not_infinite (fsub a b).
Proof. unfold not_infinite. destruct a, b; cbn; intros; congruence. Qed.

Lemma fdiv_not_infinite (a b : fval) :
  not_infinite a -> safe_divisor b -> not_infinite (fdiv a b).
Proof.
  unfold not_infinite, safe_divisor.
  destruct a, b; cbn; intros Ha Hb; try congruence; try contradiction.
  apply Qeqb_false in Hb. rewrite Hb. reflexivity.
Qed.

Lemma observations_length (l : list (option Q)) :
  (length (observations l) <= length l)%nat.
Proof.
  unfold observations. induction l as [| [q |] l IH]; [reflexivity | |].
  - change (omap id (Some q :: l)) with (q :: omap id l). cbn [length]. lia.
  - change (omap id (None :: l)) with (omap id l). cbn [length]. lia.
Qed.

Lemma window_at_length (series : list (option Q)) (window i : nat) :
  (length (window_at series window i) <= S i)%nat.
Proof.
  unfold window_at. rewrite length_drop, length_take. lia.
Qed.

Section ZScore.

Variable np_sqrt : Q -> Q.

Lemma rolling_mean_lookup (series : list (option Q)) (window min_periods i : nat) (v : fval) :
  rolling_mean series window min_periods !! i = Some v -> not_infinite v.
Proof.
  unfold rolling_mean. rewrite list_lookup_fmap.
  destruct (seq 0 (length series) !! i); cbn; [| discriminate].
  intro H. injection H as <-.
  destruct (_ && _); reflexivity.
Qed.

Lemma rolling_std_length (series : list (option Q)) (window min_periods : nat) :
  length (rolling_std np_sqrt series window min_periods) = length series.
Proof. unfold rolling_std. rewrite length_fmap, length_seq. reflexivity. Qed.

Lemma rolling_mean_length (series : list (option Q)) (window min_periods : nat) :
  length (rolling_mean series window min_periods) = length series.
Proof. unfold rolling_mean. rewrite length_fmap, length_seq. reflexivity. Qed.

(** Before the [min_periods]-th sample the rolling deviation is undefined. *)
Lemma rolling_std_early (series : list (option Q)) (window min_periods i : nat) :
  (S i < min_periods)%nat -> (i < length series)%nat ->
  rolling_std np_sqrt series window min_periods !! i = Some NaN.
Proof.
  intros Hi Hlen. unfold rolling_std. rewrite list_lookup_fmap.
  rewrite lookup_seq_lt by exact Hlen. cbn.
  pose proof (observations_length (window_at series window i)).
  pose proof (window_at_length series window i).
  destruct (Nat.leb_spec min_periods
              (length (observations (window_at series window i)))); [lia |].
  reflexivity.
Qed.

Lemma replace_zero_lookup (l : list fval) (i : nat) (v : fval) :
  Forall not_infinite l ->
  replace_zero l !! i = Some v -> safe_divisor v.
Proof.
  intros Hall. unfold replace_zero. rewrite list_lookup_fmap.
  destruct (l !! i) as [x |] eqn:Hx; cbn; [| discriminate].
  intro H. injection H as <-.
  pose proof (Forall_lookup_1 _ _ _ _ Hall Hx) as Hfin.
  destruct x; cbn; try exact I; try discriminate Hfin.
  destruct (Qeqb q 0) eqn:E; cbn; [exact I | apply Qeqb_false; exact E].
Qed.

Lemma rolling_std_not_infinite (series : list (option Q)) (window min_periods : nat) :
  Forall not_infinite (rolling_std np_sqrt series window min_periods).
Proof.
  apply Forall_lookup_2. intros i v. unfold rolling_std.
  rewrite list_lookup_fmap.
  destruct (seq 0 (length series) !! i); cbn; [| discriminate].
  intro H. injection H as <-. destruct (_ && _); reflexivity.
Qed.

(** The value of the z-score at a position of the series. *)
Lemma zscore_lookup (series : list (option Q)) (window min_periods i : nat) :
  (i < length series)%nat ->
  exists x m s,
    (to_fval <$> series) !! i = Some x
    /\ rolling_mean series window min_periods !! i = Some m
    /\ replace_zero (rolling_std np_sqrt series window min_periods) !! i = Some s
    /\ zip_with fdiv (zip_with fsub (to_fval <$> series)
                        (rolling_mean series window min_periods))
         (replace_zero (rolling_std np_sqrt series window min_periods)) !! i
       = Some (fdiv (fsub x m) s).
Proof.
  intro Hi.
  destruct (lookup_lt_is_Some_2 (to_fval <$> series) i) as [x Hx];
    [rewrite length_fmap; exact Hi |].
  destruct (lookup_lt_is_Some_2 (rolling_mean series window min_periods) i) as [m Hm];
    [rewrite rolling_mean_length; exact Hi |].
  destruct (lookup_lt_is_Some_2
              (replace_zero (rolling_std np_sqrt series window min_periods)) i)
    as [s Hs];
    [unfold replace_zero; rewrite length_fmap, rolling_std_length; exact Hi |].
  exists x, m, s. repeat split; try assumption.
  rewrite !lookup_zip_with, Hx, Hm, Hs. reflexivity.
Qed.

Lemma to_fval_not_infinite (series : list (option Q)) (i : nat) (x : fval) :
  (to_fval <$> series) !! i = Some x -> not_infinite x.
Proof.
  rewrite list_lookup_fmap. destruct (series !! i) as [[q |] |]; cbn;
    intro H; try discriminate H; injection H as <-; reflexivity.
Qed.

(** C7. [calculate_zscore] returns whenever [min_periods <= window] (or the
    series is shorter than [min_periods]), and what it returns holds no
    infinity: a series shorter than [min_periods] gives undefined values
    only; every position before the [min_periods]-th sample is undefined; and
    wherever the rolling standard deviation is exactly 0 the z-score is
    undefined. *)
Theorem calculate_zscore_safe (series : list (option Q)) (window min_periods : nat) :
  ((min_periods <= window)%nat \/ (length series < min_periods)%nat ->
     exists z, calculate_zscore np_sqrt series window min_periods = Return z)
  /\ ((length series < min_periods)%nat ->
      calculate_zscore np_sqrt series window min_periods
      = Return (replicate (length series) NaN))
  /\ (forall z, calculate_zscore np_sqrt series window min_periods = Return z ->
      length z = length series
      /\ Forall (fun v => is_infinite v = false) z
      /\ (forall i, (S i < min_periods)%nat -> (i < length series)%nat ->
            z !! i = Some NaN)
      /\ (forall i s,
            rolling_std np_sqrt series window min_periods !! i = Some (Fin s) ->
            (s == 0)%Q -> z !! i = Some NaN)).
Proof.
  unfold calculate_zscore.
  destruct (Nat.ltb_spec (length series) min_periods) as [Hshort | Hlong].
  { split; [intros _; eexists; reflexivity |]. split; [reflexivity |].
    intros z Hz. injection Hz as <-.
    split; [apply length_replicate |]. split; [| split].
    - apply Forall_lookup_2. intros i v Hv.
      apply lookup_replicate in Hv as [-> _]. reflexivity.
    - intros i _ Hi. apply lookup_replicate. split; [reflexivity | exact Hi].
    - intros i s Hs _. apply lookup_replicate. split; [reflexivity |].
      apply lookup_lt_Some in Hs. rewrite rolling_std_length in Hs. exact Hs. }
  destruct (Nat.ltb_spec window min_periods) as [Hbad | Hok].
  { split; [intros [H | H]; lia |]. split; [lia | discriminate]. }
  split; [intros _; eexists; reflexivity |]. split; [lia |].
  intros z Hz. injection Hz as <-. split; [| split; [| split]].
  - rewrite !length_zip_with, length_fmap, rolling_mean_length.
    unfold replace_zero. rewrite length_fmap, rolling_std_length. lia.
  - apply Forall_lookup_2. intros i v Hv.
    assert (Hi : (i < length series)%nat).
    { apply lookup_lt_Some in Hv.
      rewrite !length_zip_with, length_fmap in Hv. lia. }
    destruct (zscore_lookup series window min_periods i Hi)
      as (x & m & s & Hx & Hm & Hs & Hz).
    rewrite Hz in Hv. injection Hv as <-.
    apply fdiv_not_infinite.
    + apply fsub_not_infinite.
      * eapply to_fval_not_infinite; exact Hx.
      * eapply rolling_mean_lookup; exact Hm.
    + eapply replace_zero_lookup; [apply rolling_std_not_infinite | exact Hs].
  - intros i Hearly Hi.
    destruct (zscore_lookup series window min_periods i Hi)
      as (x & m & s & Hx & Hm & Hs & Hz).
    rewrite Hz. unfold replace_zero in Hs.
    rewrite list_lookup_fmap, rolling_std_early in Hs by assumption.
    injection Hs as <-. destruct (fsub x m); reflexivity.
  - intros i s0 Hstd Hzero.
    assert (Hi : (i < length series)%nat).
    { apply lookup_lt_Some in Hstd. rewrite rolling_std_length in Hstd. exact Hstd. }
    destruct (zscore_lookup series window min_periods i Hi)
      as (x & m & s & Hx & Hm & Hs & Hz).
    rewrite Hz. unfold replace_zero in Hs.
    rewrite list_lookup_fmap, Hstd in Hs. cbn in Hs.
    apply Qeqb_true in Hzero. rewrite Hzero in Hs.
    injection Hs as <-. destruct (fsub x m); reflexivity.
Qed.

End ZScore.

(** C7 on a constant run followed by a move, with window 3 and two samples
    required: the constant windows have deviation 0 and give no z-score. *)
Lemma calculate_zscore_safe_witness :
  exists z,
    calculate_zscore (fun x => x) [Some 1; Some 1; Some 1; Some 2]%Q 3 2 = Return z
    /\ Forall (fun v => is_infinite v = false) z
    /\ z !! 2%nat = Some NaN.
Proof.
  destruct (calculate_zscore_safe (fun x => x) [Some 1; Some 1; Some 1; Some 2]%Q 3 2)
    as (Hret & _ & Hall).
  destruct Hret as [z Hz]; [left; lia |].
  exists z. split; [exact Hz |].
  destruct (Hall z Hz) as (_ & Hfin & _ & Hzero).
  split; [exact Hfin |].
  eapply (Hzero 2%nat); vm_compute; reflexivity.
Defined.

(** *** Half-life *)

Lemma lag_pairs_length (spread : list (option Q)) :
  length (lag_pairs spread) = (length (observations spread) - 1)%nat.
Proof.
  unfold lag_pairs, spread_ret, spread_lag.
  rewrite !length_zip_with, length_drop, length_take. lia.
Qed.

(** C6, as the code has it.  With at least 20 non-missing samples and a
    fitted coefficient [lam], the half-life is [+inf] when [lam >= 0] and
    [-ln 2 / ln (1 + lam)] when [-1 < lam < 0]; it is undefined when fewer
    than 20 non-missing samples exist (that is, fewer than 19 pairs) or when
    the regression raises. *)
Theorem half_life_spec (np_ln : Q -> Q) (ols_fit : list Q -> list Q -> result Q)
    (spread : list (option Q)) :
  (forall x, (0 < x)%Q -> (x < 1)%Q -> (np_ln x < 0)%Q) ->
  let df := lag_pairs spread in
  let half_life := calculate_half_life np_ln ols_fit spread in
  length df = (length (observations spread) - 1)%nat
  /\ ((length (observations spread) < 20)%nat -> half_life = NaN)
  /\ (forall e, ols_fit (map fst df) (map snd df) = Raise e -> half_life = NaN)
  /\ (forall lam,
        (20 <= length (observations spread))%nat ->
        ols_fit (map fst df) (map snd df) = Return lam ->
        ((0 <= lam)%Q -> half_life = PInf)
        /\ ((-1 < lam)%Q -> (lam < 0)%Q ->
            half_life = Fin (- np_ln 2 / np_ln (1 + lam))%Q
            /\ ~ (np_ln (1 + lam) == 0)%Q)).
Proof.
  intros Hln df half_life. subst df half_life.
  split; [apply lag_pairs_length |].
  unfold calculate_half_life.
  pose proof (lag_pairs_length spread) as Hlen.
  destruct (Nat.ltb_spec (length (observations spread)) 20) as [Hshort | Hlong].
  { split; [reflexivity |]. split; [reflexivity |]. intros lam H. lia. }
  destruct (Nat.ltb_spec (length (lag_pairs spread)) 10) as [Hfew | Hmany]; [lia |].
  split; [lia |]. split.
  - intros e He. rewrite He. reflexivity.
  - intros lam _ Hfit. rewrite Hfit. split.
    + intro Hpos. apply Qleb_true in Hpos. unfold Qgeb. unfold Qleb in Hpos.
      rewrite Hpos. reflexivity.
    + intros Hgt Hlt.
      assert (Hneg : (np_ln (1 + lam) < 0)%Q) by (apply Hln; lra).
      assert (Hge : Qgeb lam 0 = false) by (apply Qleb_false; exact Hlt).
      rewrite Hge. unfold np_log.
      replace (Qltb 2 0) with false by reflexivity.
      replace (Qeqb 2 0) with false by reflexivity.
      assert (H1 : Qltb (1 + lam)%Q 0 = false) by (apply Qltb_false; lra).
      assert (H2 : Qeqb (1 + lam)%Q 0 = false) by (apply Qeqb_false; lra).
      assert (H3 : Qeqb (np_ln (1 + lam)%Q) 0 = false) by (apply Qeqb_false; lra).
      rewrite H1, H2. cbn [fneg fdiv]. rewrite H3.
      split; [reflexivity | lra].
Qed.

(** C6 on twenty samples, with the normal-equation fit and [ln_tangent]. *)
Lemma half_life_spec_witness :
  exists lam,
    ols_no_intercept (map fst (lag_pairs spread20)) (map snd (lag_pairs spread20))
    = Return lam
    /\ calculate_half_life ln_tangent ols_no_intercept spread20
       = Fin (- ln_tangent 2 / ln_tangent (1 + lam))%Q.
Proof.
  eexists. split; [vm_compute; reflexivity |].
  assert (Hln : forall x, (0 < x)%Q -> (x < 1)%Q -> (ln_tangent x < 0)%Q)
    by (intros x _ H; unfold ln_tangent; lra).
  destruct (half_life_spec ln_tangent ols_no_intercept spread20 Hln)
    as (_ & _ & _ & H).
  refine (proj1 (proj2 (H _ _ _) _ _)).
  - vm_compute. lia.
  - vm_compute. reflexivity.
  - vm_compute. reflexivity.
  - vm_compute. reflexivity.
Defined.

(** C6 as stated fails on fifteen samples: they give fourteen usable
    pairs, the regression succeeds with a coefficient in (-1, 0), and the
    half-life is undefined all the same. *)
Lemma half_life_short_series_undefined :
  length (lag_pairs spread15) = 14%nat
  /\ (exists lam,
        ols_no_intercept (map fst (lag_pairs spread15)) (map snd (lag_pairs spread15))
        = Return lam
        /\ (-1 < lam)%Q /\ (lam < 0)%Q)
  /\ calculate_half_life ln_tangent ols_no_intercept spread15 = NaN.
Proof.
  split; [reflexivity |]. split; [| reflexivity].
  eexists. split; [vm_compute; reflexivity |]. split; vm_compute; reflexivity.
Qed.

End StatsProperties.

(** ** More properties of analytics/statistical.py *)

Section ExecutionProperties.

Import Stats.

(** X11. [calculate_trade_imbalance] never raises (the zero total is tested
    before the division); it is 0 when the volumes cancel or are both zero,
    lies in [[-1, 1]] for non-negative volumes, and changes sign when buy and
    sell volume are swapped. *)
Theorem trade_imbalance_range (buy_volume sell_volume : Q) :
  exists r,
    calculate_trade_imbalance buy_volume sell_volume = Return r
    /\ ((buy_volume == sell_volume)%Q -> (r == 0)%Q)
    /\ ((0 <= buy_volume)%Q -> (0 <= sell_volume)%Q -> (-1 <= r)%Q /\ (r <= 1)%Q)
    /\ exists r',
         calculate_trade_imbalance sell_volume buy_volume = Return r'
         /\ (r' == - r)%Q.
Proof.
  unfold calculate_trade_imbalance, py_div. cbn zeta.
  destruct (Qeqb (buy_volume + sell_volume) 0) eqn:E;
    [apply Qeqb_true in E | apply Qeqb_false in E].
  - assert (E' : Qeqb (sell_volume + buy_volume) 0 = true)
      by (apply Qeqb_true; lra).
    rewrite E'. exists 0%Q. split; [reflexivity |]. split; [reflexivity |].
    split; [lra |]. exists 0%Q. split; [reflexivity | lra].
  - assert (E' : Qeqb (sell_volume + buy_volume) 0 = false)
      by (apply Qeqb_false; lra).
    rewrite E'. eexists. split; [reflexivity |]. split; [| split].
    + intro H. assert (H0 : (buy_volume - sell_volume == 0)%Q) by lra.
      unfold Qdiv. rewrite H0. apply Qmult_0_l.
    + intros Hb Hs.
      assert (Hpos : (0 < buy_volume + sell_volume)%Q).
      { destruct (Qlt_le_dec 0 (buy_volume + sell_volume)); [assumption |].
        exfalso. apply E. lra. }
      split.
      * apply Qle_shift_div_l; [exact Hpos | lra].
      * apply Qle_shift_div_r; [exact Hpos | lra].
    + eexists. split; [reflexivity |]. field. lra.
Qed.

Lemma weighted_sum_bounds (lo hi : Q) (prices volumes : list Q) :
  length prices = length volumes ->
  Forall (fun v => (0 <= v)%Q) volumes ->
  Forall (fun p => (lo <= p)%Q /\ (p <= hi)%Q) prices ->
  (lo * q_sum volumes <= q_sum (zip_with Qmult prices volumes))%Q
  /\ (q_sum (zip_with Qmult prices volumes) <= hi * q_sum volumes)%Q.
Proof.
  revert volumes. induction prices as [| p prices IH]; intros [| v volumes] Hlen Hv Hp;
    try discriminate Hlen.
  - cbn. lra.
  - apply Forall_cons in Hv as [Hv0 Hv]. apply Forall_cons in Hp as [[Hlo Hhi] Hp].
    injection Hlen as Hlen. destruct (IH volumes Hlen Hv Hp) as [IHlo IHhi].
    cbn [zip_with q_sum fold_right].
    assert (H1 : (0 <= (p - lo) * v)%Q) by (apply Qmult_le_0_compat; lra).
    assert (H2 : (0 <= (hi - p) * v)%Q) by (apply Qmult_le_0_compat; lra).
    unfold q_sum in IHlo, IHhi. split; lra.
Qed.

(** X12. The volume-weighted average price of positively weighted trades lies
    between the lowest and the highest traded price. *)
Theorem vwap_between_prices (lo hi : Q) (prices volumes : list Q) :
  length prices = length volumes ->
  Forall (fun v => (0 <= v)%Q) volumes ->
  (0 < q_sum volumes)%Q ->
  Forall (fun p => (lo <= p)%Q /\ (p <= hi)%Q) prices ->
  exists vwap,
    calculate_vwap prices volumes = Fin vwap /\ (lo <= vwap)%Q /\ (vwap <= hi)%Q.
Proof.
  intros Hlen Hv Hsum Hp. unfold calculate_vwap.
  destruct prices as [| p prices].
  { destruct volumes; [cbn in Hsum; lra | discriminate Hlen]. }
  cbn [length Nat.eqb orb].
  assert (E : Qeqb (q_sum volumes) 0 = false) by (apply Qeqb_false; lra).
  rewrite E. cbn [fdiv]. rewrite E.
  destruct (weighted_sum_bounds lo hi (p :: prices) volumes Hlen Hv Hp) as [Hlo Hhi].
  eexists. split; [reflexivity |]. split.
  - apply Qle_shift_div_l; [exact Hsum | exact Hlo].
  - apply Qle_shift_div_r; [exact Hsum | exact Hhi].
Qed.

(** X12 on three trades. *)
Lemma vwap_between_prices_witness :
  exists vwap,
    calculate_vwap [100; 101; 103]%Q [2; 1; 1]%Q = Fin vwap
    /\ (100 <= vwap)%Q /\ (vwap <= 103)%Q.
Proof.
  apply (vwap_between_prices 100 103 [100; 101; 103]%Q [2; 1; 1]%Q).
  - reflexivity.
  - repeat constructor; lra.
  - vm_compute. reflexivity.
  - repeat constructor; lra.
Defined.

(** X13. Whatever the regression returns, the half-life is undefined,
    infinite, or a non-negative number: never negative, never [-inf]. *)
Theorem half_life_never_negative (np_ln : Q -> Q)
    (ols_fit : list Q -> list Q -> result Q) (spread : list (option Q)) :
  (0 < np_ln 2)%Q ->
  (forall x, (0 < x)%Q -> (x < 1)%Q -> (np_ln x < 0)%Q) ->
  half_life_readable (calculate_half_life np_ln ols_fit spread).
Proof.
  intros Hln2 Hln. unfold calculate_half_life.
  destruct (_ <? 20)%nat; [exact I |].
  destruct (_ <? 10)%nat; [exact I |].
  destruct (ols_fit _ _) as [lam | e]; [| exact I].
  destruct (Qgeb lam 0) eqn:Hge; [exact I |].
  apply Qleb_false in Hge. unfold np_log.
  replace (Qltb 2 0) with false by reflexivity.
  replace (Qeqb 2 0) with false by reflexivity.
  cbn [fneg].
  destruct (Qltb (1 + lam) 0) eqn:H1; [exact I |]. apply Qltb_false in H1.
  destruct (Qeqb (1 + lam) 0) eqn:H2; [cbn; lra |]. apply Qeqb_false in H2.
  assert (Hneg : (np_ln (1 + lam) < 0)%Q) by (apply Hln; lra).
  cbn [fdiv].
  assert (H3 : Qeqb (np_ln (1 + lam)%Q) 0 = false) by (apply Qeqb_false; lra).
  rewrite H3. cbn [half_life_readable].
  assert (Hflip : (- np_ln 2 / np_ln (1 + lam) == np_ln 2 / - np_ln (1 + lam))%Q)
    by (field; lra).
  rewrite Hflip. apply Qle_shift_div_l; lra.
Qed.

End ExecutionProperties.

(** X13 with the tangent in place of the logarithm, on twenty samples. *)
Lemma half_life_never_negative_witness :
  Stats.half_life_readable
    (Stats.calculate_half_life Stats.ln_tangent Stats.ols_no_intercept Stats.spread20).
Proof.
  apply (half_life_never_negative Stats.ln_tangent Stats.ols_no_intercept Stats.spread20).
  - vm_compute. reflexivity.
  - intros x _ H. unfold Stats.ln_tangent. lra.
Defined.

(** ** Properties of storage/redis_cache.py *)

Section StorageProperties.

Import Storage.

Lemma last_n_positive {A : Type} (l : list A) (n : Z) :
  (1 <= n)%Z -> last_n l n = drop (length l - Z.to_nat n) l.
Proof.
  intro Hn. unfold last_n.
  destruct (Z.eqb_spec n 0); [lia |].
  destruct (Z.ltb_spec 0 n); [reflexivity | lia].
Qed.

Lemma last_n_length {A : Type} (l : list A) (n : Z) :
  (1 <= n)%Z -> length (last_n l n) = Nat.min (length l) (Z.to_nat n).
Proof.
  intro Hn. rewrite last_n_positive by exact Hn. rewrite length_drop. lia.
Qed.

Lemma last_n_short {A : Type} (l : list A) (n : Z) :
  (Z.of_nat (length l) <= n)%Z -> (0 <= n)%Z -> last_n l n = l.
Proof.
  intros Hlen Hn. unfold last_n.
  destruct (Z.eqb_spec n 0); [reflexivity |].
  destruct (Z.ltb_spec 0 n); [| lia].
  replace (length l - Z.to_nat n)%nat with 0%nat by lia. reflexivity.
Qed.

(** Trimming after each append keeps what trimming once at the end keeps. *)
Lemma last_n_app_last {A : Type} (l : list A) (x : A) (n : Z) :
  (1 <= n)%Z -> last_n (last_n l n ++ [x]) n = last_n (l ++ [x]) n.
Proof.
  intro Hn. rewrite !last_n_positive by exact Hn.
  rewrite !length_app, length_drop. cbn [length].
  destruct (Nat.le_gt_cases (Z.to_nat n) (length l)) as [Hge | Hlt].
  - rewrite drop_app_le by (rewrite length_drop; lia).
    rewrite drop_drop.
    rewrite (drop_app_le l) by lia.
    f_equal. f_equal. lia.
  - replace (length l - Z.to_nat n)%nat with 0%nat by lia.
    rewrite drop_0. f_equal. lia.
Qed.

Lemma add_tick_max_size (self : TickBuffer) (tick : Tick) :
  max_size (add_tick self tick) = max_size self.
Proof. reflexivity. Qed.

Lemma feed_max_size (ticks : list Tick) (self : TickBuffer) :
  max_size (feed self ticks) = max_size self.
Proof.
  revert self. induction ticks as [| t ticks IH]; intro self; [reflexivity |].
  unfold feed in *. cbn [fold_left]. rewrite IH. reflexivity.
Qed.

(** The buffer of the tick's own symbol after [add_tick]. *)
Lemma add_tick_same (self : TickBuffer) (tick : Tick) :
  buffers (add_tick self tick) !! tick_symbol tick =
    let appended := default [] (buffers self !! tick_symbol tick) ++ [tick] in
    Some (if (max_size self <? Z.of_nat (length appended))%Z
          then last_n appended (max_size self) else appended).
Proof.
  unfold add_tick. cbn zeta. cbn [buffers max_size].
  destruct (buffers self !! tick_symbol tick) as [old |] eqn:Hold.
  - rewrite Hold. cbn [default from_option].
    destruct (_ <? _)%Z; rewrite !lookup_insert_eq; reflexivity.
  - rewrite lookup_insert_eq. cbn [default from_option].
    destruct (_ <? _)%Z; rewrite !lookup_insert_eq; reflexivity.
Qed.

(** The buffers of the other symbols are as before, up to the empty buffer
    that a first tick creates for its own symbol. *)
Lemma add_tick_other (self : TickBuffer) (tick : Tick) (symbol : string) :
  tick_symbol tick <> symbol ->
  buffers (add_tick self tick) !! symbol = buffers self !! symbol.
Proof.
  intro Hne. unfold add_tick. cbn zeta. cbn [buffers max_size].
  destruct (buffers self !! tick_symbol tick);
    destruct (_ <? _)%Z; rewrite ?lookup_insert_ne by exact Hne; reflexivity.
Qed.

(** The buffer of a symbol after a sequence of ticks, also when the symbol
    has no buffer yet. *)
Lemma tick_buffer_keeps_most_recent_aux (n : Z) (ticks : list Tick) (symbol : string) :
  (1 <= n)%Z ->
  default [] (buffers (feed (init n) ticks) !! symbol) = last_n (ticks_of symbol ticks) n
  /\ get_ticks (feed (init n) ticks) symbol None
     = default [] (buffers (feed (init n) ticks) !! symbol).
Proof.
  intro Hn. split.
  - induction ticks as [| t ticks IH] using rev_ind.
    + cbn. rewrite lookup_empty. cbn. rewrite last_n_positive by exact Hn. reflexivity.
    + unfold feed in *. rewrite fold_left_app. cbn [fold_left].
      unfold ticks_of in *. rewrite filter_app.
      set (S := fold_left add_tick ticks (init n)) in *.
      assert (Hmax : max_size S = n) by (apply (feed_max_size ticks (init n))).
      destruct (decide (tick_symbol t = symbol)) as [Heq | Hne].
      * rewrite filter_cons_True by exact Heq. rewrite filter_nil.
        subst symbol. rewrite add_tick_same. cbn zeta. cbn [default from_option id].
        rewrite Hmax, IH.
        rewrite <- (last_n_app_last (filter _ ticks) t n Hn).
        destruct (Z.ltb_spec n (Z.of_nat (length (last_n (filter (fun t0 => tick_symbol t0 = tick_symbol t) ticks) n ++ [t]))))
          as [Hlt | Hge]; [reflexivity |].
        symmetry. apply last_n_short; lia.
      * rewrite filter_cons_False by exact Hne. rewrite filter_nil, app_nil_r.
        rewrite add_tick_other by exact Hne. exact IH.
  - unfold get_ticks. destruct (buffers _ !! symbol); reflexivity.
Qed.

(** X14. After any sequence of ticks, the buffer of a symbol holds exactly
    the last [max_size] ticks of that symbol, in arrival order (all of them
    while there are fewer); hence never more than [max_size], for a
    [max_size] of at least 1. *)
Theorem tick_buffer_keeps_most_recent (n : Z) (ticks : list Tick) (symbol : string) :
  (1 <= n)%Z ->
  get_ticks (feed (init n) ticks) symbol None = last_n (ticks_of symbol ticks) n
  /\ (Z.of_nat (length (get_ticks (feed (init n) ticks) symbol None)) <= n)%Z.
Proof.
  intro Hn. destruct (tick_buffer_keeps_most_recent_aux n ticks symbol Hn) as [Hbuf Hget].
  rewrite Hget, Hbuf. split; [reflexivity |].
  rewrite last_n_length by exact Hn. lia.
Qed.

(** X14 on four ticks and a buffer of two per symbol. *)
Lemma tick_buffer_keeps_most_recent_witness :
  get_ticks (feed (init 2) example_ticks) "btcusdt" None
  = last_n (ticks_of "btcusdt" example_ticks) 2
  /\ (Z.of_nat (length (get_ticks (feed (init 2) example_ticks) "btcusdt" None)) <= 2)%Z.
Proof.
  apply (tick_buffer_keeps_most_recent 2 example_ticks "btcusdt"). lia.
Defined.

(** X15. A [max_size] of 0 bounds nothing: the slice [l[-0:]] is the whole
    list, so the buffer keeps every tick of the symbol. *)
Theorem tick_buffer_zero_keeps_all (ticks : list Tick) (symbol : string) :
  get_ticks (feed (init 0) ticks) symbol None = ticks_of symbol ticks.
Proof.
  assert (Hmain : default [] (buffers (feed (init 0) ticks) !! symbol)
                  = ticks_of symbol ticks).
  { induction ticks as [| t ticks IH] using rev_ind.
    - cbn. rewrite lookup_empty. reflexivity.
    - unfold feed in *. rewrite fold_left_app. cbn [fold_left].
      unfold ticks_of in *. rewrite filter_app.
      set (S := fold_left add_tick ticks (init 0)) in *.
      assert (Hmax : max_size S = 0%Z) by (apply (feed_max_size ticks (init 0))).
      destruct (decide (tick_symbol t = symbol)) as [Heq | Hne].
      + rewrite filter_cons_True by exact Heq. rewrite filter_nil.
        subst symbol. rewrite add_tick_same. cbn zeta. cbn [default from_option id].
        rewrite Hmax, IH. destruct (_ <? _)%Z; reflexivity.
      + rewrite filter_cons_False by exact Hne. rewrite filter_nil, app_nil_r.
        rewrite add_tick_other by exact Hne. exact IH. }
  unfold get_ticks. rewrite <- Hmain.
  destruct (buffers _ !! symbol); reflexivity.
Qed.

Lemma head_last_n_1 {A : Type} (l : list A) : head (last_n l 1) = last l.
Proof.
  rewrite last_n_positive by lia. rewrite last_lookup, head_lookup, lookup_drop.
  change (Z.to_nat 1) with 1%nat.
  destruct l as [| x l]; [reflexivity |]. cbn [length].
  f_equal. lia.
Qed.

Lemma last_last_n {A : Type} (l : list A) (n : Z) :
  (1 <= n)%Z -> last (last_n l n) = last l.
Proof.
  intro Hn. rewrite last_n_positive by exact Hn.
  rewrite !last_lookup, lookup_drop, length_drop.
  destruct l as [| x l]; [reflexivity |]. cbn [length].
  f_equal. lia.
Qed.

(** X16. [get_latest_price] is the price of the last tick that arrived for
    the symbol, and [None] for a symbol without ticks. *)
Theorem latest_price_is_last_tick (n : Z) (ticks : list Tick) (symbol : string) :
  (1 <= n)%Z ->
  get_latest_price (feed (init n) ticks) symbol
  = tick_price <$> last (ticks_of symbol ticks).
Proof.
  intro Hn.
  destruct (tick_buffer_keeps_most_recent_aux n ticks symbol Hn) as [Hbuf Hget].
  unfold get_latest_price, get_ticks.
  destruct (buffers (feed (init n) ticks) !! symbol) as [buffer |] eqn:Hb.
  - cbn [default from_option id] in Hbuf.
    rewrite <- (last_last_n (ticks_of symbol ticks) n Hn), <- Hbuf.
    rewrite <- head_last_n_1. destruct (last_n buffer 1); reflexivity.
  - cbn [default from_option id] in Hbuf.
    rewrite <- (last_last_n (ticks_of symbol ticks) n Hn), <- Hbuf. reflexivity.
Qed.

(** X16 on the example ticks. *)
Lemma latest_price_is_last_tick_witness :
  get_latest_price (feed (init 2) example_ticks) "btcusdt" = Some 102%Q
  /\ get_latest_price (feed (init 2) example_ticks) "bnbusdt" = None.
Proof.
  split.
  - rewrite (latest_price_is_last_tick 2 example_ticks "btcusdt") by lia. reflexivity.
  - rewrite (latest_price_is_last_tick 2 example_ticks "bnbusdt") by lia. reflexivity.
Defined.

(** X17. [get_ticks] with a count of at least 1 returns the newest ticks of
    the buffer, at most [count] of them; with a count of 0 it returns the
    whole buffer, not the empty list; for an unknown symbol it returns the
    empty list. *)
Theorem get_ticks_count (self : TickBuffer) (symbol : string) :
  (forall count, (1 <= count)%Z ->
     get_ticks self symbol (Some count) `suffix_of` get_ticks self symbol None
     /\ length (get_ticks self symbol (Some count))
        = Nat.min (length (get_ticks self symbol None)) (Z.to_nat count))
  /\ get_ticks self symbol (Some 0%Z) = get_ticks self symbol None
  /\ (buffers self !! symbol = None -> forall count, get_ticks self symbol count = []).
Proof.
  unfold get_ticks. split; [| split].
  - intros count Hc. destruct (buffers self !! symbol) as [buffer |].
    + split; [| apply last_n_length; exact Hc].
      rewrite last_n_positive by exact Hc. apply suffix_drop.
    + split; [reflexivity | reflexivity].
  - destruct (buffers self !! symbol); reflexivity.
  - intros H count. rewrite H. reflexivity.
Qed.

(** X18. [clear] with a symbol empties that symbol's buffer and leaves the
    others alone; with no symbol, and also with the empty string as symbol,
    it drops every buffer. *)
Theorem clear_effect (self : TickBuffer) (symbol other : string) (count : option Z) :
  (symbol <> "" ->
     get_ticks (clear self (Some symbol)) symbol count = []
     /\ (other <> symbol ->
         get_ticks (clear self (Some symbol)) other count = get_ticks self other count))
  /\ get_ticks (clear self None) other count = []
  /\ get_ticks (clear self (Some "")) other count = []
  /\ max_size (clear self (Some symbol)) = max_size self.
Proof.
  split; [| split; [| split]].
  - intro Hne. unfold clear.
    destruct (String.eqb_spec symbol "") as [He | _]; [contradiction |].
    unfold get_ticks. cbn [buffers]. split.
    + rewrite lookup_insert_eq. destruct count as [c |]; [| reflexivity].
      unfold last_n. destruct (_ =? _)%Z; [reflexivity |].
      destruct (_ <? _)%Z; apply drop_nil.
    + intro Ho. rewrite lookup_insert_ne by (intro; apply Ho; congruence).
      reflexivity.
  - unfold clear, get_ticks. cbn [buffers]. rewrite lookup_empty. reflexivity.
  - unfold clear, get_ticks. cbn [String.eqb buffers]. rewrite lookup_empty. reflexivity.
  - unfold clear. destruct (String.eqb symbol ""); reflexivity.
Qed.

(** X18 on the example ticks. *)
Lemma clear_effect_witness :
  get_ticks (clear (feed (init 2) example_ticks) (Some "btcusdt")) "btcusdt" None = []
  /\ get_ticks (clear (feed (init 2) example_ticks) (Some "btcusdt")) "ethusdt" None
     = get_ticks (feed (init 2) example_ticks) "ethusdt" None.
Proof.
  destruct (clear_effect (feed (init 2) example_ticks) "btcusdt" "ethusdt" None)
    as [H _].
  destruct (H ltac:(discriminate)) as [H1 H2].
  split; [exact H1 | apply H2; discriminate].
Defined.

End StorageProperties.

(** ** Properties of analytics/signal_quality.py *)

Section SignalProperties.

Import Signal.

(** Case analysis on every comparison of rationals in the goal. *)
Ltac cmp_one :=
  match goal with
  | |- context [Qltb ?a ?b] =>
      let E := fresh "E" in
      destruct (Qltb a b) eqn:E;
      [apply Qltb_true in E | apply Qltb_false in E]
  | |- context [Qle_bool ?a ?b] =>
      let E := fresh "E" in
      destruct (Qle_bool a b) eqn:E;
      [apply Qleb_true in E | apply Qleb_false in E]
  | |- context [Qeqb ?a ?b] =>
      let E := fresh "E" in
      destruct (Qeqb a b) eqn:E;
      [apply Qeqb_true in E | apply Qeqb_false in E]
  | H : context [Qle_bool ?a ?b] |- _ =>
      let E := fresh "E" in
      destruct (Qle_bool a b) eqn:E;
      [apply Qleb_true in E | apply Qleb_false in E]
  | H : context [Qltb ?a ?b] |- _ =>
      let E := fresh "E" in
      destruct (Qltb a b) eqn:E;
      [apply Qltb_true in E | apply Qltb_false in E]
  end.

Ltac cmp_all := unfold Qgeb, Qgtb, Qleb in *; repeat cmp_one.

(** Divisions by a literal become multiplications, which [lra] handles. *)
Ltac div_consts :=
  unfold Qdiv;
  repeat match goal with
  | |- context [Qinv (Qmake ?n ?d)] =>
      let v := eval vm_compute in (Qinv (Qmake n d)) in
      change (Qinv (Qmake n d)) with v
  end.

(** *** Z-score and correlation scores *)

Lemma zscore_score_bounds (zscore threshold : Q) :
  exists s,
    calculate_zscore_score zscore threshold = Return s
    /\ (0 <= s)%Q /\ (s <= 100)%Q
    /\ ((s < 50)%Q <-> (Qabs zscore < threshold)%Q).
Proof.
  unfold calculate_zscore_score. cbn zeta.
  pose proof (Qabs_nonneg zscore) as Ha. revert Ha.
  generalize (Qabs zscore). intros a Ha.
  destruct (Qltb a threshold) eqn:E; [apply Qltb_true in E | apply Qltb_false in E].
  - rewrite py_div_nonzero by lra. cbn [rbind].
    assert (H0 : (0 <= a / threshold)%Q) by (apply Qle_shift_div_l; lra).
    assert (H1 : (a / threshold < 1)%Q) by (apply Qlt_shift_div_r; lra).
    eexists. split; [reflexivity |].
    revert H0 H1. generalize (a / threshold)%Q. intros r H0 H1.
    unfold py_min. cmp_all; repeat split; intros; lra.
  - cbn [rbind]. eexists. split; [reflexivity |].
    assert (Hx : ((a - threshold) / 1.0 == a - threshold)%Q) by (field; lra).
    revert Hx. generalize ((a - threshold) / 1.0)%Q. intros x Hx.
    unfold py_min. cmp_all; repeat split; intros; lra.
Qed.

(** X19. [calculate_zscore_score] never raises, whatever the threshold (the
    division by the threshold is reached only below a positive threshold);
    its score lies in [[0, 100]] and is below 50 exactly when the z-score is
    within the threshold. *)
Theorem zscore_score_marks_threshold (zscore threshold : Q) :
  exists s,
    calculate_zscore_score zscore threshold = Return s
    /\ (0 <= s)%Q /\ (s <= 100)%Q
    /\ ((s < 50)%Q <-> (Qabs zscore < threshold)%Q).
Proof. apply zscore_score_bounds. Qed.

Lemma correlation_score_bounds (correlation threshold : Q) :
  (0 <= calculate_correlation_score correlation threshold)%Q
  /\ (calculate_correlation_score correlation threshold <= 100)%Q.
Proof.
  unfold calculate_correlation_score. cbn zeta.
  pose proof (Qabs_nonneg correlation) as Ha. revert Ha.
  generalize (Qabs correlation). intros a Ha.
  unfold py_min. div_consts. cmp_all; split; lra.
Qed.

(** X20. The correlation score lies in [[0, 100]] for every correlation and
    threshold, and with the default threshold 0.7 a stronger correlation
    (in absolute value) never scores lower. *)
Theorem correlation_score_monotone (c1 c2 threshold : Q) :
  (0 <= calculate_correlation_score c1 threshold)%Q
  /\ (calculate_correlation_score c1 threshold <= 100)%Q
  /\ ((Qabs c1 <= Qabs c2)%Q ->
      (calculate_correlation_score c1 0.7 <= calculate_correlation_score c2 0.7)%Q).
Proof.
  split; [apply correlation_score_bounds |]. split; [apply correlation_score_bounds |].
  unfold calculate_correlation_score. cbn zeta.
  pose proof (Qabs_nonneg c1) as Ha1. pose proof (Qabs_nonneg c2) as Ha2.
  revert Ha1 Ha2. generalize (Qabs c1) (Qabs c2). intros a1 a2 Ha1 Ha2 Hle.
  unfold py_min. div_consts. cmp_all; lra.
Qed.

(** *** Scores over floats with special values *)

Ltac float_ops :=
  unfold py_fmax, py_fmin, fgt, fge, flt, fle, feq, fadd, fsub, fmul, fdiv, fabs;
  cbv beta iota.

Ltac float_cases :=
  float_ops; div_consts; unfold Qgeb, Qgtb, Qleb in *;
  repeat (cmp_one; cbv beta iota delta [andb]);
  first [exfalso; lra | eexists; split; [reflexivity | lra]].

Lemma adf_score_bounds (adf_pvalue : option fval) :
  exists q, adf_score adf_pvalue = Fin q /\ (0 <= q <= 100)%Q.
Proof.
  destruct adf_pvalue as [[| | | x] |]; unfold adf_score.
  - exists 0%Q. split; [reflexivity | lra].
  - exists 0%Q. split; [reflexivity | lra].
  - exists 100%Q. split; [reflexivity | lra].
  - float_cases.
  - exists 50%Q. split; [reflexivity | lra].
Qed.

Lemma hl_score_bounds (half_life : option fval) :
  exists q, hl_score half_life = Fin q /\ (0 <= q <= 100)%Q.
Proof.
  destruct half_life as [[| | | x] |]; unfold hl_score.
  - exists 50%Q. split; [reflexivity | lra].
  - exists 0%Q. split; [reflexivity | lra].
  - exists 50%Q. split; [reflexivity | lra].
  - cbn zeta. float_ops. apply Qabs_case; intros Hs; float_cases.
  - exists 50%Q. split; [reflexivity | lra].
Qed.

Lemma cointegration_score_bounds (adf_pvalue half_life : option fval) :
  exists q,
    calculate_cointegration_score adf_pvalue half_life = Fin q
    /\ (0 <= q <= 100)%Q.
Proof.
  unfold calculate_cointegration_score. cbn zeta.
  destruct (adf_score_bounds adf_pvalue) as (a & -> & Ha).
  destruct (hl_score_bounds half_life) as (h & -> & Hh).
  float_cases.
Qed.

Lemma stability_score_bounds (np_sqrt : Q -> Q) (spread : list Q) (lookback : nat) :
  exists q,
    calculate_stability_score np_sqrt spread lookback = Fin q
    /\ (0 <= q <= 100)%Q.
Proof.
  unfold calculate_stability_score.
  destruct (length spread <? lookback)%nat.
  { exists 50%Q. split; [reflexivity | lra]. }
  cbn zeta.
  destruct (feq _ (Fin 0)).
  { exists 0%Q. split; [reflexivity | lra]. }
  match goal with |- context [flt ?cv (Fin 0.1)] => generalize cv end.
  intros [| | | cv].
  - exists 0%Q. split; [reflexivity | lra].
  - exists 0%Q. split; [reflexivity | lra].
  - exists 100%Q. split; [reflexivity | lra].
  - float_cases.
Qed.

(** X21. The two scores computed on floats are finite numbers in
    [[0, 100]] on every input.  The stability score is so for every spread and
    lookback, whatever the square root computes: a coefficient of variation
    that is undefined (a window of one sample) or infinite does not escape
    the range.  The cointegration score is so whatever the p-value and the
    half-life are: [None], [nan], an infinity or a number of any sign. *)
Theorem float_scores_finite (np_sqrt : Q -> Q) (spread : list Q) (lookback : nat)
    (adf_pvalue half_life : option fval) :
  (exists q,
     calculate_stability_score np_sqrt spread lookback = Fin q
     /\ (0 <= q <= 100)%Q)
  /\ (exists q,
        calculate_cointegration_score adf_pvalue half_life = Fin q
        /\ (0 <= q <= 100)%Q).
Proof.
  split; [apply stability_score_bounds | apply cointegration_score_bounds].
Qed.

(** *** Historical score *)

Lemma historical_score_le_100 (win_rate profit_factor : option Q) (total_trades : Z) :
  (calculate_historical_score win_rate profit_factor total_trades <= 100)%Q.
Proof.
  unfold calculate_historical_score.
  destruct win_rate as [w |]; [| lra].
  destruct (total_trades =? 0)%Z; [lra |].
  cbn zeta. apply py_min_le_r.
Qed.

Lemma historical_score_ge_0 (win_rate profit_factor : option Q) (total_trades : Z) :
  (0 <= total_trades)%Z ->
  (forall w, win_rate = Some w -> (0 <= w)%Q) ->
  (forall p, profit_factor = Some p -> (0 <= p)%Q) ->
  (0 <= calculate_historical_score win_rate profit_factor total_trades)%Q.
Proof.
  intros Hn Hw Hp. unfold calculate_historical_score.
  destruct win_rate as [w |]; [| lra].
  specialize (Hw w eq_refl).
  destruct (total_trades =? 0)%Z eqn:Hz; [lra |].
  apply Z.eqb_neq in Hz. cbn zeta.
  match goal with
  | |- context [match profit_factor with Some _ => _ | None => ?b end] =>
      assert (Hb : (0 <= b)%Q) by (div_consts; cmp_all; lra);
      revert Hb; generalize b; intros b1 Hb1
  end.
  match goal with
  | |- context [if (total_trades <? 5)%Z then _ else ?b] =>
      assert (Hb : (0 <= b)%Q)
  end.
  { destruct profit_factor as [p |]; [| exact Hb1].
    specialize (Hp p eq_refl).
    apply Qmult_le_0_compat; [exact Hb1 |].
    unfold py_min. div_consts. cmp_all; lra. }
  revert Hb.
  match goal with
  | |- context [if (total_trades <? 5)%Z then _ else ?b] => generalize b
  end.
  intros b2 Hb2.
  assert (Hmin : forall x, (0 <= x)%Q -> (0 <= py_min x 100)%Q).
  { intros x Hx. unfold py_min. cmp_all; lra. }
  apply Hmin.
  destruct (total_trades <? 5)%Z eqn:H5; [| exact Hb2].
  apply Z.ltb_lt in H5.
  assert (H0 : (0 <= inject_Z total_trades)%Q).
  { change 0%Q with (inject_Z 0). rewrite <- Zle_Qle. lia. }
  assert (H4 : (inject_Z total_trades <= 5)%Q).
  { change 5%Q with (inject_Z 5). rewrite <- Zle_Qle. lia. }
  div_consts.
  pose proof (Qmult_le_0_compat _ _ Hb2 H0) as Hm.
  revert H0 H4 Hm. generalize (inject_Z total_trades). intros f H0 H4 Hm.
  lra.
Qed.

(** X22. The historical score never exceeds 100, and it is not negative
    when the trade count, the win rate and the profit factor are not (as
    those of [get_performance_metrics] are); with no trade or no win rate it
    is the neutral 50. *)
Theorem historical_score_range (win_rate profit_factor : option Q) (total_trades : Z) :
  (0 <= total_trades)%Z ->
  (forall w, win_rate = Some w -> (0 <= w)%Q) ->
  (forall p, profit_factor = Some p -> (0 <= p)%Q) ->
  (0 <= calculate_historical_score win_rate profit_factor total_trades)%Q
  /\ (calculate_historical_score win_rate profit_factor total_trades <= 100)%Q
  /\ (total_trades = 0%Z \/ win_rate = None ->
      calculate_historical_score win_rate profit_factor total_trades == 50)%Q.
Proof.
  intros Hn Hw Hp. split; [apply historical_score_ge_0; assumption |].
  split; [apply historical_score_le_100 |].
  unfold calculate_historical_score. intros [-> | ->].
  - destruct win_rate; reflexivity.
  - reflexivity.
Qed.

(** X22 on a short trading history. *)
Lemma historical_score_range_witness :
  (0 <= calculate_historical_score (Some 55%Q) (Some 1.5%Q) 3)%Q
  /\ (calculate_historical_score (Some 55%Q) (Some 1.5%Q) 3 <= 100)%Q.
Proof.
  destruct (historical_score_range (Some 55%Q) (Some 1.5%Q) 3) as (H0 & H1 & _).
  - lia.
  - intros w [= <-]. lra.
  - intros p [= <-]. lra.
  - split; [exact H0 | exact H1].
Defined.

(** *** Cointegration score of what the analytics compute *)

Lemma adf_test_short (adfuller : list Q -> option Z -> result (fval * fval))
    (series : list (option Q)) (max_lag : option Z) (significance : Q) :
  (length (Stats.observations series) < 20)%nat ->
  Stats.adf_test adfuller series max_lag significance = Stats.adf_undefined.
Proof.
  intros Hlen. unfold Stats.adf_test.
  destruct (length series <? 20)%nat; [reflexivity |].
  cbn zeta. apply Nat.ltb_lt in Hlen. rewrite Hlen. reflexivity.
Qed.

(** X23. On a spread with fewer than 20 observations both analytics are
    undefined ([nan]), and the cointegration score made of them is 25: the
    undefined p-value counts as the worst one (0) and the undefined
    half-life as neutral (50). *)
Theorem short_spread_cointegration_score
    (np_ln : Q -> Q) (ols_fit : list Q -> list Q -> result Q)
    (adfuller : list Q -> option Z -> result (fval * fval))
    (spread : list (option Q)) (max_lag : option Z) (significance : Q) :
  (length (Stats.observations spread) < 20)%nat ->
  exists q,
    calculate_cointegration_score
      (Some (Stats.p_value (Stats.adf_test adfuller spread max_lag significance)))
      (Some (Stats.calculate_half_life np_ln ols_fit spread)) = Fin q
    /\ (q == 25)%Q.
Proof.
  intros Hlen. rewrite adf_test_short by exact Hlen.
  unfold Stats.calculate_half_life. cbn zeta.
  apply Nat.ltb_lt in Hlen. rewrite Hlen.
  eexists. split; [vm_compute; reflexivity | vm_compute; reflexivity].
Qed.

(** X23 on fifteen samples. *)
Lemma short_spread_cointegration_score_witness :
  exists q,
    calculate_cointegration_score
      (Some (Stats.p_value
               (Stats.adf_test (fun _ _ => Return (Fin 0, Fin 0)) Stats.spread15
                  None 0.05%Q)))
      (Some (Stats.calculate_half_life Stats.ln_tangent Stats.ols_no_intercept
               Stats.spread15)) = Fin q
    /\ (q == 25)%Q.
Proof.
  apply (short_spread_cointegration_score Stats.ln_tangent Stats.ols_no_intercept
           (fun _ _ => Return (Fin 0, Fin 0)) Stats.spread15 None 0.05%Q).
  vm_compute. lia.
Defined.

(** X24. A spread whose fitted coefficient is not negative (no mean
    reversion, half-life [+inf]) gets the half-life score 0, so that its
    cointegration score is half the score of its p-value. *)
Theorem no_reversion_half_life_score
    (np_ln : Q -> Q) (ols_fit : list Q -> list Q -> result Q)
    (spread : list (option Q)) (lam : Q) (adf_pvalue : option fval) :
  (20 <= length (Stats.observations spread))%nat ->
  ols_fit (map fst (Stats.lag_pairs spread)) (map snd (Stats.lag_pairs spread))
  = Return lam ->
  (0 <= lam)%Q ->
  hl_score (Some (Stats.calculate_half_life np_ln ols_fit spread)) = Fin 0
  /\ exists a q,
       adf_score adf_pvalue = Fin a
       /\ calculate_cointegration_score adf_pvalue
            (Some (Stats.calculate_half_life np_ln ols_fit spread)) = Fin q
       /\ (q == a * 0.5)%Q.
Proof.
  intros Hlen Hfit Hlam.
  assert (Hhl : Stats.calculate_half_life np_ln ols_fit spread = PInf).
  { unfold Stats.calculate_half_life. cbn zeta.
    apply Nat.ltb_ge in Hlen as Hb. rewrite Hb.
    rewrite lag_pairs_length.
    assert (Hb' : (length (Stats.observations spread) - 1 <? 10)%nat = false)
      by (apply Nat.ltb_ge; lia).
    rewrite Hb', Hfit.
    assert (E : Qgeb lam 0 = true) by (apply Qleb_true; exact Hlam).
    rewrite E. reflexivity. }
  rewrite Hhl. split; [reflexivity |].
  destruct (adf_score_bounds adf_pvalue) as (a & Ha & Ha0 & Ha1).
  exists a. unfold calculate_cointegration_score. cbn zeta.
  rewrite Ha. change (hl_score (Some PInf)) with (Fin 0).
  float_ops. cmp_all; eexists; (split; [reflexivity |]); (split; [reflexivity |]); lra.
Qed.

(** X24 on a drifting spread, with the normal-equation fit. *)
Lemma no_reversion_half_life_score_witness :
  hl_score
    (Some (Stats.calculate_half_life Stats.ln_tangent Stats.ols_no_intercept
             Stats.trend20)) = Fin 0.
Proof.
  eapply proj1.
  eapply (no_reversion_half_life_score Stats.ln_tangent Stats.ols_no_intercept
            Stats.trend20 _ None).
  - vm_compute. lia.
  - vm_compute. reflexivity.
  - vm_compute. discriminate.
Defined.

(** *** Composite score *)

Lemma default_weights_lookup :
  weight default_weights "zscore" = Return 0.25%Q
  /\ weight default_weights "correlation" = Return 0.25%Q
  /\ weight default_weights "stability" = Return 0.20%Q
  /\ weight default_weights "cointegration" = Return 0.15%Q
  /\ weight default_weights "historical" = Return 0.15%Q.
Proof. repeat split; vm_compute; reflexivity. Qed.

Lemma weighted_score_default (np_sqrt : Q -> Q) (zscore correlation : Q)
    (spread : list Q) (adf_pvalue half_life : option fval)
    (win_rate profit_factor : option Q) (total_trades : Z) :
  (0 <= total_trades)%Z ->
  (forall w, win_rate = Some w -> (0 <= w)%Q) ->
  (forall p, profit_factor = Some p -> (0 <= p)%Q) ->
  exists q,
    weighted_score np_sqrt zscore correlation spread adf_pvalue half_life
      win_rate profit_factor total_trades None = Return (Fin q)
    /\ (0 <= q <= 100)%Q.
Proof.
  intros Hn Hw Hp. unfold weighted_score.
  cbn [default from_option]. cbn zeta.
  destruct (zscore_score_bounds zscore 2.0) as (z & -> & Hz0 & Hz1 & _).
  destruct default_weights_lookup as (-> & -> & -> & -> & ->).
  cbn [rbind].
  destruct (stability_score_bounds np_sqrt spread 60) as (s & -> & Hs).
  destruct (cointegration_score_bounds adf_pvalue half_life) as (i & -> & Hi).
  pose proof (correlation_score_bounds correlation 0.7) as [Hc0 Hc1].
  pose proof (historical_score_ge_0 _ _ _ Hn Hw Hp) as Hh0.
  pose proof (historical_score_le_100 win_rate profit_factor total_trades) as Hh1.
  revert Hc0 Hc1 Hh0 Hh1.
  generalize (calculate_correlation_score correlation 0.7).
  generalize (calculate_historical_score win_rate profit_factor total_trades).
  intros h c Hc0 Hc1 Hh0 Hh1.
  cbn [fadd fmul]. eexists. split; [reflexivity | lra].
Qed.

(** X25. With the default weights and a non-negative trading history,
    [calculate_composite_score] does not raise, and the weighted sum it
    classifies and reports (rounded) lies in [[0, 100]]: no [nan] or infinity
    among the analytics reaches it. *)
Theorem composite_score_default_range (np_sqrt round1 : Q -> Q)
    (zscore correlation : Q) (spread : list Q) (adf_pvalue half_life : option fval)
    (win_rate profit_factor : option Q) (total_trades : Z) :
  (0 <= total_trades)%Z ->
  (forall w, win_rate = Some w -> (0 <= w)%Q) ->
  (forall p, profit_factor = Some p -> (0 <= p)%Q) ->
  exists q r,
    weighted_score np_sqrt zscore correlation spread adf_pvalue half_life
      win_rate profit_factor total_trades None = Return (Fin q)
    /\ (0 <= q <= 100)%Q
    /\ calculate_composite_score np_sqrt round1 zscore correlation spread
         adf_pvalue half_life win_rate profit_factor total_trades None = Return r
    /\ composite_score r = Fin (round1 q)
    /\ quality_level r = (quality_of (Fin q)).1.1.
Proof.
  intros Hn Hw Hp.
  destruct (weighted_score_default np_sqrt zscore correlation spread adf_pvalue
              half_life win_rate profit_factor total_trades Hn Hw Hp)
    as (q & Hq & Hr).
  exists q. unfold calculate_composite_score. rewrite Hq. cbn [rbind].
  destruct (zscore_score_bounds zscore 2.0) as (z & -> & _). cbn [rbind].
  destruct (quality_of (Fin q)) as [[ql cf] rc].
  eexists. split; [reflexivity |]. split; [exact Hr |].
  split; [reflexivity |]. split; reflexivity.
Qed.

(** X25 on a strong signal without trading history. *)
Lemma composite_score_default_range_witness :
  exists q r,
    weighted_score (fun x => x) 2.5%Q 0.9%Q [] (Some (Fin 0.005%Q)) (Some (Fin 20%Q))
      None None 0 None = Return (Fin q)
    /\ (0 <= q <= 100)%Q
    /\ calculate_composite_score (fun x => x) (fun x => x) 2.5%Q 0.9%Q []
         (Some (Fin 0.005%Q)) (Some (Fin 20%Q)) None None 0 None = Return r
    /\ composite_score r = Fin q
    /\ quality_level r = (quality_of (Fin q)).1.1.
Proof.
  apply (composite_score_default_range (fun x => x) (fun x => x) 2.5%Q 0.9%Q []
           (Some (Fin 0.005%Q)) (Some (Fin 20%Q)) None None 0).
  - lia.
  - intros w [=].
  - intros p [=].
Defined.

(** X26. Custom weights must name all five components: with every key
    present the composite score is returned, and with any of them missing
    the call raises [KeyError], whatever the analytics are. *)
Theorem composite_score_custom_weights (np_sqrt round1 : Q -> Q)
    (zscore correlation : Q) (spread : list Q) (adf_pvalue half_life : option fval)
    (win_rate profit_factor : option Q) (total_trades : Z)
    (weights : gmap string Q) :
  (Forall (fun k => is_Some (weights !! k))
     ["zscore"; "correlation"; "stability"; "cointegration"; "historical"] ->
   exists r,
     calculate_composite_score np_sqrt round1 zscore correlation spread
       adf_pvalue half_life win_rate profit_factor total_trades (Some weights)
     = Return r)
  /\ (Exists (fun k => weights !! k = None)
        ["zscore"; "correlation"; "stability"; "cointegration"; "historical"] ->
      calculate_composite_score np_sqrt round1 zscore correlation spread
        adf_pvalue half_life win_rate profit_factor total_trades (Some weights)
      = Raise (OtherException "KeyError")).
Proof.
  unfold calculate_composite_score, weighted_score.
  cbn [default from_option id]. cbn zeta.
  destruct (zscore_score_bounds zscore 2.0) as (z & -> & _). cbn [rbind].
  unfold weight. split.
  - intros Hall.
    repeat match goal with
    | H : Forall _ (_ :: _) |- _ =>
        apply Forall_cons in H as [[? ->] H]; cbn [rbind]
    end.
    match goal with
    | |- context [quality_of ?c] => destruct (quality_of c) as [[ql cf] rc]
    end.
    eexists. reflexivity.
  - intros Hex.
    destruct (weights !! "zscore") eqn:E1; [| reflexivity]. cbn [rbind].
    destruct (weights !! "correlation") eqn:E2; [| reflexivity]. cbn [rbind].
    destruct (weights !! "stability") eqn:E3; [| reflexivity]. cbn [rbind].
    destruct (weights !! "cointegration") eqn:E4; [| reflexivity]. cbn [rbind].
    destruct (weights !! "historical") eqn:E5; [| reflexivity].
    exfalso.
    repeat (apply Exists_cons in Hex as [Hex | Hex]; [congruence |]).
    apply Exists_nil in Hex. exact Hex.
Qed.

End SignalProperties.

(** ** The simulator's history in the signal quality score *)

Section PipelineProperties.



End PipelineProperties.

(** ** Properties of the validated tick buffer *)

Section IngestionProperties.

Import Storage Ingestion.

Lemma Forall_last_n {A : Type} (P : A -> Prop) (l : list A) (n : Z) :
  Forall P l -> Forall P (last_n l n).
Proof.
  intro H. unfold last_n.
  destruct (n =? 0)%Z; [exact H |].
  destruct (0 <? n)%Z; apply Forall_drop, H.
Qed.

Lemma add_tick_all_ticks (P : Tick -> Prop) (self : TickBuffer) (tick : Tick) :
  all_ticks P self -> P tick -> all_ticks P (add_tick self tick).
Proof.
  intros Hall Hp symbol l Hl.
  destruct (decide (tick_symbol tick = symbol)) as [<- | Hne].
  - rewrite add_tick_same in Hl. cbn zeta in Hl. injection Hl as <-.
    assert (Happ : Forall (fun t => P t /\ tick_symbol t = tick_symbol tick)
                     (default [] (buffers self !! tick_symbol tick) ++ [tick])).
    { apply Forall_app. split.
      - destruct (buffers self !! tick_symbol tick) as [old |] eqn:Hold.
        + exact (Hall _ _ Hold).
        + constructor.
      - apply Forall_singleton. split; [exact Hp | reflexivity]. }
    destruct (_ <? _)%Z; [apply Forall_last_n |]; exact Happ.
  - rewrite add_tick_other in Hl by exact Hne. exact (Hall _ _ Hl).
Qed.

Lemma validate_tick_true (now : Z) (tick : RawTick) :
  validate_tick now tick = true ->
  exists t,
    to_tick tick = Some t /\ (0 < tick_price t)%Q /\ (0 < tick_size t)%Q.
Proof.
  unfold validate_tick, to_tick.
  destruct (raw_symbol tick) as [symbol |]; [| discriminate].
  destruct (raw_timestamp tick) as [timestamp |]; [| discriminate].
  destruct (raw_price tick) as [price |]; [| discriminate].
  destruct (raw_size tick) as [size |]; [| discriminate].
  destruct (Qleb price 0) eqn:Ep; [discriminate |].
  destruct (Qleb size 0) eqn:Es; [discriminate |].
  cbn [orb]. cbn zeta.
  destruct (Qgtb (total_seconds (now - timestamp)) 300) eqn:Ea; [discriminate |].
  intros _. eexists. split; [reflexivity |].
  cbn [tick_price tick_size].
  apply Qleb_false in Ep, Es. split; [exact Ep | exact Es].
Qed.

Lemma receive_all_ticks (arrivals : list (Z * RawTick)) (self : TickBuffer) :
  all_ticks (fun t => (0 < tick_price t)%Q /\ (0 < tick_size t)%Q) self ->
  all_ticks (fun t => (0 < tick_price t)%Q /\ (0 < tick_size t)%Q)
    (receive self arrivals).
Proof.
  unfold receive. revert self.
  induction arrivals as [| [now tick] arrivals IH]; intros self H; [exact H |].
  cbn [fold_left]. apply IH. unfold on_tick_received.
  destruct (validate_tick now tick) eqn:Hv; [| exact H].
  destruct (validate_tick_true now tick Hv) as (t & -> & Hp & Hs).
  apply add_tick_all_ticks; [exact H | split; assumption].
Qed.

Lemma latest_price_after_add (self : TickBuffer) (tick : Tick) :
  (1 <= max_size self)%Z ->
  get_latest_price (add_tick self tick) (tick_symbol tick) = Some (tick_price tick).
Proof.
  intro Hn. unfold get_latest_price, get_ticks.
  rewrite add_tick_same. cbn zeta. cbv beta iota.
  match goal with
  | |- context [last_n ?l 1] =>
      assert (Hlast : head (last_n l 1) = Some tick)
  end.
  { rewrite head_last_n_1.
    destruct (_ <? _)%Z; [rewrite last_last_n by exact Hn |]; apply last_snoc. }
  destruct (last_n _ 1) as [| t l]; [discriminate Hlast |].
  injection Hlast as ->. reflexivity.
Qed.

Lemma receive_max_size (arrivals : list (Z * RawTick)) (self : TickBuffer) :
  max_size (receive self arrivals) = max_size self.
Proof.
  revert self. induction arrivals as [| [now tick] l IH]; intro self; [reflexivity |].
  unfold receive in *. cbn [fold_left]. rewrite IH.
  unfold on_tick_received.
  destruct (validate_tick now tick); [| reflexivity].
  destruct (to_tick tick); reflexivity.
Qed.

(** X28. Whatever arrives, the buffer that [on_tick_received] fills holds
    only validated ticks: every tick returned for a symbol carries that
    symbol and a positive price and size, and the latest price, when there
    is one, is positive, for every [max_size].  A tick that passes the
    validation is buffered: with a [max_size] of at least 1 its price is the
    latest price of its symbol afterwards. *)
Theorem buffered_ticks_are_valid (n : Z) (arrivals : list (Z * RawTick))
    (symbol : string) (count : option Z) :
  Forall (fun t => tick_symbol t = symbol /\ (0 < tick_price t)%Q /\ (0 < tick_size t)%Q)
    (get_ticks (receive (init n) arrivals) symbol count)
  /\ (forall price,
        get_latest_price (receive (init n) arrivals) symbol = Some price ->
        (0 < price)%Q)
  /\ (forall now tick,
        (1 <= n)%Z ->
        validate_tick now tick = true ->
        raw_symbol tick = Some symbol ->
        get_latest_price (receive (init n) (arrivals ++ [(now, tick)])) symbol
        = raw_price tick).
Proof.
  assert (Hthird : forall now tick,
             (1 <= n)%Z ->
             validate_tick now tick = true ->
             raw_symbol tick = Some symbol ->
             get_latest_price (receive (init n) (arrivals ++ [(now, tick)])) symbol
             = raw_price tick).
  { intros now tick Hn Hv Hsym. unfold receive.
    rewrite fold_left_app. cbn [fold_left].
    change (fold_left on_tick_received arrivals (init n))
      with (receive (init n) arrivals).
    pose proof (receive_max_size arrivals (init n)) as Hmax.
    revert Hmax. generalize (receive (init n) arrivals). intros b Hmax.
    unfold on_tick_received. rewrite Hv.
    destruct (validate_tick_true now tick Hv) as (t & Ht & _).
    rewrite Ht. unfold to_tick in Ht. rewrite Hsym in Ht.
    destruct (raw_timestamp tick); [| discriminate Ht].
    destruct (raw_price tick) as [price |]; [| discriminate Ht].
    destruct (raw_size tick); [| discriminate Ht].
    injection Ht as <-.
    apply (latest_price_after_add b). rewrite Hmax. exact Hn. }
  assert (Hall : all_ticks (fun t => (0 < tick_price t)%Q /\ (0 < tick_size t)%Q)
                   (receive (init n) arrivals)).
  { apply receive_all_ticks. intros s l Hl. cbn in Hl.
    rewrite lookup_empty in Hl. discriminate Hl. }
  assert (Hget : forall count,
             Forall (fun t => tick_symbol t = symbol
                              /\ (0 < tick_price t)%Q /\ (0 < tick_size t)%Q)
               (get_ticks (receive (init n) arrivals) symbol count)).
  { intros c. unfold get_ticks.
    destruct (buffers (receive (init n) arrivals) !! symbol) as [l |] eqn:Hl;
      [| constructor].
    assert (Hl' : Forall (fun t => tick_symbol t = symbol
                                   /\ (0 < tick_price t)%Q /\ (0 < tick_size t)%Q) l).
    { eapply Forall_impl; [exact (Hall _ _ Hl) |].
      intros t [[Hp Hs] Hsym]. repeat split; assumption. }
    destruct c; [apply Forall_last_n |]; exact Hl'. }
  split; [apply Hget |]. split; [| exact Hthird].
  intros price. unfold get_latest_price.
  specialize (Hget (Some 1%Z)).
  destruct (get_ticks (receive (init n) arrivals) symbol (Some 1%Z)) as [| t l];
    [discriminate |].
  intros [= <-]. inversion Hget as [| ? ? (_ & Hp & _) _]. exact Hp.
Qed.

End IngestionProperties.

(** ** Properties of the drawdown metrics *)

Section DrawdownProperties.

Import Risk.

Lemma expanding_max_from_length (m : Q) (l : list Q) :
  length (expanding_max_from m l) = length l.
Proof.
  revert m. induction l as [| x l IH]; intro m; [reflexivity |].
  cbn [expanding_max_from length]. rewrite IH. reflexivity.
Qed.

(** Each running maximum is at least the start value and the element at its
    position, and the last one is at least every element. *)
Lemma expanding_max_from_bounds (m : Q) (l : list Q) :
  Forall2 Qle l (expanding_max_from m l)
  /\ Forall (Qle m) (expanding_max_from m l)
  /\ (m <= default m (last (expanding_max_from m l)))%Q
  /\ Forall (fun x => (x <= default m (last (expanding_max_from m l)))%Q) l.
Proof.
  revert m. induction l as [| x l IH]; intro m.
  { cbn. repeat split; try constructor. lra. }
  destruct (IH (py_max m x)) as (H1 & H2 & H3 & H4).
  pose proof (py_max_ge_l m x) as Hl. pose proof (py_max_ge_r m x) as Hr.
  cbn [expanding_max_from].
  assert (Hlast : default m (last (py_max m x :: expanding_max_from (py_max m x) l))
                  = default (py_max m x) (last (expanding_max_from (py_max m x) l))).
  { rewrite last_cons. destruct (last (expanding_max_from (py_max m x) l)); reflexivity. }
  rewrite Hlast. repeat split.
  - constructor; [exact Hr | exact H1].
  - constructor; [exact Hl |].
    eapply Forall_impl; [exact H2 |]. intros y Hy. cbn beta in Hy. lra.
  - lra.
  - constructor; [lra | exact H4].
Qed.

Lemma fold_left_py_min_le (l : list Q) (x : Q) :
  (fold_left py_min l x <= x)%Q
  /\ Forall (fun y => (fold_left py_min l x <= y)%Q) l.
Proof.
  revert x. induction l as [| y l IH]; intro x.
  { cbn. split; [lra | constructor]. }
  cbn [fold_left]. destruct (IH (py_min x y)) as [H1 H2].
  pose proof (py_min_le_l x y). pose proof (py_min_le_r x y).
  split; [lra |]. constructor; [lra | exact H2].
Qed.

Lemma series_min_le (l : list Q) (x : Q) :
  x ∈ l -> exists m, series_min l = Some m /\ (m <= x)%Q.
Proof.
  destruct l as [| y l]; [intro H; inversion H |].
  intro Hin. cbn [series_min]. eexists. split; [reflexivity |].
  destruct (fold_left_py_min_le l y) as [H1 H2].
  apply elem_of_cons in Hin as [-> | Hin]; [exact H1 |].
  exact (proj1 (Forall_forall _ _) H2 x Hin).
Qed.

Lemma zip_with_minus_nonpos (a b : list Q) :
  Forall2 Qle a b -> Forall (fun d => (d <= 0)%Q) (zip_with Qminus a b).
Proof.
  induction 1 as [| x y a b Hxy _ IH]; [constructor |].
  cbn [zip_with]. constructor; [lra | exact IH].
Qed.

Lemma expanding_max_bounds (x : Q) (l : list Q) :
  Forall2 Qle (x :: l) (expanding_max (x :: l))
  /\ Forall (Qle x) (expanding_max (x :: l))
  /\ Forall (fun e => (e <= default 0%Q (last (expanding_max (x :: l))))%Q) (x :: l).
Proof.
  destruct (expanding_max_from_bounds x l) as (H1 & H2 & H3 & H4).
  cbn [expanding_max].
  assert (Hlast : default 0%Q (last (x :: expanding_max_from x l))
                  = default x (last (expanding_max_from x l))).
  { rewrite last_cons. destruct (last (expanding_max_from x l)); reflexivity. }
  rewrite Hlast. repeat split.
  - constructor; [lra | exact H1].
  - constructor; [unfold Qle; lia | exact H2].
  - constructor; [exact H3 | exact H4].
Qed.

(** The absolute drawdowns of a curve of at least two points. *)
Lemma drawdown_absolute (x y : Q) (l : list Q) :
  let dd := calculate_max_drawdown (x :: y :: l) in
  (0 <= dd_current_drawdown dd)%Q
  /\ (dd_current_drawdown dd <= dd_max_drawdown dd)%Q
  /\ Forall (fun e => (e <= dd_peak_equity dd)%Q) (x :: y :: l).
Proof.
  cbn zeta. unfold calculate_max_drawdown.
  change (length (x :: y :: l) <? 2)%nat with false. cbn zeta.
  cbn [dd_current_drawdown dd_max_drawdown dd_peak_equity].
  destruct (expanding_max_bounds x (y :: l)) as (H1 & _ & H3).
  split; [apply Qabs_nonneg |]. split; [| exact H3].
  pose proof (zip_with_minus_nonpos _ _ H1) as Hneg.
  set (drawdown := zip_with Qminus (x :: y :: l) (expanding_max (x :: y :: l))) in *.
  destruct (last drawdown) as [c |] eqn:Hlast.
  2: { exfalso. apply last_None in Hlast. subst drawdown. discriminate Hlast. }
  apply last_Some_elem_of in Hlast.
  destruct (series_min_le drawdown c Hlast) as (m & -> & Hm).
  cbn [default from_option id].
  pose proof (proj1 (Forall_forall _ _) Hneg c Hlast) as Hc. cbn beta in Hc.
  rewrite (Qabs_neg c) by exact Hc.
  rewrite (Qabs_neg m) by lra. lra.
Qed.

Lemma drawdown_pct_finite (drawdown running_max : list Q) :
  Forall (fun m => ~ (m == 0)%Q) running_max ->
  zip_with (fun d m => fmul (fdiv (Fin d) (Fin m)) (Fin 100)) drawdown running_max
  = Fin <$> zip_with (fun d m => (d / m * 100)%Q) drawdown running_max.
Proof.
  revert running_max.
  induction drawdown as [| d ds IH]; intros [| m ms] H; try reflexivity.
  inversion H as [| ? ? Hm Hms]; subst.
  cbn [zip_with fmap list_fmap]. rewrite (IH ms Hms).
  unfold fdiv. apply Qeqb_false in Hm. rewrite Hm. reflexivity.
Qed.

Lemma fold_left_fmin_fin (l : list Q) (x : Q) :
  fold_left fmin_skipna (Fin <$> l) (Fin x) = Fin (fold_left py_min l x).
Proof.
  revert x. induction l as [| y l IH]; intro x; [reflexivity |].
  cbn [fmap list_fmap fold_left].
  assert (E : fmin_skipna (Fin x) (Fin y) = Fin (py_min x y)).
  { unfold fmin_skipna, flt, py_min. destruct (Qltb y x); reflexivity. }
  rewrite E. apply IH.
Qed.

Lemma fold_left_py_min_in (l : list Q) (x : Q) : fold_left py_min l x ∈ x :: l.
Proof.
  revert x. induction l as [| y l IH]; intro x; [cbn; apply list_elem_of_here |].
  cbn [fold_left]. specialize (IH (py_min x y)).
  apply elem_of_cons in IH as [-> | IH].
  - unfold py_min. destruct (Qltb y x).
    + apply list_elem_of_further, list_elem_of_here.
    + apply list_elem_of_here.
  - do 2 apply list_elem_of_further. exact IH.
Qed.

Lemma drawdown_pct_bounds (curve running_max : list Q) :
  Forall2 Qle curve running_max ->
  Forall (fun e => (0 < e)%Q) curve ->
  Forall (fun m => ~ (m == 0)%Q) running_max
  /\ Forall (fun p => (-100 < p)%Q /\ (p <= 0)%Q)
       (zip_with (fun d m => (d / m * 100)%Q) (zip_with Qminus curve running_max)
          running_max).
Proof.
  induction 1 as [| e m es ms Hem _ IH]; intro Hpos; [split; constructor |].
  inversion Hpos as [| ? ? He Hes]; subst.
  destruct (IH Hes) as [IH1 IH2].
  split; [constructor; [lra | exact IH1] |].
  cbn [zip_with]. constructor; [| exact IH2].
  assert (H1 : ((e - m) / m <= 0)%Q) by (apply Qle_shift_div_r; lra).
  assert (H2 : (-1 < (e - m) / m)%Q) by (apply Qlt_shift_div_l; lra).
  split; lra.
Qed.

(** The percentages of a curve of at least two positive points. *)
Lemma drawdown_percent (x y : Q) (l : list Q) :
  Forall (fun e => (0 < e)%Q) (x :: y :: l) ->
  let dd := calculate_max_drawdown (x :: y :: l) in
  exists current maximal,
    dd_current_drawdown_pct dd = Fin current
    /\ dd_max_drawdown_pct dd = Fin maximal
    /\ (0 <= current)%Q /\ (current <= maximal)%Q /\ (maximal < 100)%Q.
Proof.
  intro Hpos. cbn zeta. unfold calculate_max_drawdown.
  change (length (x :: y :: l) <? 2)%nat with false. cbn zeta.
  cbn [dd_current_drawdown_pct dd_max_drawdown_pct].
  destruct (expanding_max_bounds x (y :: l)) as (H1 & _ & _).
  destruct (drawdown_pct_bounds _ _ H1 Hpos) as [Hnz Hp].
  rewrite (drawdown_pct_finite _ _ Hnz).
  set (pcts := zip_with (fun d m => (d / m * 100)%Q)
                 (zip_with Qminus (x :: y :: l) (expanding_max (x :: y :: l)))
                 (expanding_max (x :: y :: l))) in *.
  destruct pcts as [| p ps] eqn:Hpcts; [discriminate Hpcts |].
  unfold fseries_min. cbn [fmap list_fmap fold_left fmin_skipna].
  change (list_fmap Q fval Fin ps) with (Fin <$> ps).
  rewrite fold_left_fmin_fin.
  change (Fin p :: (Fin <$> ps)) with (Fin <$> p :: ps).
  rewrite fmap_last.
  destruct (last (p :: ps)) as [c |] eqn:Hlast.
  2: { apply last_None in Hlast. discriminate Hlast. }
  cbn [fmap option_fmap option_map default from_option id fabs].
  do 2 eexists. split; [reflexivity |]. split; [reflexivity |].
  apply last_Some_elem_of in Hlast.
  pose proof (fold_left_py_min_in ps p) as Hin.
  destruct (fold_left_py_min_le ps p) as [Hle1 Hle2].
  assert (Hmc : (fold_left py_min ps p <= c)%Q).
  { apply elem_of_cons in Hlast as [-> | Hlast]; [exact Hle1 |].
    exact (proj1 (Forall_forall _ _) Hle2 c Hlast). }
  destruct (proj1 (Forall_forall _ _) Hp c Hlast) as [Hc1 Hc2].
  destruct (proj1 (Forall_forall _ _) Hp _ Hin) as [Hm1 Hm2].
  rewrite (Qabs_neg c) by exact Hc2.
  rewrite (Qabs_neg (fold_left py_min ps p)) by exact Hm2.
  repeat split; lra.
Qed.

Lemma last_zip_with {A B C : Type} (f : A -> B -> C) (a : list A) (b : list B) :
  length a = length b ->
  last (zip_with f a b)
  = match last a, last b with
    | Some x, Some y => Some (f x y)
    | _, _ => None
    end.
Proof.
  revert b. induction a as [| x a IH]; intros [| y b] Hlen; try discriminate Hlen;
    [reflexivity |].
  injection Hlen as Hlen. cbn [zip_with]. rewrite !last_cons, (IH b Hlen).
  destruct a as [| x' a], b as [| y' b]; try discriminate Hlen; [reflexivity |].
  destruct (last (x' :: a)) eqn:Ea; [| apply last_None in Ea; discriminate Ea].
  destruct (last (y' :: b)) eqn:Eb; [| apply last_None in Eb; discriminate Eb].
  reflexivity.
Qed.

Lemma expanding_max_length (l : list Q) : length (expanding_max l) = length l.
Proof.
  destruct l as [| x l]; [reflexivity |].
  cbn [expanding_max length]. rewrite expanding_max_from_length. reflexivity.
Qed.

(** X29. The drawdown metrics of an equity curve are in range: the current
    drawdown lies between 0 and the maximal drawdown, no point of the curve
    exceeds the reported peak, a curve of fewer than two points has no
    drawdown, and on a curve of at least two positive points both
    percentages are finite, with the current one between 0 and the maximal
    one, which stays below 100. *)
Theorem drawdown_metrics_range (equity_curve : list Q) :
  (0 <= dd_current_drawdown (calculate_max_drawdown equity_curve))%Q
  /\ (dd_current_drawdown (calculate_max_drawdown equity_curve)
      <= dd_max_drawdown (calculate_max_drawdown equity_curve))%Q
  /\ Forall (fun e => (e <= dd_peak_equity (calculate_max_drawdown equity_curve))%Q)
       equity_curve
  /\ ((length equity_curve < 2)%nat ->
      (dd_max_drawdown (calculate_max_drawdown equity_curve) == 0)%Q)
  /\ ((2 <= length equity_curve)%nat ->
      Forall (fun e => (0 < e)%Q) equity_curve ->
      exists current maximal,
        dd_current_drawdown_pct (calculate_max_drawdown equity_curve) = Fin current
        /\ dd_max_drawdown_pct (calculate_max_drawdown equity_curve) = Fin maximal
        /\ (0 <= current)%Q /\ (current <= maximal)%Q /\ (maximal < 100)%Q).
Proof.
  destruct equity_curve as [| x [| y l]].
  - cbn. repeat split; try lra; try constructor. intros H. inversion H.
  - cbn. repeat split; try lra.
    + constructor; [lra | constructor].
    + intros H. exfalso. lia.
  - destruct (drawdown_absolute x y l) as (H1 & H2 & H3).
    split; [exact H1 |]. split; [exact H2 |]. split; [exact H3 |].
    split; [cbn [length]; intro H; exfalso; lia |].
    intros _ Hpos. exact (drawdown_percent x y l Hpos).
Qed.

(** X30. The equity curve that [_compute_analytics] builds from the closed
    trades of the simulator agrees with the simulator's own books: its last
    point is the current capital, the peak reported by
    [calculate_max_drawdown] is the simulator's peak capital, and the current
    drawdown is the distance of the capital from that peak. *)
Theorem drawdown_agrees_with_simulator (capital entry exit size_pct stop take : Q)
    (observations : list Pnl.Observation) (s : Pnl.PositionSimulator) :
  (0 < capital)%Q ->
  s = Pnl.run (Pnl.init capital entry exit size_pct stop take) observations ->
  Pnl.closed_trades s <> [] ->
  let equity_curve :=
    equity_curve_of (Pnl.initial_capital s)
      (map Pnl.trade_pnl (Pnl.closed_trades s)) in
  length equity_curve = S (length (Pnl.closed_trades s))
  /\ (default 0%Q (last equity_curve) == Pnl.current_capital s)%Q
  /\ (dd_peak_equity (calculate_max_drawdown equity_curve) == Pnl.peak_capital s)%Q
  /\ (dd_current_drawdown (calculate_max_drawdown equity_curve)
      == Pnl.peak_capital s - Pnl.current_capital s)%Q.
Proof.
  intros Hcap -> Hne. cbn zeta.
  destruct (run_consistent _ observations
              (init_consistent capital entry exit size_pct stop take Hcap))
    as [Hinit Hcb Hpb _ _ Hpk _ _ _ _ _ Hpc].
  set (s := Pnl.run (Pnl.init capital entry exit size_pct stop take) observations) in *.
  pose proof (equity_curve_length (Pnl.initial_capital s)
                (map Pnl.trade_pnl (Pnl.closed_trades s))) as Hlen.
  rewrite length_map in Hlen.
  pose proof (equity_curve_last (Pnl.initial_capital s)
                (map Pnl.trade_pnl (Pnl.closed_trades s))) as Hlast.
  assert (Hcur : (default 0%Q (last (equity_curve_of (Pnl.initial_capital s)
                                       (map Pnl.trade_pnl (Pnl.closed_trades s))))
                  == Pnl.current_capital s)%Q) by (rewrite Hlast; lra).
  split; [exact Hlen |]. split; [exact Hcur |].
  revert Hlen Hcur Hpc.
  generalize (equity_curve_of (Pnl.initial_capital s)
                (map Pnl.trade_pnl (Pnl.closed_trades s))).
  intros curve Hlen Hcur Hpeak.
  destruct curve as [| x [| y l]].
  - discriminate Hlen.
  - exfalso. destruct (Pnl.closed_trades s); [contradiction | discriminate Hlen].
  - unfold calculate_max_drawdown.
    change (length (x :: y :: l) <? 2)%nat with false. cbn zeta.
    cbn [dd_peak_equity dd_current_drawdown].
    split; [symmetry; exact Hpeak |].
    rewrite last_zip_with by (rewrite expanding_max_length; reflexivity).
    destruct (last (x :: y :: l)) as [lc |] eqn:Elc;
      [| apply last_None in Elc; discriminate Elc].
    destruct (last (expanding_max (x :: y :: l))) as [lr |] eqn:Elr;
      [| apply last_None in Elr; discriminate Elr].
    cbn [default from_option id] in *.
    rewrite Qabs_neg by lra. lra.
Qed.

(** X30 on the example of the simulator's source file. *)
Lemma drawdown_agrees_with_simulator_witness :
  (dd_peak_equity
     (calculate_max_drawdown
        (equity_curve_of
           (Pnl.initial_capital (Pnl.run Pnl.default_simulator Pnl.example_observations))
           (map Pnl.trade_pnl
              (Pnl.closed_trades
                 (Pnl.run Pnl.default_simulator Pnl.example_observations)))))
   == Pnl.peak_capital (Pnl.run Pnl.default_simulator Pnl.example_observations))%Q.
Proof.
  apply (drawdown_agrees_with_simulator 10000 2.0 0.2 0.10 0.05 0.10
           Pnl.example_observations).
  - lra.
  - reflexivity.
  - vm_compute. discriminate.
Defined.

End DrawdownProperties.
